(** * Trello automation examples: a shallow embedding

    The Python module [examples/python-examples.py] drives a task board
    through one gateway, [TrelloMCPClient.call_tool].  Every method is a
    sequence of gateway calls glued together by string formatting, date
    arithmetic and counting.  The embedding keeps that shape:

    - a method is a computation in a state-and-exception monad whose state
      is the journal of gateway calls issued so far, the number of clock
      reads, and the console output;
    - the board service and the wall clock are the parameters of the
      development: what they answer may depend on everything that was
      asked before;
    - Python [str] values are [string]s holding their UTF-8 bytes, and
      are read character by character where the code looks at characters;
      Python [int]s are [Z]; a [float] is the rational number it stands
      for, and every operation on floats rounds as binary64 does;
      dictionaries with iteration order are association lists,
      dictionaries used for lookup only are [gmap]s. *)

From Stdlib Require Import ZArith QArith Qabs Ascii String List Lia.
From stdpp Require Import base option numbers list strings gmap pretty.

Local Open Scope string_scope.
Local Open Scope Z_scope.

(** ** Text helpers *)

Module Text.

Definition nl : string := String (ascii_of_nat 10) EmptyString.

(** [a <= c <= b] on character codes. *)
Definition between (a b c : ascii) : bool :=
  (nat_of_ascii a <=? nat_of_ascii c)%nat && (nat_of_ascii c <=? nat_of_ascii b)%nat.

(** An ASCII digit, the only kind that the parser of [fromisoformat]
    reads. *)
Definition is_digit (c : ascii) : bool := between "0" "9" c.

Fixpoint map_chars (f : ascii -> ascii) (s : string) : string :=
  match s with
  | EmptyString => EmptyString
  | String c t => String (f c) (map_chars f t)
  end.

Definition upper_char (c : ascii) : ascii :=
  if between "a" "z" c then ascii_of_nat (nat_of_ascii c - 32) else c.

Definition lower_char (c : ascii) : ascii :=
  if between "A" "Z" c then ascii_of_nat (nat_of_ascii c + 32) else c.

(** [str.upper] and [str.lower]; bytes of non-ASCII characters are left
    alone. *)
Definition upper : string -> string := map_chars upper_char.
Definition lower : string -> string := map_chars lower_char.

(** [needle in hay] for two [str] values. *)
Fixpoint contains (needle hay : string) : bool :=
  String.prefix needle hay ||
  match hay with
  | EmptyString => false
  | String _ t => contains needle t
  end.

(** [sep.join(parts)]. *)
Fixpoint join (sep : string) (parts : list string) : string :=
  match parts with
  | [] => ""
  | [p] => p
  | p :: ps => p +:+ sep +:+ join sep ps
  end.

(** [s.split(sep)] for a one-character separator. *)
Fixpoint split_on (sep : ascii) (s : string) : list string :=
  match s with
  | EmptyString => [""]
  | String c t =>
      if Ascii.eqb c sep then "" :: split_on sep t
      else match split_on sep t with
           | [] => [String c ""]
           | w :: ws => String c w :: ws
           end
  end.

(** [s.replace(old, new)] for a one-character [old]. *)
Fixpoint replace_char (old : ascii) (new : string) (s : string) : string :=
  match s with
  | EmptyString => EmptyString
  | String c t =>
      if Ascii.eqb c old then new +:+ replace_char old new t
      else String c (replace_char old new t)
  end.

(** Truth value of a [str]: the empty string is false. *)
Definition truthy (s : string) : bool := negb (String.eqb s "").

(** The number that a run of ASCII digits writes. *)
Definition digit_value (c : ascii) : Z := Z.of_nat (nat_of_ascii c) - 48.

Fixpoint int_of_digits_from (acc : Z) (s : string) : Z :=
  match s with
  | EmptyString => acc
  | String c t => int_of_digits_from (10 * acc + digit_value c) t
  end.

Definition int_of_digits : string -> Z := int_of_digits_from 0.

(** [str(n)] for an [int]. *)
Definition str_of_int (n : Z) : string := pretty n.

End Text.

(** ** Characters

    A [str] is a sequence of code points; the bytes of a [string] are its
    UTF-8 form. *)

Module Unicode.

Definition byte (c : ascii) : Z := Z.of_nat (nat_of_ascii c).

(** The six bits of a continuation byte. *)
Definition continuation (c : ascii) : option Z :=
  if (128 <=? byte c) && (byte c <? 192) then Some (byte c - 128) else None.

(** The first character of a text: its code point and the text after it.
    Bytes that are no UTF-8 form of a character are no character. *)
Definition decode (s : string) : option (Z * string) :=
  match s with
  | EmptyString => None
  | String c0 t0 =>
      let b0 := byte c0 in
      if b0 <? 128 then Some (b0, t0)
      else if (194 <=? b0) && (b0 <? 224) then
        match t0 with
        | String c1 t1 =>
            b1 ← continuation c1;
            Some ((b0 - 192) * 64 + b1, t1)
        | _ => None
        end
      else if (224 <=? b0) && (b0 <? 240) then
        match t0 with
        | String c1 (String c2 t2) =>
            b1 ← continuation c1;
            b2 ← continuation c2;
            let cp := ((b0 - 224) * 64 + b1) * 64 + b2 in
            if (2048 <=? cp) && negb ((55296 <=? cp) && (cp <? 57344))
            then Some (cp, t2) else None
        | _ => None
        end
      else if (240 <=? b0) && (b0 <? 245) then
        match t0 with
        | String c1 (String c2 (String c3 t3)) =>
            b1 ← continuation c1;
            b2 ← continuation c2;
            b3 ← continuation c3;
            let cp := (((b0 - 240) * 64 + b1) * 64 + b2) * 64 + b3 in
            if (65536 <=? cp) && (cp <? 1114112) then Some (cp, t3) else None
        | _ => None
        end
      else None
  end.

(** The decimal digits (general category Nd) of Unicode 14.0, the
    character database of CPython 3.11: 66 runs of ten consecutive code
    points, each run counting from zero to nine.  The table lists the code
    point of the zero of each run: the ASCII digits, the Arabic-Indic ones
    from U+0660, and so on up to the segmented digits from U+1FBF0. *)
Definition decimal_zeros : list Z :=
  [48; 1632; 1776; 1984; 2406; 2534; 2662; 2790; 2918; 3046; 3174; 3302; 3430; 3558;
   3664; 3792; 3872; 4160; 4240; 6112; 6160; 6470; 6608; 6784; 6800; 6992; 7088; 7232;
   7248; 42528; 43216; 43264; 43472; 43504; 43600; 44016; 65296; 66720; 68912; 69734;
   69872; 69942; 70096; 70384; 70736; 70864; 71248; 71360; 71472; 71904; 72016; 72784;
   73040; 73120; 92768; 92864; 93008; 120782; 120792; 120802; 120812; 120822; 123200;
   123632; 125264; 130032].

(** The value of a decimal digit; [None] for every other code point.  This
    is the class [\d] of the [re] module on [str] patterns, and the digits
    that [int] reads. *)
Definition decimal_value (cp : Z) : option Z :=
  zero ← find (fun zero => (zero <=? cp) && (cp <? zero + 10)) decimal_zeros;
  Some (cp - zero).

End Unicode.

(** ** Exceptions and outcomes *)

Inductive exn :=
| ValueError (msg : string)
| KeyError (key : string)
| IndexError (msg : string)
| TypeError (msg : string)
| AttributeError (msg : string)
| OverflowError (msg : string)
| ZeroDivisionError (msg : string)
| RemoteError (info : string).

Inductive outcome (A : Type) :=
| Returned (a : A)
| Raised (e : exn).
Arguments Returned {A} a.
Arguments Raised {A} e.

#[global] Instance outcome_ret : MRet outcome := @Returned.
#[global] Instance outcome_bind : MBind outcome :=
  fun A B k o => match o with Returned a => k a | Raised e => Raised e end.

(** ** Floating point

    A finite [float] is a binary64 number: a whole number of units of
    [2 ^ -1074], the smallest positive float, namely [m * 2 ^ k] units with
    [|m| < 2 ^ 53] and [0 <= k <= 2045].  It is kept by its value, a
    fraction in lowest terms (what [as_integer_ratio] shows); the two
    zeros are one value. *)

Module Float.

(** The integer nearest to [num / den], the even one of two that are
    equally near; [0 < den]. *)
Definition round_half_even (num den : Z) : Z :=
  let q := num / den in
  let r := num mod den in
  if 2 * r <? den then q
  else if den <? 2 * r then q + 1
  else if Z.even q then q else q + 1.

(** [n] in units of [2 ^ -1074]. *)
Definition scale (n : Z) : Z := n * 2 ^ 1074.

(** The spacing [2 ^ k] units of the binary64 numbers around [n / d]:
    53 significant bits, and one unit where the quotient is too small for
    that; [0 < n] and [0 < d]. *)
Definition exponent (n d : Z) : Z := Z.max (Z.log2 (scale n / d) - 52) 0.

(** [n / d] in units of [2 ^ -1074], rounded to the nearest multiple of
    the spacing; [0 < n] and [0 < d]. *)
Definition nearest (n d : Z) : Z :=
  round_half_even (scale n) (d * 2 ^ exponent n d) * 2 ^ exponent n d.

(** So many units lie beyond the largest binary64 number. *)
Definition too_large (units : Z) : bool := 2 ^ 2098 <=? units.

(** The value of so many units, as a fraction in lowest terms. *)
Definition value (units : Z) : Q := Qred (units # 2 ^ 1074).

(** A float that may be an infinity. *)
Inductive binary64 :=
| Finite (q : Q)
| Infinite (negative : bool).

(** [a / b] on two [int]s: the quotient is rounded once, to the nearest
    float; a quotient that rounds beyond the floats is an
    [OverflowError]. *)
Definition true_div (a b : Z) : outcome Q :=
  if b =? 0 then Raised (ZeroDivisionError "division by zero")
  else if a =? 0 then Returned 0%Q
  else
    let units := nearest (Z.abs a) (Z.abs b) in
    if too_large units
    then Raised (OverflowError "integer division result too large for a float")
    else Returned (value (Z.sgn a * Z.sgn b * units)).

(** [x * y] on two finite floats: the product rounded to the nearest
    float, an infinity when it rounds beyond the floats. *)
Definition mul (x y : Q) : binary64 :=
  let p := (x * y)%Q in
  if Qnum p =? 0 then Finite 0%Q
  else
    let units := nearest (Z.abs (Qnum p)) (Zpos (Qden p)) in
    if too_large units then Infinite (Qnum p <? 0)
    else Finite (value (Z.sgn (Qnum p) * units)).

End Float.

(** ** Instants

    A [datetime] is its reading on the calendar in microseconds, together
    with the UTC offset it carries when it is timezone-aware.  The bounds
    of the calendar (years 1 to 9999) are left out. *)

Record datetime := { wall : Z; utcoffset : option Z }.

Definition naive (t : Z) : datetime := {| wall := t; utcoffset := None |}.

Definition us_per_day : Z := 86400 * 1000000.

(** [timedelta(days=d)], in microseconds. *)
Definition timedelta_days (d : Z) : Z := d * us_per_day.

(** [dt + delta]. *)
Definition dt_add (dt : datetime) (delta : Z) : datetime :=
  {| wall := wall dt + delta; utcoffset := utcoffset dt |}.

(** [a < b]: comparing an aware with a naive instant is a [TypeError]. *)
Definition dt_lt (a b : datetime) : outcome bool :=
  match utcoffset a, utcoffset b with
  | None, None => Returned (wall a <? wall b)
  | Some oa, Some ob => Returned (wall a - oa <? wall b - ob)
  | _, _ => Raised (TypeError "can't compare offset-naive and offset-aware datetimes")
  end.

(** [a - b], a [timedelta] in microseconds, with the same restriction. *)
Definition dt_sub (a b : datetime) : outcome Z :=
  match utcoffset a, utcoffset b with
  | None, None => Returned (wall a - wall b)
  | Some oa, Some ob => Returned ((wall a - oa) - (wall b - ob))
  | _, _ => Raised (TypeError "can't subtract offset-naive and offset-aware datetimes")
  end.

(** [delta.days]: a [timedelta] is normalised so that [days] is the floor. *)
Definition td_days (delta : Z) : Z := delta / us_per_day.

(** ** Board data as the service returns it *)

(** A label dictionary; only ['name'] is ever read. *)
Record Label := { label_name : option string }.

(** A list dictionary: [lst['id']] and [lst['name']]. *)
Record BoardList := { lst_id : string; lst_name : string }.

(** A card dictionary.  [card_labels] is [card.get('labels', [])];
    [card_dueComplete] is the truth value of [card.get('dueComplete')]. *)
Record Card := {
  card_name : option string;
  card_labels : list Label;
  card_due : option string;
  card_dueComplete : bool;
  card_dateLastActivity : option string
}.

(** ** Gateway calls *)

(** An entry of a label list sent to the service: a label dictionary that
    was read from a card, or a plain string. *)
Inductive label_entry :=
| OfCard (l : Label)
| OfText (s : string).

Inductive argval :=
| AStr (s : string)
| AStrs (l : list string)
| ALabels (l : list label_entry).

(** [call_tool(tool_name, arguments)]: the argument dictionary keeps the
    order of its literal. *)
Record call := { tool_name : string; arguments : list (string * argval) }.

(** What the board service answers: a decoded result, or a failure of the
    transport.  The first argument is the journal of the calls already
    issued. *)
Inductive reply (A : Type) :=
| Answer (a : A)
| Failure (info : string).
Arguments Answer {A} a.
Arguments Failure {A} info.

Record Service := {
  get_lists : list call -> reply (list BoardList);
  get_cards_by_list_id : list call -> string -> reply (list Card);
  get_card : list call -> string -> reply Card;
  add_list_to_board : list call -> string -> reply BoardList;
  add_card_to_list : list call -> list (string * argval) -> reply Card;
  (** calls whose result is dropped by the caller *)
  acknowledge : list call -> call -> reply unit
}.

(** ** The monad of a method body *)

Record world := {
  journal : list call;
  ticks : nat;
  console : list string
}.

Definition M (A : Type) : Type := world -> outcome A * world.

Definition ret {A} (a : A) : M A := fun w => (Returned a, w).

Definition raise {A} (e : exn) : M A := fun w => (Raised e, w).

Definition bind {A B} (m : M A) (k : A -> M B) : M B :=
  fun w =>
    match m w with
    | (Returned a, w') => k a w'
    | (Raised e, w') => (Raised e, w')
    end.

#[global] Instance M_ret : MRet M := @ret.
#[global] Instance M_bind : MBind M := fun A B k m => bind m k.

(** [for x in xs: body(x)]. *)
Fixpoint for_each {A} (xs : list A) (body : A -> M unit) : M unit :=
  match xs with
  | [] => ret tt
  | x :: rest => body x;; for_each rest body
  end.

Definition lift {A} (o : outcome A) : M A := fun w => (o, w).

Definition print (line : string) : M unit :=
  fun w => (Returned tt,
            {| journal := journal w; ticks := ticks w; console := console w ++ [line] |}).

Definition record_call (c : call) (w : world) : world :=
  {| journal := journal w ++ [c]; ticks := ticks w; console := console w |}.

(** ** Example 2: the task priority system *)

Inductive Priority := CRITICAL | HIGH | MEDIUM | LOW.

#[global] Instance Priority_eq_dec : EqDecision Priority.
Proof. solve_decision. Defined.

#[global] Instance Priority_countable : Countable Priority.
Proof.
  refine (inj_countable'
            (fun p => match p with CRITICAL => 0%nat | HIGH => 1%nat | MEDIUM => 2%nat | LOW => 3%nat end)
            (fun n => match n with 0%nat => CRITICAL | 1%nat => HIGH | 2%nat => MEDIUM | _ => LOW end) _).
  intros []; reflexivity.
Defined.

(** [priority.value]. *)
Definition value (p : Priority) : string :=
  match p with
  | CRITICAL => "critical"
  | HIGH => "high"
  | MEDIUM => "medium"
  | LOW => "low"
  end.

(** [str(priority)], the key shown by a [KeyError]. *)
Definition member (p : Priority) : string :=
  match p with
  | CRITICAL => "Priority.CRITICAL"
  | HIGH => "Priority.HIGH"
  | MEDIUM => "Priority.MEDIUM"
  | LOW => "Priority.LOW"
  end.

(** [Priority(v)]: look a member up by its value. *)
Definition Priority_of_value (v : string) : outcome Priority :=
  if String.eqb v "critical" then Returned CRITICAL
  else if String.eqb v "high" then Returned HIGH
  else if String.eqb v "medium" then Returned MEDIUM
  else if String.eqb v "low" then Returned LOW
  else Raised (ValueError (v +:+ " is not a valid Priority")).

Record Task := {
  name : string;
  description : string;
  priority : Priority;
  assignee : option string;
  due_date : option datetime;
  labels : option (list string);
  checklist_items : option (list string)
}.

Definition with_due_date (task : Task) (d : datetime) : Task :=
  {| name := name task; description := description task; priority := priority task;
     assignee := assignee task; due_date := Some d; labels := labels task;
     checklist_items := checklist_items task |}.

(** [x or default] on an optional string: [None] and [''] are false. *)
Definition str_or (x : option string) (default : string) : string :=
  match x with
  | Some s => if Text.truthy s then s else default
  | None => default
  end.

(** Truth value of an optional string. *)
Definition truth (x : option string) : bool :=
  match x with
  | Some s => Text.truthy s
  | None => false
  end.

(** [x or default] on an optional list: [None] and [[]] are false. *)
Definition list_or {A} (x : option (list A)) (default : list A) : list A :=
  match x with
  | Some (a :: l) => a :: l
  | _ => default
  end.

Record TaskManager := { priority_lists : gmap Priority string }.

(** The table [days_by_priority] of [create_task]. *)
Definition days_by_priority (p : Priority) : Z :=
  match p with
  | CRITICAL => 1
  | HIGH => 3
  | MEDIUM => 7
  | LOW => 14
  end.

(** [priority_order] of [escalate_task]. *)
Definition priority_order : list Priority := [LOW; MEDIUM; HIGH; CRITICAL].

(** [Priority(label.get('name', label))]: without a name the dictionary
    itself is looked up, and is no member's value. *)
Definition priority_of_label (l : Label) : outcome Priority :=
  match label_name l with
  | Some v => Priority_of_value v
  | None => Raised (ValueError "{...} is not a valid Priority")
  end.

(** The loop of [escalate_task] over the labels: the first label that is a
    priority value wins, a [ValueError] moves on to the next label. *)
Fixpoint current_priority_of (labels : list Label) : outcome (option Priority) :=
  match labels with
  | [] => Returned None
  | l :: rest =>
      match priority_of_label l with
      | Returned p => Returned (Some p)
      | Raised (ValueError _) => current_priority_of rest
      | Raised e => Raised e
      end
  end.

(** [lst.index(x)] where the elements are members and [x] may be [None]. *)
Fixpoint index (l : list Priority) (x : option Priority) : outcome nat :=
  match l with
  | [] => Raised (ValueError "None is not in list")
  | p :: rest =>
      if decide (x = Some p) then Returned 0%nat
      else match index rest x with
           | Returned i => Returned (S i)
           | Raised e => Raised e
           end
  end.

(** [lst[i]]. *)
Definition item (l : list Priority) (i : nat) : outcome Priority :=
  match l !! i with
  | Some p => Returned p
  | None => Raised (IndexError "list index out of range")
  end.

(** [current_priority.value]. *)
Definition value_of (x : option Priority) : outcome string :=
  match x with
  | Some p => Returned (value p)
  | None => Raised (AttributeError "'NoneType' object has no attribute 'value'")
  end.

(** [label.get('name', label) != v]: a label without a name is compared
    as a dictionary and differs from every string. *)
Definition label_differs (v : string) (l : Label) : bool :=
  match label_name l with
  | Some n => negb (String.eqb n v)
  | None => true
  end.


(** ** Example 3: Kanban automation *)

Record KanbanAutomation := {
  workflow_stages : list string;
  stage_lists : gmap string string
}.

(** [KanbanAutomation.__init__]. *)
Definition new_KanbanAutomation : KanbanAutomation :=
  {| workflow_stages := ["Backlog"; "To Do"; "In Progress"; "Review"; "Testing"; "Done"];
     stage_lists := ∅ |}.

(** ** Example 5: project analytics *)

(** A dictionary that is iterated: items in insertion order.  Assigning to
    a key that is present keeps its place. *)
Fixpoint dict_set {V} (k : string) (v : V) (d : list (string * V)) : list (string * V) :=
  match d with
  | [] => [(k, v)]
  | (k', v') :: rest =>
      if String.eqb k' k then (k', v) :: rest else (k', v') :: dict_set k v rest
  end.

Fixpoint dict_get {V} (k : string) (d : list (string * V)) : option V :=
  match d with
  | [] => None
  | (k', v') :: rest => if String.eqb k' k then Some v' else dict_get k rest
  end.

(** [d[k]]. *)
Definition dict_item {V} (k : string) (d : list (string * V)) : outcome V :=
  match dict_get k d with
  | Some v => Returned v
  | None => Raised (KeyError k)
  end.

(** [list(d.values())]. *)
Definition dict_values {V} (d : list (string * V)) : list V := map snd d.

(** The longest run of ASCII digits at the head of [s], and what follows
    it. *)
Fixpoint span_digits (s : string) : string * string :=
  match s with
  | EmptyString => (EmptyString, EmptyString)
  | String c t =>
      if Text.is_digit c then
        let (ds, rest) := span_digits t in (String c ds, rest)
      else (EmptyString, s)
  end.

(** The longest run of decimal digits at the head of [s], as the values of
    the digits, and what follows it.  Every digit takes at least one byte,
    so [fuel] steps are enough for a text of [fuel] bytes. *)
Fixpoint decimal_run (fuel : nat) (s : string) : list Z * string :=
  match fuel with
  | O => ([], s)
  | S fuel =>
      match Unicode.decode s with
      | Some (cp, rest) =>
          match Unicode.decimal_value cp with
          | Some v => let (vs, tail) := decimal_run fuel rest in (v :: vs, tail)
          | None => ([], s)
          end
      | None => ([], s)
      end
  end.

Definition span_decimal (s : string) : list Z * string :=
  decimal_run (String.length s) s.

(** [re.match(r'\[(\d+)\]', title)]: the digits of [group(1)] when the
    pattern matches at the start of [title].  No digit is a closing
    bracket, so the greedy run is the only candidate for the group. *)
Definition points_match (title : string) : option (list Z) :=
  match title with
  | String "["%char rest =>
      match span_decimal rest with
      | (v :: vs, String "]"%char _) => Some (v :: vs)
      | _ => None
      end
  | _ => None
  end.

(** The default of [sys.get_int_max_str_digits()]. *)
Definition int_max_str_digits : nat := 4300.

(** The number that a run of decimal digits writes. *)
Definition numeral (digits : list Z) : Z :=
  fold_left (fun acc v => 10 * acc + v) digits 0.

(** [int(text)] on a text of decimal digits: longer texts than the limit
    are refused, leading zeros included. *)
Definition int (digits : list Z) : outcome Z :=
  if (int_max_str_digits <? length digits)%nat then
    Raised (ValueError ("Exceeds the limit (4300 digits) for integer string conversion: "
                        +:+ "value has " +:+ pretty (Z.of_nat (length digits))
                        +:+ " digits; use sys.set_int_max_str_digits() "
                        +:+ "to increase the limit"))
  else Returned (numeral digits).

(** [card.get('name', '')]. *)
Definition get_name (card : Card) : string := default "" (card_name card).

(** [card['name']]. *)
Definition item_name (card : Card) : outcome string :=
  match card_name card with
  | Some n => Returned n
  | None => Raised (KeyError "name")
  end.

(** [x in names] for a list of strings. *)
Definition one_of (x : string) (names : list string) : bool :=
  existsb (String.eqb x) names.

(** [sum(xs)]. *)
Definition sum_of (xs : list Z) : Z := fold_left Z.add xs 0.

(** *** Burndown *)

Record Burndown := {
  date : string;
  total_points : Z;
  completed_points : Z;
  remaining_points : Z;
  by_list : list (string * Z)
}.

(** The body of the inner loop of [generate_burndown_data]: the running
    [list_points] and the report, after one more card of list [lst]. *)
Definition burndown_card (lst : BoardList) (st : Z * Burndown) (card : Card)
    : outcome (Z * Burndown) :=
  let (list_points, data) := st in
  match points_match (get_name card) with
  | Some digits =>
      points ← int digits;
      mret (list_points + points,
            {| date := date data;
               total_points := total_points data + points;
               completed_points :=
                 if one_of (lst_name lst) ["Done"; "Completed"; "Deployed"]
                 then completed_points data + points
                 else completed_points data;
               remaining_points := remaining_points data;
               by_list := by_list data |})
  | None => mret st
  end.

(** *** Velocity *)

Record Velocity := {
  sprints : list Z;
  average_velocity : Q;
  trend : string
}.

(** The first list named Done or Completed. *)
Fixpoint find_done_list (lists : list BoardList) : option string :=
  match lists with
  | [] => None
  | lst :: rest =>
      if one_of (lst_name lst) ["Done"; "Completed"] then Some (lst_id lst)
      else find_done_list rest
  end.

(** [label['name']]. *)
Definition item_label_name (label : Label) : outcome string :=
  match label_name label with
  | Some n => Returned n
  | None => Raised (KeyError "name")
  end.

(** [parts[i]] on a list of strings. *)
Definition item_str (parts : list string) (i : nat) : outcome string :=
  match parts !! i with
  | Some p => Returned p
  | None => Raised (IndexError "list index out of range")
  end.

(** The body of the loop over the labels of one card in
    [team_velocity_report]. *)
Definition sprint_label (card : Card) (sprint_points : list (string * Z)) (label : Label)
    : outcome (list (string * Z)) :=
  if Text.contains "sprint-" (Text.lower (default "" (label_name label))) then
    label_text ← item_label_name label;
    sprint_num ← item_str (Text.split_on "-" label_text) 1;
    let sprint_points :=
      match dict_get sprint_num sprint_points with
      | None => dict_set sprint_num 0 sprint_points
      | Some _ => sprint_points
      end in
    match points_match (get_name card) with
    | Some digits =>
        so_far ← dict_item sprint_num sprint_points;
        points ← int digits;
        mret (dict_set sprint_num (so_far + points) sprint_points)
    | None => mret sprint_points
    end
  else mret sprint_points.

(** A loop whose body can raise. *)
Fixpoint fold_outcome {A S} (body : S -> A -> outcome S) (xs : list A) (s : S) : outcome S :=
  match xs with
  | [] => Returned s
  | x :: rest => s' ← body s x; fold_outcome body rest s'
  end.

(** The grouping loop of [team_velocity_report]: per-sprint point sums. *)
Definition group_by_sprint (cards : list Card) : outcome (list (string * Z)) :=
  fold_outcome (fun sp card => fold_outcome (sprint_label card) (card_labels card) sp)
    cards [].

(** [velocities[-k]] for [k >= 1]. *)
Definition item_from_end (velocities : list Z) (k : nat) : outcome Z :=
  if (k <=? length velocities)%nat then
    match velocities !! (length velocities - k)%nat with
    | Some v => Returned v
    | None => Raised (IndexError "list index out of range")
    end
  else Raised (IndexError "list index out of range").

(** The trend of [team_velocity_report]. *)
Definition trend_of (velocities : list Z) : outcome string :=
  if (2 <=? length velocities)%nat then
    last ← item_from_end velocities 1;
    previous ← item_from_end velocities 2;
    if previous <? last then mret "increasing"
    else if last <? previous then mret "decreasing"
    else mret "stable"
  else mret "stable".

(** [sum(velocities) / len(velocities)]: true division of two [int]s. *)
Definition mean (velocities : list Z) : outcome Q :=
  Float.true_div (sum_of velocities) (Z.of_nat (length velocities)).

(** The report once the per-sprint sums are known. *)
Definition velocity_of (sprint_points : list (string * Z)) : outcome Velocity :=
  match sprint_points with
  | [] => Returned {| sprints := []; average_velocity := 0%Q; trend := "stable" |}
  | _ :: _ =>
      let velocities := dict_values sprint_points in
      average ← mean velocities;
      t ← trend_of velocities;
      mret {| sprints := []; average_velocity := average; trend := t |}
  end.

(** *** Health *)

Record ListShare := { count : Z; percentage : Float.binary64 }.

Record Metrics := {
  timestamp : string;
  lists : list (string * ListShare);
  overdue_cards : list (list (string * string));
  blocked_cards : list (list (string * string));
  stale_cards : list (list (string * string));
  total_cards : Z;
  health_score : Z
}.

(** [metrics[field].append(entry)] followed by [health_score -= penalty]. *)
Definition flag_overdue (entry : list (string * string)) (m : Metrics) : Metrics :=
  {| timestamp := timestamp m; lists := lists m;
     overdue_cards := overdue_cards m ++ [entry];
     blocked_cards := blocked_cards m; stale_cards := stale_cards m;
     total_cards := total_cards m; health_score := health_score m - 5 |}.

Definition flag_blocked (entry : list (string * string)) (m : Metrics) : Metrics :=
  {| timestamp := timestamp m; lists := lists m;
     overdue_cards := overdue_cards m;
     blocked_cards := blocked_cards m ++ [entry]; stale_cards := stale_cards m;
     total_cards := total_cards m; health_score := health_score m - 3 |}.

Definition flag_stale (entry : list (string * string)) (m : Metrics) : Metrics :=
  {| timestamp := timestamp m; lists := lists m;
     overdue_cards := overdue_cards m;
     blocked_cards := blocked_cards m; stale_cards := stale_cards m ++ [entry];
     total_cards := total_cards m; health_score := health_score m - 1 |}.

(** The list's entry of [metrics['lists']] and the running card total. *)
Definition enter_list (lst : BoardList) (n : Z) (m : Metrics) : Metrics :=
  {| timestamp := timestamp m;
     lists := dict_set (lst_name lst) {| count := n; percentage := Float.Finite 0 |} (lists m);
     overdue_cards := overdue_cards m;
     blocked_cards := blocked_cards m; stale_cards := stale_cards m;
     total_cards := total_cards m + n; health_score := health_score m |}.

(** A loop that builds a list and can raise. *)
Fixpoint map_outcome {A B} (f : A -> outcome B) (xs : list A) : outcome (list B) :=
  match xs with
  | [] => Returned []
  | x :: rest => y ← f x; ys ← map_outcome f rest; mret (y :: ys)
  end.

(** The closing steps of [generate_health_metrics]: the percentage shares,
    [count / total * 100] in floats, and the floor of the score. *)
Definition share_of (total : Z) (entry : string * ListShare) : outcome (string * ListShare) :=
  ratio ← Float.true_div (count (snd entry)) total;
  mret (fst entry, {| count := count (snd entry); percentage := Float.mul ratio 100 |}).

Definition finish_metrics (m : Metrics) : outcome Metrics :=
  shares ← (if 0 <? total_cards m then map_outcome (share_of (total_cards m)) (lists m)
            else mret (lists m));
  mret {| timestamp := timestamp m;
          lists := shares;
          overdue_cards := overdue_cards m;
          blocked_cards := blocked_cards m; stale_cards := stale_cards m;
          total_cards := total_cards m; health_score := Z.max 0 (health_score m) |}.

(** [any(label.get('name', '') == 'blocked' for label in labels)]. *)
Definition is_blocked (card : Card) : bool :=
  existsb (fun label => String.eqb (default "" (label_name label)) "blocked")
    (card_labels card).
Section Methods.

(** The board service behind the gateway. *)
Variable svc : Service.

(** The wall clock: [clock n] is what the [n]-th call of
    [datetime.now()] reads, in microseconds. *)
Variable clock : nat -> Z.

(** [dt.isoformat()] and [dt.strftime(fmt)] of the [datetime] module. *)
Variable isoformat : datetime -> string.
Variable strftime : datetime -> string -> string.

(** [datetime.fromisoformat(s)]. *)
Variable fromisoformat : string -> outcome datetime.

Definition read_clock (w : world) : datetime * world :=
  (naive (clock (ticks w)),
   {| journal := journal w; ticks := S (ticks w); console := console w |}).

(** [datetime.now()]. *)
Definition now : M datetime :=
  fun w => let (t, w') := read_clock w in (Returned t, w').

(** [await self.trello.call_tool(tool, args)]: the call is entered in the
    journal and the service answers from the journal before it; a failure
    of the transport is raised as it is. *)
Definition call_tool {A} (tool : string) (args : list (string * argval))
    (answer : list call -> reply A) : M A :=
  fun w => (match answer (journal w) with
            | Answer a => Returned a
            | Failure info => Raised (RemoteError info)
            end,
            record_call {| tool_name := tool; arguments := args |} w).

(** A call whose result the caller drops. *)
Definition call_tool_ (tool : string) (args : list (string * argval)) : M unit :=
  call_tool tool args
    (fun h => acknowledge svc h {| tool_name := tool; arguments := args |}).

(** *** [TaskManager] *)

Definition _format_task_description (task : Task) : M string :=
  created ← now;
  mret ("## Task Details" +:+ Text.nl +:+
        Text.nl +:+
        "**Priority**: " +:+ Text.upper (value (priority task)) +:+ Text.nl +:+
        "**Assigned to**: " +:+ str_or (assignee task) "Unassigned" +:+ Text.nl +:+
        "**Created**: " +:+ isoformat created +:+ Text.nl +:+
        Text.nl +:+
        "### Description" +:+ Text.nl +:+
        description task +:+ Text.nl +:+
        Text.nl +:+
        "### Metadata" +:+ Text.nl +:+
        "- Priority Level: " +:+ value (priority task) +:+ Text.nl +:+
        "- Due Date: " +:+
          match due_date task with
          | Some d => strftime d "%Y-%m-%d %H:%M"
          | None => "Not set"
          end +:+ Text.nl +:+
        "- Labels: " +:+
          match labels task with
          | Some (l :: ls) => Text.join ", " (l :: ls)
          | _ => "None"
          end +:+ Text.nl).

(** [self.priority_lists[p]]. *)
Definition priority_list (self : TaskManager) (p : Priority) : M string :=
  match priority_lists self !! p with
  | Some lid => mret lid
  | None => raise (KeyError (member p))
  end.

(** [task.due_date.isoformat()]. *)
Definition due_date_isoformat (task : Task) : M string :=
  match due_date task with
  | Some d => mret (isoformat d)
  | None => raise (AttributeError "'NoneType' object has no attribute 'isoformat'")
  end.

(** The head of [create_task]: a due date by priority when the task has
    none.  The caller's [task] object is updated in place. *)
Definition default_due_date (task : Task) (w : world) : Task * world :=
  match due_date task with
  | Some _ => (task, w)
  | None =>
      let (t, w') := read_clock w in
      (with_due_date task (dt_add t (timedelta_days (days_by_priority (priority task)))), w')
  end.

(** The rest of [create_task]: the card, then the checklist items. *)
Definition post_task (self : TaskManager) (task : Task) : M Card :=
  lid ← priority_list self (priority task);
  desc ← _format_task_description task;
  due ← due_date_isoformat task;
  card ← call_tool "add_card_to_list"
           [("listId", AStr lid);
            ("name", AStr (name task));
            ("description", AStr desc);
            ("dueDate", AStr due);
            ("labels", AStrs (list_or (labels task) [value (priority task)]))]
           (fun h => add_card_to_list svc h
              [("listId", AStr lid);
               ("name", AStr (name task));
               ("description", AStr desc);
               ("dueDate", AStr due);
               ("labels", AStrs (list_or (labels task) [value (priority task)]))]);
  for_each (list_or (checklist_items task) [])
    (fun item_text =>
       call_tool_ "add_checklist_item"
         [("text", AStr item_text); ("checkListName", AStr "Task Checklist")]);;
  mret card.

(** [create_task] hands the updated task back next to its outcome. *)
Definition create_task (self : TaskManager) (task : Task) (w : world)
    : outcome Card * Task * world :=
  let (task', w1) := default_due_date task w in
  let (r, w2) := post_task self task' w1 in
  (r, task', w2).

Definition escalate_task (self : TaskManager) (card_id reason : string) : M unit :=
  card ← call_tool "get_card" [("cardId", AStr card_id)]
           (fun h => get_card svc h card_id);
  current_priority ← lift (current_priority_of (card_labels card));
  if decide (current_priority = Some CRITICAL) then
    print "Task is already at highest priority"
  else
    current_index ← lift (index priority_order current_priority);
    new_priority ← lift (item priority_order (current_index + 1));
    lid ← priority_list self new_priority;
    call_tool_ "move_card" [("cardId", AStr card_id); ("listId", AStr lid)];;
    current_value ← lift (value_of current_priority);
    let new_labels :=
      (map OfCard (List.filter (label_differs current_value) (card_labels card))
       ++ [OfText (value new_priority)])%list in
    call_tool_ "update_card_details"
      [("cardId", AStr card_id); ("labels", ALabels new_labels)];;
    time ← now;
    call_tool_ "add_comment"
      [("cardId", AStr card_id);
       ("text", AStr ("âš ï¸ **Task Escalated**" +:+ Text.nl +:+
                      Text.nl +:+
                      "**From**: " +:+ Text.upper current_value +:+ Text.nl +:+
                      "**To**: " +:+ Text.upper (value new_priority) +:+ Text.nl +:+
                      "**Reason**: " +:+ reason +:+ Text.nl +:+
                      "**Escalated by**: System" +:+ Text.nl +:+
                      "**Time**: " +:+ isoformat time))].

(** *** [KanbanAutomation] *)

(** [self.stage_lists[stage]]. *)
Definition stage_list (self : KanbanAutomation) (stage : string) : M string :=
  match stage_lists self !! stage with
  | Some lid => mret lid
  | None => raise (KeyError stage)
  end.

(** The loop of [setup_kanban_board]; [self.stage_lists] is updated in
    place, so the object is handed back next to the outcome. *)
Fixpoint setup_stages (stages : list string) (self : KanbanAutomation) (w : world)
    : outcome unit * KanbanAutomation * world :=
  match stages with
  | [] => (Returned tt, self, w)
  | stage :: rest =>
      match call_tool "add_list_to_board" [("name", AStr stage)]
              (fun h => add_list_to_board svc h stage) w with
      | (Returned list_data, w') =>
          setup_stages rest
            {| workflow_stages := workflow_stages self;
               stage_lists := <[stage := lst_id list_data]> (stage_lists self) |} w'
      | (Raised e, w') => (Raised e, self, w')
      end
  end.

Definition setup_kanban_board (self : KanbanAutomation) (w : world)
    : outcome unit * KanbanAutomation * world :=
  setup_stages (workflow_stages self) self w.

Definition move_card_to_stage (self : KanbanAutomation) (card_id stage : string)
    (comment : option string) : M unit :=
  if decide (stage_lists self !! stage = None) then
    raise (ValueError ("Invalid stage: " +:+ stage))
  else
    lid ← stage_list self stage;
    call_tool_ "move_card" [("cardId", AStr card_id); ("listId", AStr lid)];;
    if truth comment then
      call_tool_ "add_comment"
        [("cardId", AStr card_id);
         ("text", AStr ("âž¡ï¸ Moved to **" +:+ stage +:+ "**" +:+ Text.nl +:+
                        Text.nl +:+ str_or comment ""))]
    else mret tt.

(** The warning card of [apply_wip_limits]. *)
Definition wip_warning (lid stage : string) (count limit : Z) : list (string * argval) :=
  [("listId", AStr lid);
   ("name", AStr "âš ï¸ WIP LIMIT EXCEEDED");
   ("description",
    AStr ("## WIP Limit Violation" +:+ Text.nl +:+
          Text.nl +:+
          "The **" +:+ stage +:+ "** column has exceeded its WIP limit." +:+ Text.nl +:+
          Text.nl +:+
          "- **Current cards**: " +:+ Text.str_of_int count +:+ Text.nl +:+
          "- **WIP Limit**: " +:+ Text.str_of_int limit +:+ Text.nl +:+
          "- **Excess**: " +:+ Text.str_of_int (count - limit) +:+ Text.nl +:+
          Text.nl +:+
          "### Action Required" +:+ Text.nl +:+
          "Please complete work in progress before pulling new items."));
   ("labels", AStrs ["warning"; "wip-violation"])].

(** The body of the loop of [apply_wip_limits] for one item of [limits]. *)
Definition check_wip_limit (self : KanbanAutomation) (entry : string * Z) : M unit :=
  let (stage, limit) := entry in
  if decide (stage_lists self !! stage = None) then mret tt
  else
    lid ← stage_list self stage;
    cards ← call_tool "get_cards_by_list_id" [("listId", AStr lid)]
              (fun h => get_cards_by_list_id svc h lid);
    if limit <? Z.of_nat (length cards) then
      lid' ← stage_list self stage;
      call_tool "add_card_to_list" (wip_warning lid' stage (Z.of_nat (length cards)) limit)
        (fun h => add_card_to_list svc h
                    (wip_warning lid' stage (Z.of_nat (length cards)) limit));;
      mret tt
    else mret tt.

(** [limits.items()] is the sequence of the dictionary's items. *)
Definition apply_wip_limits (self : KanbanAutomation) (limits : list (string * Z)) : M unit :=
  for_each limits (check_wip_limit self).

(** *** [RetroManager] *)

(** The search loop of [add_retro_item]: the id of the first list whose
    name contains [list_name]. *)
Fixpoint find_target_list (list_name : string) (lists : list BoardList) : option string :=
  match lists with
  | [] => None
  | lst :: rest =>
      if Text.contains list_name (lst_name lst) then Some (lst_id lst)
      else find_target_list list_name rest
  end.

(** The arguments of the card that [add_retro_item] creates. *)
Definition retro_item (target_list title description : string) (votes : Z)
    (date : datetime) : list (string * argval) :=
  [("listId", AStr target_list);
   ("name", AStr (title +:+ " (ðŸ‘ " +:+ Text.str_of_int votes +:+ ")"));
   ("description",
    AStr (description +:+ Text.nl +:+
          Text.nl +:+
          "---" +:+ Text.nl +:+
          "**Votes**: " +:+ Text.str_of_int votes +:+ Text.nl +:+
          "**Added by**: Team" +:+ Text.nl +:+
          "**Date**: " +:+ isoformat date))].

Definition add_retro_item (list_name title description : string) (votes : Z) : M Card :=
  lists ← call_tool "get_lists" [] (get_lists svc);
  let target_list := find_target_list list_name lists in
  if negb (truth target_list) then
    raise (ValueError ("List '" +:+ list_name +:+ "' not found"))
  else
    date ← now;
    card ← call_tool "add_card_to_list"
             (retro_item (str_or target_list "") title description votes date)
             (fun h => add_card_to_list svc h
                (retro_item (str_or target_list "") title description votes date));
    mret card.

(** *** [ProjectAnalytics] *)

(** A loop that threads a value through gateway calls. *)
Fixpoint fold_m {A S} (body : S -> A -> M S) (xs : list A) (s : S) : M S :=
  match xs with
  | [] => mret s
  | x :: rest => s' ← body s x; fold_m body rest s'
  end.

(** The body of the loop over the lists in [generate_burndown_data]. *)
Definition burndown_list (data : Burndown) (lst : BoardList) : M Burndown :=
  cards ← call_tool "get_cards_by_list_id" [("listId", AStr (lst_id lst))]
            (fun h => get_cards_by_list_id svc h (lst_id lst));
  '(list_points, data) ← lift (fold_outcome (burndown_card lst) cards (0, data));
  mret {| date := date data; total_points := total_points data;
          completed_points := completed_points data;
          remaining_points := remaining_points data;
          by_list := dict_set (lst_name lst) list_points (by_list data) |}.

Definition generate_burndown_data : M Burndown :=
  lists ← call_tool "get_lists" [] (get_lists svc);
  stamp ← now;
  let burndown_data :=
    {| date := isoformat stamp; total_points := 0; completed_points := 0;
       remaining_points := 0; by_list := [] |} in
  data ← fold_m burndown_list lists burndown_data;
  mret {| date := date data; total_points := total_points data;
          completed_points := completed_points data;
          remaining_points := total_points data - completed_points data;
          by_list := by_list data |}.

(** The parameter [sprints] of the method is never read. *)
Definition team_velocity_report (sprints : Z) : M Velocity :=
  lists ← call_tool "get_lists" [] (get_lists svc);
  let done_list := find_done_list lists in
  if truth done_list then
    cards ← call_tool "get_cards_by_list_id" [("listId", AStr (str_or done_list ""))]
              (fun h => get_cards_by_list_id svc h (str_or done_list ""));
    sprint_points ← lift (group_by_sprint cards);
    lift (velocity_of sprint_points)
  else
    mret {| sprints := []; average_velocity := 0%Q; trend := "stable" |}.

(** The three checks of [generate_health_metrics] on one card. *)
Definition check_overdue (current : datetime) (lst : BoardList) (card : Card) (m : Metrics)
    : outcome Metrics :=
  match card_due card with
  | Some due =>
      if Text.truthy due then
        due_date ← fromisoformat (Text.replace_char "Z" "+00:00" due);
        before ← dt_lt due_date current;
        if before && negb (card_dueComplete card) then
          card_title ← item_name card;
          mret (flag_overdue
                  [("name", card_title); ("due", due); ("list", lst_name lst)] m)
        else mret m
      else mret m
  | None => mret m
  end.

Definition check_blocked (lst : BoardList) (card : Card) (m : Metrics) : outcome Metrics :=
  if is_blocked card then
    card_title ← item_name card;
    mret (flag_blocked [("name", card_title); ("list", lst_name lst)] m)
  else mret m.

Definition check_stale (current : datetime) (lst : BoardList) (card : Card) (m : Metrics)
    : outcome Metrics :=
  match card_dateLastActivity card with
  | Some stamp =>
      if Text.truthy stamp then
        last_activity ← fromisoformat (Text.replace_char "Z" "+00:00" stamp);
        idle ← dt_sub current last_activity;
        if 14 <? td_days idle then
          card_title ← item_name card;
          mret (flag_stale
                  [("name", card_title); ("last_activity", stamp); ("list", lst_name lst)] m)
        else mret m
      else mret m
  | None => mret m
  end.

(** The body of the loop over the cards of one list. *)
Definition check_card (current : datetime) (lst : BoardList) (m : Metrics) (card : Card)
    : outcome Metrics :=
  m ← check_overdue current lst card m;
  m ← check_blocked lst card m;
  check_stale current lst card m.

(** The body of the loop over the lists in [generate_health_metrics]. *)
Definition health_list (current : datetime) (metrics : Metrics) (lst : BoardList)
    : M Metrics :=
  cards ← call_tool "get_cards_by_list_id" [("listId", AStr (lst_id lst))]
            (fun h => get_cards_by_list_id svc h (lst_id lst));
  lift (fold_outcome (check_card current lst) cards
          (enter_list lst (Z.of_nat (length cards)) metrics)).

Definition generate_health_metrics : M Metrics :=
  stamp ← now;
  let metrics :=
    {| timestamp := isoformat stamp; lists := []; overdue_cards := [];
       blocked_cards := []; stale_cards := []; total_cards := 0; health_score := 100 |} in
  board ← call_tool "get_lists" [] (get_lists svc);
  current ← now;
  metrics ← fold_m (health_list current) board metrics;
  lift (finish_metrics metrics).

End Methods.

(** ** A reference calendar

    One implementation of the renderings and of the parser that the
    methods take as parameters, for instants written
    [YYYY-MM-DD[THH:MM:SS[.fff[fff]]][+HH:MM]].  An instant counts the
    microseconds since 1970-01-01T00:00:00 on its own calendar. *)

Module Calendar.

(** Days since 1970-01-01 of a date of the proleptic Gregorian calendar. *)
Definition days_from_civil (y m d : Z) : Z :=
  let y := if m <=? 2 then y - 1 else y in
  let era := y / 400 in
  let yoe := y - era * 400 in
  let doy := (153 * (if 2 <? m then m - 3 else m + 9) + 2) / 5 + d - 1 in
  let doe := yoe * 365 + yoe / 4 - yoe / 100 + doy in
  era * 146097 + doe - 719468.

Definition civil_from_days (z : Z) : Z * Z * Z :=
  let z := z + 719468 in
  let era := z / 146097 in
  let doe := z - era * 146097 in
  let yoe := (doe - doe / 1460 + doe / 36524 - doe / 146096) / 365 in
  let doy := doe - (365 * yoe + yoe / 4 - yoe / 100) in
  let mp := (5 * doy + 2) / 153 in
  let d := doy - (153 * mp + 2) / 5 + 1 in
  let m := if mp <? 10 then mp + 3 else mp - 9 in
  (if m <=? 2 then yoe + era * 400 + 1 else yoe + era * 400, m, d).

Definition us_per_second : Z := 1000000.

(** [n] in decimal, padded with zeros to [width] characters. *)
Definition padded (width : nat) (n : Z) : string :=
  let s := Text.str_of_int n in
  String.concat "" (repeat "0" (width - String.length s)) +:+ s.

Definition render_offset (offset : option Z) : string :=
  match offset with
  | None => ""
  | Some o =>
      let minutes := Z.abs o / (60 * us_per_second) in
      (if o <? 0 then "-" else "+") +:+ padded 2 (minutes / 60) +:+ ":" +:+
      padded 2 (minutes mod 60)
  end.

Definition isoformat (dt : datetime) : string :=
  let '(y, m, d) := civil_from_days (wall dt / us_per_day) in
  let in_day := wall dt mod us_per_day in
  let seconds := in_day / us_per_second in
  let micros := in_day mod us_per_second in
  padded 4 y +:+ "-" +:+ padded 2 m +:+ "-" +:+ padded 2 d +:+ "T" +:+
  padded 2 (seconds / 3600) +:+ ":" +:+ padded 2 (seconds / 60 mod 60) +:+ ":" +:+
  padded 2 (seconds mod 60) +:+
  (if micros =? 0 then "" else "." +:+ padded 6 micros) +:+
  render_offset (utcoffset dt).

(** [strftime] for the directives [%Y %m %d %H %M %S]. *)
Fixpoint strftime_from (dt : datetime) (fmt : string) : string :=
  let '(y, m, d) := civil_from_days (wall dt / us_per_day) in
  let seconds := wall dt mod us_per_day / us_per_second in
  match fmt with
  | String "%"%char (String c rest) =>
      (if Ascii.eqb c "Y" then padded 4 y
       else if Ascii.eqb c "m" then padded 2 m
       else if Ascii.eqb c "d" then padded 2 d
       else if Ascii.eqb c "H" then padded 2 (seconds / 3600)
       else if Ascii.eqb c "M" then padded 2 (seconds / 60 mod 60)
       else if Ascii.eqb c "S" then padded 2 (seconds mod 60)
       else String "%"%char (String c EmptyString)) +:+ strftime_from dt rest
  | String c rest => String c (strftime_from dt rest)
  | EmptyString => EmptyString
  end.

Definition strftime (dt : datetime) (fmt : string) : string := strftime_from dt fmt.

(** A field of exactly [len] digits starting at [start]. *)
Definition field (s : string) (start len : nat) : option Z :=
  let text := String.substring start len s in
  if (String.length text =? len)%nat && forallb Text.is_digit (list_ascii_of_string text)
  then Some (Text.int_of_digits text) else None.

Definition char_is (s : string) (i : nat) (c : ascii) : bool :=
  match String.get i s with
  | Some c' => Ascii.eqb c' c
  | None => false
  end.

Definition days_in_month (y m : Z) : Z :=
  days_from_civil (if m =? 12 then y + 1 else y) (if m =? 12 then 1 else m + 1) 1
  - days_from_civil y m 1.

Definition parse_date (s : string) : option Z :=
  y ← field s 0 4; m ← field s 5 2; d ← field s 8 2;
  if char_is s 4 "-" && char_is s 7 "-" && (1 <=? y) && (1 <=? m) && (m <=? 12)
     && (1 <=? d) && (d <=? days_in_month y m)
  then Some (days_from_civil y m d) else None.

(** [HH:MM:SS] at the head of [s]: the seconds of the day and the rest. *)
Definition parse_clock (s : string) : option (Z * string) :=
  h ← field s 0 2; m ← field s 3 2; sec ← field s 6 2;
  if char_is s 2 ":" && char_is s 5 ":" && (h <? 24) && (m <? 60) && (sec <? 60)
  then Some (h * 3600 + m * 60 + sec, String.substring 8 (String.length s - 8) s)
  else None.

(** An optional fraction of three or six digits. *)
Definition parse_fraction (s : string) : option (Z * string) :=
  match s with
  | String "."%char t =>
      let (ds, rest) := span_digits t in
      if (String.length ds =? 3)%nat then Some (Text.int_of_digits ds * 1000, rest)
      else if (String.length ds =? 6)%nat then Some (Text.int_of_digits ds, rest)
      else None
  | _ => Some (0, s)
  end.

(** Nothing, or an offset [+HH:MM] or [-HH:MM] up to the end of the text. *)
Definition parse_offset (s : string) : option (option Z) :=
  match s with
  | EmptyString => Some None
  | String sign t =>
      h ← field t 0 2; m ← field t 3 2;
      if (Ascii.eqb sign "+" || Ascii.eqb sign "-") && char_is t 2 ":"
         && (String.length t =? 5)%nat && (h <? 24) && (m <? 60)
      then Some (Some ((if Ascii.eqb sign "-" then -1 else 1)
                       * (h * 3600 + m * 60) * us_per_second))
      else None
  end.

Definition parse (s : string) : option datetime :=
  days ← parse_date s;
  if (String.length s =? 10)%nat then Some (naive (days * us_per_day))
  else
    '(seconds, rest) ← parse_clock (String.substring 11 (String.length s - 11) s);
    '(micros, rest) ← parse_fraction rest;
    offset ← parse_offset rest;
    Some {| wall := days * us_per_day + seconds * us_per_second + micros;
            utcoffset := offset |}.

Definition fromisoformat (s : string) : outcome datetime :=
  match parse s with
  | Some dt => Returned dt
  | None => Raised (ValueError ("Invalid isoformat string: '" +:+ s +:+ "'"))
  end.

End Calendar.

(** ** A board that does not change

    The service of a board whose lists and cards stay as they are while a
    method runs: reads answer from the board, writes are accepted. *)

Definition blank_card (title : string) : Card :=
  {| card_name := Some title; card_labels := []; card_due := None;
     card_dueComplete := false; card_dateLastActivity := None |}.

Definition title_of (args : list (string * argval)) : string :=
  match dict_get "name" args with
  | Some (AStr s) => s
  | _ => ""
  end.

Definition still_board (board : list BoardList) (cards_of : string -> list Card)
    (card_of : string -> Card) : Service :=
  {| get_lists := fun _ => Answer board;
     get_cards_by_list_id := fun _ lid => Answer (cards_of lid);
     get_card := fun _ cid => Answer (card_of cid);
     add_list_to_board := fun _ title => Answer {| lst_id := "id:" +:+ title; lst_name := title |};
     add_card_to_list := fun _ args => Answer (blank_card (title_of args));
     acknowledge := fun _ _ => Answer tt |}.

Definition fresh_world : world := {| journal := []; ticks := 0; console := [] |}.

(** ** Vocabulary of the specification *)

(** [needle] occurs in [hay]. *)
Definition substring (needle hay : string) : Prop :=
  exists before after, hay = before +:+ needle +:+ after.

(** [text] is a run of decimal digits, and [values] are the values of the
    digits, one after the other. *)
Inductive decimal_digits : string -> list Z -> Prop :=
| no_digit : decimal_digits "" []
| one_more_digit text cp v rest values :
    Unicode.decode text = Some (cp, rest) ->
    Unicode.decimal_value cp = Some v ->
    decimal_digits rest values ->
    decimal_digits text (v :: values).

(** [title] starts with [[digits]]: an opening bracket, one or more
    decimal digits, a closing bracket; [values] are the values of the
    digits. *)
Definition bracketed_prefix (title : string) (values : list Z) : Prop :=
  values <> [] /\
  exists digits rest,
    decimal_digits digits values /\ title = "[" +:+ digits +:+ "]" +:+ rest.

(** What a card adds to the point totals: the number that its title
    starts with in brackets, and nothing when the title has no such start
    or the card has no title. *)
Inductive contributes (card : Card) : Z -> Prop :=
| contributes_points title values :
    card_name card = Some title ->
    bracketed_prefix title values ->
    contributes card (numeral values)
| contributes_nothing :
    (forall title values, card_name card = Some title -> ~ bracketed_prefix title values) ->
    contributes card 0.

(** [total] is the sum of what the cards contribute. *)
Definition points_of (cards : list Card) (total : Z) : Prop :=
  exists points, Forall2 contributes cards points /\ total = sum_of points.

(** The bracketed number at the head of the title, if there is one, has no
    more digits than [int] converts. *)
Definition within_int_limit (card : Card) : Prop :=
  forall title values,
    card_name card = Some title -> bracketed_prefix title values ->
    (length values <= 4300)%nat.

(** The points of a card as the loops compute them. *)
Definition card_points (card : Card) : outcome Z :=
  match points_match (get_name card) with
  | Some digits => int digits
  | None => Returned 0
  end.

(** So many units of [2 ^ -1074] are a binary64 number. *)
Definition binary64_units (units : Z) : Prop :=
  exists m k, Z.abs m < 2 ^ 53 /\ 0 <= k <= 2045 /\ units = m * 2 ^ k.

(** [q] is a finite binary64 number. *)
Definition representable (q : Q) : Prop :=
  exists units, binary64_units units /\ (q == units # 2 ^ 1074)%Q.

(** [q] is a binary64 number nearest to [x]: no other is nearer. *)
Definition rounds_to (x q : Q) : Prop :=
  representable q /\
  forall q', representable q' -> (Qabs (q - x) <= Qabs (q' - x))%Q.

(** The least quotient that rounds beyond the binary64 numbers: the middle
    between the largest of them and [2 ^ 1024]. *)
Definition overflow_threshold : Z := 2 ^ 1024 - 2 ^ 970.

(** The trend as the specification words it: the last total against the
    one before it. *)
Definition last_two_trend (totals : list Z) : string :=
  match rev totals with
  | last :: previous :: _ =>
      if previous <? last then "increasing"
      else if last <? previous then "decreasing"
      else "stable"
  | _ => "stable"
  end.

(** The cards of a board, list after list. *)
Definition board_cards (board : list BoardList) (cards_of : string -> list Card) : list Card :=
  flat_map (fun lst => cards_of (lst_id lst)) board.

(** The cards of the lists that count as completed in the burndown. *)
Definition completed_cards (board : list BoardList) (cards_of : string -> list Card)
    : list Card :=
  flat_map (fun lst =>
              if one_of (lst_name lst) ["Done"; "Completed"; "Deployed"]
              then cards_of (lst_id lst) else [])
    board.

(** How many cards satisfy [p]. *)
Definition tally (p : Card -> bool) (cards : list Card) : Z :=
  Z.of_nat (length (List.filter p cards)).

Section HealthVocabulary.

Variable fromisoformat : string -> outcome datetime.

(** The zone-less instant a timestamp of a card stands for. *)
Definition instant_of (text : option string) : option Z :=
  match text with
  | Some t =>
      if Text.truthy t then
        match fromisoformat (Text.replace_char "Z" "+00:00" t) with
        | Returned {| wall := i; utcoffset := None |} => Some i
        | _ => None
        end
      else None
  | None => None
  end.

(** Due is set, the due date is before [current], and the card is not
    marked complete. *)
Definition overdue (current : Z) (card : Card) : bool :=
  match instant_of (card_due card) with
  | Some due => (due <? current) && negb (card_dueComplete card)
  | None => false
  end.

(** Some label of the card is named exactly [blocked]. *)
Definition blocked (card : Card) : bool :=
  existsb (fun label => bool_decide (label_name label = Some "blocked")) (card_labels card).

(** The last activity is more than 14 days before [current]. *)
Definition stale (current : Z) (card : Card) : bool :=
  match instant_of (card_dateLastActivity card) with
  | Some last => 14 * us_per_day <? current - last
  | None => false
  end.

(** More than 14 whole days have passed since the last activity. *)
Definition stale_in_whole_days (current : Z) (card : Card) : bool :=
  match instant_of (card_dateLastActivity card) with
  | Some last => 14 <? (current - last) / us_per_day
  | None => false
  end.

(** The score of the specification. *)
Definition stated_health_score (current : Z) (cards : list Card) : Z :=
  Z.max 0 (100 - 5 * tally (overdue current) cards - 3 * tally blocked cards
           - 1 * tally (stale current) cards).

(** Every timestamp of the card reads as a zone-less instant. *)
Definition zone_less (card : Card) : Prop :=
  forall text,
    card_due card = Some text \/ card_dateLastActivity card = Some text ->
    Text.truthy text = true ->
    exists i, fromisoformat (Text.replace_char "Z" "+00:00" text) = Returned (naive i).

End HealthVocabulary.

(** ** Sample data *)

Definition sample_manager : TaskManager :=
  {| priority_lists :=
       <[CRITICAL := "list-critical"]> (<[HIGH := "list-high"]>
       (<[MEDIUM := "list-medium"]> (<[LOW := "list-low"]> ∅))) |}.

Definition sample_task : Task :=
  {| name := "Fix Production Database Issue";
     description := "Database connection pool exhaustion causing service outages";
     priority := CRITICAL;
     assignee := Some "devops-team";
     due_date := None;
     labels := None;
     checklist_items := Some ["Identify root cause"; "Implement fix"] |}.

Definition labelled (title : string) (names : list string) : Card :=
  {| card_name := Some title;
     card_labels := map (fun n => {| label_name := Some n |}) names;
     card_due := None; card_dueComplete := false; card_dateLastActivity := None |}.

Definition sample_board : list BoardList :=
  [ {| lst_id := "l1"; lst_name := "Sprint 23 - What Went Well" |};
    {| lst_id := "l2"; lst_name := "In Progress" |};
    {| lst_id := "l3"; lst_name := "Done" |} ].

Definition sample_cards (lid : string) : list Card :=
  if String.eqb lid "l2" then
    [labelled "[3] Parser" ["high"]; labelled "Sketch [8]" ["blocked"]; labelled "[2] Docs" []]
  else if String.eqb lid "l3" then
    [labelled "[10] Login" ["sprint-1"]; labelled "[15] Search" ["Sprint-2"];
     labelled "[5] Export" ["sprint-3"]; labelled "[7] Import" ["sprint-3"]]
  else [].

Definition sample_card (cid : string) : Card :=
  if String.eqb cid "c-critical" then labelled "Outage" ["incident"; "critical"]
  else if String.eqb cid "c-high" then labelled "Slow query" ["high"]
  else labelled "Untriaged" ["incident"].

Definition sample_service : Service := still_board sample_board sample_cards sample_card.

(** The clock of the samples: 2024-01-15T12:00:00, one second later at
    each reading. *)
Definition sample_clock (n : nat) : Z := 1705320000000000 + Z.of_nat n * 1000000.

Definition sample_kanban : KanbanAutomation :=
  {| workflow_stages := workflow_stages new_KanbanAutomation;
     stage_lists := <["In Progress" := "l2"]> (<["Done" := "l3"]> ∅) |}.

(** A board with one card that was last touched fourteen and a half days
    before the second reading of [sample_clock]. *)
Definition idle_card : Card :=
  {| card_name := Some "Quiet"; card_labels := []; card_due := None;
     card_dueComplete := false; card_dateLastActivity := Some "2024-01-01T00:00:00" |}.

Definition idle_board : Service :=
  still_board [ {| lst_id := "l1"; lst_name := "To Do" |} ] (fun _ => [idle_card]) sample_card.

(** A board with one card whose due date is written with the [Z] suffix. *)
Definition zulu_card : Card :=
  {| card_name := Some "Release"; card_labels := []; card_due := Some "2024-01-01T00:00:00Z";
     card_dueComplete := false; card_dateLastActivity := None |}.

Definition zulu_board : Service :=
  still_board [ {| lst_id := "l1"; lst_name := "To Do" |} ] (fun _ => [zulu_card]) sample_card.

(** ** The other methods of the examples *)

(** [s.capitalize()]: the first character in upper case, the rest in
    lower case. *)
Definition capitalize (s : string) : string :=
  match s with
  | EmptyString => EmptyString
  | String c t => String (Text.upper_char c) (Text.lower t)
  end.

(** [f"Priority: {priority.value.capitalize()}"]. *)
Definition priority_list_name (p : Priority) : string :=
  "Priority: " +:+ capitalize (value p).

(** [for priority in Priority]: the members in the order of the class
    body. *)
Definition Priority_members : list Priority := [CRITICAL; HIGH; MEDIUM; LOW].

(** [list_name in existing_list_names], the set of the names of [lists]. *)
Definition existing (list_name : string) (lists : list BoardList) : bool :=
  existsb (fun lst => String.eqb (lst_name lst) list_name) lists.

(** The search loop of [initialize_priority_lists]: the id of the first
    list with that name. *)
Fixpoint find_list_id (list_name : string) (lists : list BoardList) : option string :=
  match lists with
  | [] => None
  | lst :: rest =>
      if String.eqb (lst_name lst) list_name then Some (lst_id lst)
      else find_list_id list_name rest
  end.

(** [self.priority_lists[priority] = lid]. *)
Definition with_priority_list (self : TaskManager) (p : Priority) (lid : string) : TaskManager :=
  {| priority_lists := <[p := lid]> (priority_lists self) |}.

(** [TaskManager.__init__]. *)
Definition new_TaskManager : TaskManager := {| priority_lists := ∅ |}.

(** One step up in [priority_order]. *)
Definition next_priority (p : Priority) : option Priority :=
  match p with
  | LOW => Some MEDIUM
  | MEDIUM => Some HIGH
  | HIGH => Some CRITICAL
  | CRITICAL => None
  end.

(** [new_labels] of [escalate_task]: the labels of the card that are not
    named as the current priority, then the value of the new priority. *)
Definition escalated_labels (current new : Priority) (labels : list Label) : list label_entry :=
  (map OfCard (List.filter (label_differs (value current)) labels)
   ++ [OfText (value new)])%list.

(** The table [retro_lists] of [create_retro_board]. *)
Definition retro_lists : list (string * string) :=
  [("What Went Well", "green"); ("What Could Be Improved", "yellow");
   ("Action Items", "red"); ("Kudos", "blue")].

(** The card dictionary as [convert_to_action_items] reads it:
    [card['name']] and [card.get('desc', ...)]. *)
Record RetroCard := { retro_name : option string; retro_desc : option string }.

Section OtherMethods.

(** The board service, the clock and the renderings, as above. *)
Variable svc : Service.
Variable clock : nat -> Z.
Variable isoformat : datetime -> string.
Variable strftime : datetime -> string -> string.

(** The answer of [get_card] with the fields [convert_to_action_items]
    reads. *)
Variable get_retro_card : list call -> string -> reply RetroCard.

(** *** [TaskManager.initialize_priority_lists] *)

(** The loop over the priorities; [self.priority_lists] is updated in
    place, so the object is handed back next to the outcome. *)
Fixpoint initialize_priorities (lists : list BoardList) (members : list Priority)
    (self : TaskManager) (w : world) : outcome unit * TaskManager * world :=
  match members with
  | [] => (Returned tt, self, w)
  | p :: rest =>
      let list_name := priority_list_name p in
      if negb (existing list_name lists) then
        match call_tool "add_list_to_board" [("name", AStr list_name)]
                (fun h => add_list_to_board svc h list_name) w with
        | (Returned new_list, w') =>
            initialize_priorities lists rest (with_priority_list self p (lst_id new_list)) w'
        | (Raised e, w') => (Raised e, self, w')
        end
      else
        initialize_priorities lists rest
          match find_list_id list_name lists with
          | Some lid => with_priority_list self p lid
          | None => self
          end w
  end.

Definition initialize_priority_lists (self : TaskManager) (w : world)
    : outcome unit * TaskManager * world :=
  match call_tool "get_lists" [] (get_lists svc) w with
  | (Returned lists, w') => initialize_priorities lists Priority_members self w'
  | (Raised e, w') => (Raised e, self, w')
  end.

(** The comment that [escalate_task] adds. *)
Definition escalation_comment (current_value : string) (new_priority : Priority)
    (reason : string) (time : datetime) : string :=
  "âš ï¸ **Task Escalated**" +:+ Text.nl +:+
  Text.nl +:+
  "**From**: " +:+ Text.upper current_value +:+ Text.nl +:+
  "**To**: " +:+ Text.upper (value new_priority) +:+ Text.nl +:+
  "**Reason**: " +:+ reason +:+ Text.nl +:+
  "**Escalated by**: System" +:+ Text.nl +:+
  "**Time**: " +:+ isoformat time.

(** *** [RetroManager.create_retro_board] *)

(** The body of the loop over [retro_lists.items()]. *)
Definition create_retro_list (sprint_number : Z) (list_ids : list (string * string))
    (entry : string * string) : M (list (string * string)) :=
  let (list_name, color) := entry in
  list_data ← call_tool "add_list_to_board"
                [("name", AStr ("Sprint " +:+ Text.str_of_int sprint_number +:+ " - "
                                +:+ list_name))]
                (fun h => add_list_to_board svc h
                            ("Sprint " +:+ Text.str_of_int sprint_number +:+ " - "
                             +:+ list_name));
  mret (dict_set list_name (lst_id list_data) list_ids).

(** The introductory card. *)
Definition retro_intro (target : string) (sprint_number : Z) (today : datetime)
    : list (string * argval) :=
  [("listId", AStr target);
   ("name", AStr ("Sprint " +:+ Text.str_of_int sprint_number +:+ " Retrospective"));
   ("description",
    AStr ("# Sprint " +:+ Text.str_of_int sprint_number +:+ " Retrospective" +:+ Text.nl +:+
          Text.nl +:+
          "## Guidelines" +:+ Text.nl +:+
          "1. Be constructive and specific" +:+ Text.nl +:+
          "2. Focus on process, not people" +:+ Text.nl +:+
          "3. Suggest actionable improvements" +:+ Text.nl +:+
          "4. Celebrate successes" +:+ Text.nl +:+
          Text.nl +:+
          "## Format" +:+ Text.nl +:+
          "- **What Went Well**: Positive outcomes and successes" +:+ Text.nl +:+
          "- **What Could Be Improved**: Areas for improvement" +:+ Text.nl +:+
          "- **Action Items**: Specific actions to take" +:+ Text.nl +:+
          "- **Kudos**: Recognition for team members" +:+ Text.nl +:+
          Text.nl +:+
          "**Date**: " +:+ strftime today "%Y-%m-%d"))].

Definition create_retro_board (sprint_number : Z) : M (list (string * string)) :=
  list_ids ← fold_m (create_retro_list sprint_number) retro_lists [];
  target ← lift (dict_item "What Went Well" list_ids);
  today ← now clock;
  call_tool "add_card_to_list" (retro_intro target sprint_number today)
    (fun h => add_card_to_list svc h (retro_intro target sprint_number today));;
  mret list_ids.

(** *** [RetroManager.convert_to_action_items] *)

(** [card['name']] on the card of a retrospective. *)
Definition item_retro_name (card : RetroCard) : outcome string :=
  match retro_name card with
  | Some n => Returned n
  | None => Raised (KeyError "name")
  end.

(** The action card created for one retrospective card. *)
Definition action_item (target_board_id title : string) (desc : option string)
    (created : datetime) : list (string * argval) :=
  [("boardId", AStr target_board_id);
   ("listId", AStr "backlog-list-id");
   ("name", AStr ("[RETRO ACTION] " +:+ title));
   ("description",
    AStr ("## Retrospective Action Item" +:+ Text.nl +:+
          Text.nl +:+
          "**Origin**: Sprint Retrospective" +:+ Text.nl +:+
          "**Original Issue**: " +:+ title +:+ Text.nl +:+
          Text.nl +:+
          "### Description" +:+ Text.nl +:+
          default "No description provided" desc +:+ Text.nl +:+
          Text.nl +:+
          "### Success Criteria" +:+ Text.nl +:+
          "- [ ] Issue addressed" +:+ Text.nl +:+
          "- [ ] Process updated" +:+ Text.nl +:+
          "- [ ] Team informed" +:+ Text.nl +:+
          "- [ ] Documentation updated" +:+ Text.nl +:+
          Text.nl +:+
          "**Created from retro**: " +:+ isoformat created));
   ("labels", AStrs ["retro-action"; "improvement"])].

(** The body of the loop over [retro_cards]. *)
Definition convert_card (target_board_id : string) (action_items : list Card)
    (card_id : string) : M (list Card) :=
  card ← call_tool "get_card" [("cardId", AStr card_id)]
           (fun h => get_retro_card h card_id);
  title ← lift (item_retro_name card);
  created ← now clock;
  action_card ← call_tool "add_card_to_list"
                  (action_item target_board_id title (retro_desc card) created)
                  (fun h => add_card_to_list svc h
                              (action_item target_board_id title (retro_desc card) created));
  mret (action_items ++ [action_card])%list.

Definition convert_to_action_items (retro_cards : list string) (target_board_id : string)
    : M (list Card) :=
  fold_m (convert_card target_board_id) retro_cards [].

End OtherMethods.

(** The cards of the retrospective samples. *)
Definition sample_retro_card (h : list call) (cid : string) : reply RetroCard :=
  if String.eqb cid "r-untitled" then Answer {| retro_name := None; retro_desc := None |}
  else Answer {| retro_name := Some ("Retro " +:+ cid); retro_desc := Some "Too many meetings" |}.

(** A board that has the lists of two of the four priorities. *)
Definition half_prepared_board : Service :=
  still_board
    [ {| lst_id := "p-high-1"; lst_name := "Priority: High" |};
      {| lst_id := "p-low"; lst_name := "Priority: Low" |};
      {| lst_id := "p-high-2"; lst_name := "Priority: High" |} ]
    sample_cards sample_card.

(** The sample service, except that it refuses every dropped-result call
    whose [text] argument is [refused]. *)
Definition refusing (refused : string) : Service :=
  {| get_lists := get_lists sample_service;
     get_cards_by_list_id := get_cards_by_list_id sample_service;
     get_card := get_card sample_service;
     add_list_to_board := add_list_to_board sample_service;
     add_card_to_list := add_card_to_list sample_service;
     acknowledge := fun _ c =>
       match dict_get "text" (arguments c) with
       | Some (AStr t) => if String.eqb t refused then Failure "connection lost" else Answer tt
       | _ => Answer tt
       end |}.

(** The call that adds one checklist item in [create_task]. *)
Definition checklist_call (item_text : string) : call :=
  {| tool_name := "add_checklist_item";
     arguments := [("text", AStr item_text); ("checkListName", AStr "Task Checklist")] |}.

(** A task with a due date of its own and three checklist items. *)
Definition dated_task : Task :=
  {| name := "Rotate keys"; description := "Quarterly rotation"; priority := HIGH;
     assignee := None; due_date := Some (naive 1706745600000000);
     labels := Some ["security"; "ops"];
     checklist_items := Some ["Create key"; "Deploy key"; "Revoke old key"] |}.

(** The text of the comment that [move_card_to_stage] adds. *)
Definition transition_comment (stage : string) (comment : option string) : string :=
  "âž¡ï¸ Moved to **" +:+ stage +:+ "**" +:+ Text.nl +:+
  Text.nl +:+ str_or comment "".

(** The call that creates the list of a workflow stage. *)
Definition stage_call (stage : string) : call :=
  {| tool_name := "add_list_to_board"; arguments := [("name", AStr stage)] |}.

(** The sample service, except that it refuses to create a list named
    [refused]. *)
Definition refusing_list (refused : string) : Service :=
  {| get_lists := get_lists sample_service;
     get_cards_by_list_id := get_cards_by_list_id sample_service;
     get_card := get_card sample_service;
     add_list_to_board := fun h title =>
       if String.eqb title refused then Failure "connection lost"
       else add_list_to_board sample_service h title;
     add_card_to_list := add_card_to_list sample_service;
     acknowledge := acknowledge sample_service |}.

(** A board whose second list has the empty identifier. *)
Definition unfiled_board : Service :=
  still_board
    [ {| lst_id := "l0"; lst_name := "Sprint 23 - Kudos" |};
      {| lst_id := ""; lst_name := "Sprint 23 - What Went Well" |};
      {| lst_id := "l2"; lst_name := "What Went Well (archive)" |} ]
    sample_cards sample_card.

(** A board for the point parsing: digits of several scripts, brackets
    in other places, a card without a title. *)
Definition points_cards (lid : string) : list Card :=
  if String.eqb lid "b1" then
    [ blank_card "[٣] Seating plan"; blank_card "Sketch [8]"; blank_card "[13] Checkout";
      blank_card "[5a] Cart"; blank_card "[] Wishlist";
      {| card_name := None; card_labels := []; card_due := None;
         card_dueComplete := false; card_dateLastActivity := None |} ]
  else if String.eqb lid "b2" then
    [ blank_card "[𝟗８] Search"; blank_card "[007] Login" ]
  else [].

Definition points_board : list BoardList :=
  [ {| lst_id := "b1"; lst_name := "To Do" |};
    {| lst_id := "b2"; lst_name := "Deployed" |} ].

Definition points_service : Service := still_board points_board points_cards sample_card.

(** A title that starts with 4301 digits in brackets. *)
Definition oversized_title : string :=
  "[" +:+ String.concat "" (repeat "1" 4301) +:+ "] Migration".

Definition oversized_service : Service :=
  still_board [ {| lst_id := "l3"; lst_name := "Done" |} ]
    (fun _ => [labelled oversized_title ["sprint-1"]]) sample_card.

(** A done list whose one card is worth a one followed by 400 zeros. *)
Definition astronomic_title : string :=
  "[1" +:+ String.concat "" (repeat "0" 400) +:+ "] Rewrite".

Definition astronomic_service : Service :=
  still_board [ {| lst_id := "l3"; lst_name := "Done" |} ]
    (fun _ => [labelled astronomic_title ["sprint-1"]]) sample_card.

(** A board with an overdue card, a blocked card, a card idle for twenty
    days, and a card that is all three. *)
Definition troubled_cards : list Card :=
  [ {| card_name := Some "Invoice export"; card_labels := [];
       card_due := Some "2024-01-10T09:00:00"; card_dueComplete := false;
       card_dateLastActivity := Some "2024-01-14T08:30:00" |};
    {| card_name := Some "Tax report"; card_labels := [];
       card_due := Some "2024-01-10T09:00:00"; card_dueComplete := true;
       card_dateLastActivity := None |};
    {| card_name := Some "Vendor contract";
       card_labels := [ {| label_name := Some "legal" |}; {| label_name := Some "blocked" |} ];
       card_due := Some "2024-03-01"; card_dueComplete := false;
       card_dateLastActivity := Some "2024-01-01T00:00:00" |};
    {| card_name := Some "Old migration"; card_labels := [ {| label_name := Some "Blocked" |} ];
       card_due := None; card_dueComplete := false;
       card_dateLastActivity := Some "2023-12-26T12:00:00" |};
    {| card_name := Some "Forgotten audit"; card_labels := [ {| label_name := Some "blocked" |} ];
       card_due := Some "2023-12-01T00:00:00"; card_dueComplete := false;
       card_dateLastActivity := Some "2023-12-01T00:00:00.500" |} ].

Definition troubled_board : list BoardList :=
  [ {| lst_id := "t1"; lst_name := "To Do" |}; {| lst_id := "t2"; lst_name := "Waiting" |} ].

Definition troubled_cards_of (lid : string) : list Card :=
  if String.eqb lid "t1" then take 2 troubled_cards
  else if String.eqb lid "t2" then drop 2 troubled_cards
  else [].

Definition troubled_service : Service :=
  still_board troubled_board troubled_cards_of sample_card.

(** The entry of a list in [by_list]: its name and the points of its
    cards. *)
Definition list_entry (cards_of : string -> list Card) (lst : BoardList)
    (entry : string * Z) : Prop :=
  entry.1 = lst_name lst /\ points_of (cards_of (lst_id lst)) entry.2.

(** The list entries of a health report have counts between zero and the
    number of cards seen so far. *)
Definition shares_bounded (m : Metrics) : Prop :=
  0 <= total_cards m /\
  Forall (fun entry : string * ListShare => 0 <= count entry.2 <= total_cards m) (lists m).

(** A board with twenty-one overdue cards in its one list. *)
Definition crowded_service : Service :=
  still_board [ {| lst_id := "c1"; lst_name := "Late" |} ]
    (fun _ => repeat {| card_name := Some "Late delivery"; card_labels := [];
                        card_due := Some "2024-01-10T09:00:00"; card_dueComplete := false;
                        card_dateLastActivity := None |} 21)
    sample_card.

(** * Properties *)

(** ** The monad *)

Ltac unfold_monad :=
  unfold mbind, M_bind, bind, mret, M_ret, ret, raise, lift, print, call_tool_, call_tool,
    now, read_clock, record_call, outcome_bind, outcome_ret in *.

Lemma bind_run {A B} (m : M A) (k : A -> M B) (w : world) :
  (m ≫= k) w =
  match m w with
  | (Returned a, w') => k a w'
  | (Raised e, w') => (Raised e, w')
  end.
Proof. reflexivity. Qed.

Lemma call_tool_run {A} tool args (answer : list call -> reply A) (w : world) :
  call_tool tool args answer w =
  (match answer (journal w) with
   | Answer a => Returned a
   | Failure info => Raised (RemoteError info)
   end,
   {| journal := journal w ++ [{| tool_name := tool; arguments := args |}];
      ticks := ticks w; console := console w |}).
Proof. reflexivity. Qed.

Lemma now_run clock (w : world) :
  now clock w =
  (Returned (naive (clock (ticks w))),
   {| journal := journal w; ticks := S (ticks w); console := console w |}).
Proof. reflexivity. Qed.

Lemma ret_run {A} (a : A) (w : world) : (mret a : M A) w = (Returned a, w).
Proof. reflexivity. Qed.

Lemma raise_run {A} (e : exn) (w : world) : (raise e : M A) w = (Raised e, w).
Proof. reflexivity. Qed.

Lemma lift_run {A} (o : outcome A) (w : world) : lift o w = (o, w).
Proof. reflexivity. Qed.

Lemma print_run (line : string) (w : world) :
  print line w =
  (Returned tt,
   {| journal := journal w; ticks := ticks w; console := console w ++ [line] |}).
Proof. reflexivity. Qed.

(** One step of a method body after the other. *)
Ltac run_method :=
  repeat (first [ rewrite bind_run | rewrite ret_run | rewrite raise_run | rewrite lift_run
                | rewrite now_run | rewrite call_tool_run | rewrite print_run ];
          cbv beta iota).

Lemma for_each_app {A} (body : A -> M unit) (xs ys : list A) (w : world) :
  for_each (xs ++ ys)%list body w =
  match for_each xs body w with
  | (Returned _, w') => for_each ys body w'
  | (Raised e, w') => (Raised e, w')
  end.
Proof.
  revert w. induction xs as [|x xs IH]; intros w; simpl.
  - reflexivity.
  - unfold_monad. destruct (body x w) as [[[]|e] w1]; [apply IH | reflexivity].
Qed.

(** ** [create_task] *)

(** C1: when the task has no due date, [create_task] gives it one: the
    zone-less instant that the clock reads at that moment plus exactly
    1 day (critical), 3 days (high), 7 days (medium) or 14 days (low),
    a day being 86400 seconds of a million microseconds; every other field
    of the task stays what it was.  A task that comes with a due date keeps
    that date and everything else. *)
Theorem create_task_default_due_date :
  forall svc clock isoformat strftime self task w,
    let '(_, task', _) := create_task svc clock isoformat strftime self task w in
    match due_date task with
    | None =>
        due_date task'
        = Some {| wall := clock (ticks w)
                          + match priority task with
                            | CRITICAL => 1 | HIGH => 3 | MEDIUM => 7 | LOW => 14
                            end * (86400 * 1000000);
                  utcoffset := None |} /\
        name task' = name task /\
        description task' = description task /\
        priority task' = priority task /\
        assignee task' = assignee task /\
        labels task' = labels task /\
        checklist_items task' = checklist_items task
    | Some d => due_date task' = Some d /\ task' = task
    end.
Proof.
  intros svc clock isoformat strftime self task w.
  unfold create_task, default_due_date, read_clock.
  destruct (due_date task) as [d|] eqn:Hdue.
  - destruct (post_task _ _ _ _ _ _ _) as [r w']. by split.
  - destruct (post_task _ _ _ _ _ _ _) as [r w'].
    unfold with_due_date, dt_add, naive, timedelta_days, days_by_priority, us_per_day.
    cbn [due_date name description priority assignee labels checklist_items wall utcoffset].
    repeat split; by destruct (priority task).
Qed.

Lemma checklist_calls svc (items : list string) (w : world) :
  exists rest,
    journal (for_each items
               (fun item_text =>
                  call_tool_ svc "add_checklist_item"
                    [("text", AStr item_text); ("checkListName", AStr "Task Checklist")]) w).2
    = (journal w ++ rest)%list /\
    Forall (fun c => tool_name c = "add_checklist_item") rest.
Proof.
  revert w. induction items as [|x items IH]; intros w.
  - exists []. simpl. by rewrite app_nil_r.
  - cbn [for_each]. rewrite bind_run. unfold call_tool_ at 1. rewrite call_tool_run.
    destruct (acknowledge svc (journal w) _) as [[]|info].
    + match goal with |- context [for_each items _ ?w0] =>
        destruct (IH w0) as (rest & Hj & Hall) end.
      eexists (_ :: rest). split.
      * rewrite Hj. simpl. by rewrite <- app_assoc.
      * by constructor.
    + eexists [_]. split; [reflexivity|]. by repeat constructor.
Qed.

(** C10: when the priority of the task has a list, the first call of
    [create_task] is the card creation, and its labels are the one-element
    list of the priority value if the task has no labels (absent or empty)
    and the task's own labels, with nothing added, otherwise; every later
    call adds a checklist item. *)
Theorem create_task_labels :
  forall svc clock isoformat strftime self task w lid,
    priority_lists self !! priority task = Some lid ->
    exists args rest,
      journal (create_task svc clock isoformat strftime self task w).2
      = (journal w ++ {| tool_name := "add_card_to_list"; arguments := args |} :: rest)%list /\
      dict_get "labels" args
      = Some (AStrs match labels task with
                    | Some (l :: ls) => l :: ls
                    | _ => [value (priority task)]
                    end) /\
      Forall (fun c => tool_name c = "add_checklist_item") rest.
Proof.
  intros svc clock isoformat strftime self task w lid Hlid.
  unfold create_task.
  destruct (default_due_date clock task w) as [task' w1] eqn:Hdef.
  assert (Hsame : priority task' = priority task /\ labels task' = labels task /\
                  journal w1 = journal w /\ exists d, due_date task' = Some d).
  { unfold default_due_date, read_clock in Hdef.
    destruct (due_date task) eqn:Hd; inversion Hdef; subst; simpl; eauto. }
  destruct Hsame as (Hp & Hl & Hj & d & Hd).
  assert (Hlabels : list_or (labels task') [value (priority task)]
                    = match labels task with
                      | Some (l :: ls) => l :: ls
                      | _ => [value (priority task)]
                      end).
  { rewrite Hl. unfold list_or. by destruct (labels task) as [[|l ls]|]. }
  unfold post_task, priority_list, _format_task_description, due_date_isoformat.
  rewrite Hp, Hlid, Hd.
  run_method. cbn [journal]. rewrite Hj.
  destruct (add_card_to_list svc (journal w) _) as [card|info]; run_method.
  - match goal with
    | |- context [for_each ?items ?body ?w0] =>
        destruct (checklist_calls svc items w0) as (rest & Hrest & Hall);
        destruct (for_each items body w0) as [[[]|e] w2]
    end; run_method; cbv beta iota; cbn [snd journal] in *; rewrite Hrest, <- app_assoc;
      (eexists _, rest; split; [reflexivity|]; split; [|exact Hall]);
      cbn [dict_get String.eqb Ascii.eqb Bool.eqb]; by rewrite Hlabels.
  - cbv beta iota. cbn [snd journal].
    eexists _, []. split; [reflexivity|]. split; [|constructor].
    cbn [dict_get String.eqb Ascii.eqb Bool.eqb]. by rewrite Hlabels.
Qed.

Lemma create_task_labels_witness :
  exists args rest,
    journal (create_task sample_service sample_clock Calendar.isoformat Calendar.strftime
               sample_manager sample_task fresh_world).2
    = (journal fresh_world
       ++ {| tool_name := "add_card_to_list"; arguments := args |} :: rest)%list /\
    dict_get "labels" args = Some (AStrs ["critical"]) /\
    Forall (fun c => tool_name c = "add_checklist_item") rest.
Proof.
  exact (create_task_labels sample_service sample_clock Calendar.isoformat Calendar.strftime
           sample_manager sample_task fresh_world "list-critical" eq_refl).
Defined.

(** ** [escalate_task] *)

Lemma Priority_of_value_member (p : Priority) : Priority_of_value (value p) = Returned p.
Proof. by destruct p. Qed.

Lemma Priority_of_value_other (v : string) :
  (forall p, v <> value p) -> exists msg, Priority_of_value v = Raised (ValueError msg).
Proof.
  intros Hv. unfold Priority_of_value.
  destruct (String.eqb_spec v "critical") as [->|_]; [by destruct (Hv CRITICAL)|].
  destruct (String.eqb_spec v "high") as [->|_]; [by destruct (Hv HIGH)|].
  destruct (String.eqb_spec v "medium") as [->|_]; [by destruct (Hv MEDIUM)|].
  destruct (String.eqb_spec v "low") as [->|_]; [by destruct (Hv LOW)|].
  eauto.
Qed.

Lemma priority_of_label_other (l : Label) :
  (forall p, label_name l <> Some (value p)) ->
  exists msg, priority_of_label l = Raised (ValueError msg).
Proof.
  intros Hl. unfold priority_of_label.
  destruct (label_name l) as [v|]; [|eauto].
  apply Priority_of_value_other. intros p ->. by apply (Hl p).
Qed.

(** The inference loop finds the first label that names a priority. *)
Lemma current_priority_first (before after : list Label) (l : Label) (p : Priority) :
  (forall l' q, In l' before -> label_name l' <> Some (value q)) ->
  label_name l = Some (value p) ->
  current_priority_of (before ++ l :: after) = Returned (Some p).
Proof.
  intros Hbefore Hl. induction before as [|l' before IH]; simpl.
  - unfold priority_of_label. by rewrite Hl, Priority_of_value_member.
  - destruct (priority_of_label_other l') as [msg ->].
    { intros q. apply Hbefore. by left. }
    apply IH. intros l'' q Hin. apply Hbefore. by right.
Qed.

Lemma current_priority_none (labels : list Label) :
  (forall l q, In l labels -> label_name l <> Some (value q)) ->
  current_priority_of labels = Returned None.
Proof.
  intros Hnone. induction labels as [|l labels IH]; simpl; [reflexivity|].
  destruct (priority_of_label_other l) as [msg ->].
  { intros q. apply Hnone. by left. }
  apply IH. intros l' q Hin. apply Hnone. by right.
Qed.

(** C6: when the first label of the card that names a priority names
    [critical], [escalate_task] returns after reading the card: the only
    call in the journal is [get_card], so no card is moved, no label list
    is updated and no comment is added. *)
Theorem escalate_task_critical_is_noop :
  forall svc clock isoformat self card_id reason w card before l after,
    get_card svc (journal w) card_id = Answer card ->
    card_labels card = (before ++ l :: after)%list ->
    (forall l' q, In l' before -> label_name l' <> Some (value q)) ->
    label_name l = Some "critical" ->
    escalate_task svc clock isoformat self card_id reason w =
    (Returned tt,
     {| journal := journal w ++ [{| tool_name := "get_card";
                                    arguments := [("cardId", AStr card_id)] |}];
        ticks := ticks w;
        console := console w ++ ["Task is already at highest priority"] |}).
Proof.
  intros svc clock isoformat self card_id reason w card before l after Hcard Hlabels Hbefore Hl.
  unfold escalate_task. run_method. rewrite Hcard. run_method.
  rewrite Hlabels, (current_priority_first before after l CRITICAL Hbefore Hl).
  run_method. by rewrite decide_True.
Qed.

Lemma escalate_task_critical_is_noop_witness :
  escalate_task sample_service sample_clock Calendar.isoformat sample_manager
    "c-critical" "customer impact" fresh_world =
  (Returned tt,
   {| journal := [{| tool_name := "get_card"; arguments := [("cardId", AStr "c-critical")] |}];
      ticks := 0;
      console := ["Task is already at highest priority"] |}).
Proof.
  apply (escalate_task_critical_is_noop sample_service sample_clock Calendar.isoformat
           sample_manager "c-critical" "customer impact" fresh_world
           (sample_card "c-critical") [{| label_name := Some "incident" |}]
           {| label_name := Some "critical" |} []).
  - reflexivity.
  - reflexivity.
  - intros l' q [<-|[]]. by destruct q.
  - reflexivity.
Defined.

(** C7: when no label of the card names a priority, [escalate_task] fails:
    the inferred priority stays [None], [priority_order.index] raises its
    [ValueError], and the error leaves the method after the one call that
    read the card. *)
Theorem escalate_task_without_priority_raises :
  forall svc clock isoformat self card_id reason w card,
    get_card svc (journal w) card_id = Answer card ->
    (forall l q, In l (card_labels card) -> label_name l <> Some (value q)) ->
    escalate_task svc clock isoformat self card_id reason w =
    (Raised (ValueError "None is not in list"),
     {| journal := journal w ++ [{| tool_name := "get_card";
                                    arguments := [("cardId", AStr card_id)] |}];
        ticks := ticks w;
        console := console w |}).
Proof.
  intros svc clock isoformat self card_id reason w card Hcard Hnone.
  unfold escalate_task. run_method. rewrite Hcard. run_method.
  rewrite (current_priority_none _ Hnone). run_method.
  rewrite decide_False by discriminate. run_method. reflexivity.
Qed.

Lemma escalate_task_without_priority_raises_witness :
  escalate_task sample_service sample_clock Calendar.isoformat sample_manager
    "c-untriaged" "customer impact" fresh_world =
  (Raised (ValueError "None is not in list"),
   {| journal := [{| tool_name := "get_card"; arguments := [("cardId", AStr "c-untriaged")] |}];
      ticks := 0;
      console := [] |}).
Proof.
  apply (escalate_task_without_priority_raises sample_service sample_clock Calendar.isoformat
           sample_manager "c-untriaged" "customer impact" fresh_world
           (sample_card "c-untriaged")).
  - reflexivity.
  - intros l q [<-|[]]. by destruct q.
Defined.

(** ** [move_card_to_stage] *)

(** After [setup_kanban_board] has run to its end on a new object, the
    stages with a list are the six workflow stages. *)
Lemma setup_stages_known svc (stages : list string) (self self' : KanbanAutomation)
    (w w' : world) (stage : string) :
  setup_stages svc stages self w = (Returned tt, self', w') ->
  is_Some (stage_lists self' !! stage) <->
  In stage stages \/ is_Some (stage_lists self !! stage).
Proof.
  revert self w. induction stages as [|s stages IH]; intros self w Hrun;
    cbn [setup_stages In] in *.
  - inversion Hrun; subst. tauto.
  - rewrite call_tool_run in Hrun.
    destruct (add_list_to_board svc (journal w) s) as [list_data|info]; [|discriminate].
    apply IH in Hrun. rewrite Hrun. simpl.
    destruct (decide (s = stage)) as [->|Hne].
    + rewrite lookup_insert_eq. split; [|intros _; right]; eauto.
    + rewrite lookup_insert_ne by done. tauto.
Qed.

Lemma setup_kanban_board_known svc (self' : KanbanAutomation) (w w' : world) (stage : string) :
  setup_kanban_board svc new_KanbanAutomation w = (Returned tt, self', w') ->
  stage_lists self' !! stage = None <-> ~ In stage (workflow_stages new_KanbanAutomation).
Proof.
  intros Hrun. apply (setup_stages_known _ _ _ _ _ _ stage) in Hrun.
  rewrite <- not_eq_None_Some in Hrun. simpl stage_lists in Hrun.
  rewrite lookup_empty in Hrun.
  assert (Hnot : ~ is_Some (None : option string)) by (intros [x Hx]; discriminate).
  destruct (decide (stage_lists self' !! stage = None)); tauto.
Qed.

(** C8: [move_card_to_stage] raises a [ValueError] exactly when the stage
    has no list in [stage_lists], and then it raises before any call: the
    journal is what it was, so no card was moved and no comment added. *)
Theorem move_card_to_stage_rejects_unknown :
  forall svc self card_id stage comment w,
    ((exists msg, (move_card_to_stage svc self card_id stage comment w).1
                  = Raised (ValueError msg))
     <-> stage_lists self !! stage = None) /\
    (stage_lists self !! stage = None ->
     move_card_to_stage svc self card_id stage comment w
     = (Raised (ValueError ("Invalid stage: " +:+ stage)), w)).
Proof.
  intros svc self card_id stage comment w.
  unfold move_card_to_stage, stage_list.
  destruct (decide (stage_lists self !! stage = None)) as [Hnone|Hsome].
  - run_method. split; [|done]. split; [done|]. intros _. eauto.
  - destruct (stage_lists self !! stage) as [lid|] eqn:Hlid; [|done].
    split; [|done]. split; [|done]. intros [msg Hmsg]. exfalso.
    revert Hmsg. unfold call_tool_. run_method.
    destruct (acknowledge svc (journal w) _) as [[]|info]; run_method; [|done].
    destruct (truth comment); run_method; [|done].
    destruct (acknowledge svc _ _) as [[]|info]; done.
Qed.

Lemma move_card_to_stage_rejects_unknown_witness :
  ((exists msg, (move_card_to_stage sample_service sample_kanban "c-high" "Shipped"
                   (Some "ready") fresh_world).1 = Raised (ValueError msg))
   <-> stage_lists sample_kanban !! "Shipped" = None) /\
  (stage_lists sample_kanban !! "Shipped" = None ->
   move_card_to_stage sample_service sample_kanban "c-high" "Shipped" (Some "ready") fresh_world
   = (Raised (ValueError "Invalid stage: Shipped"), fresh_world)).
Proof.
  exact (move_card_to_stage_rejects_unknown sample_service sample_kanban "c-high" "Shipped"
           (Some "ready") fresh_world).
Defined.

(** ** [add_retro_item] *)

Lemma prefix_spec (needle hay : string) :
  String.prefix needle hay = true <-> exists after, hay = needle +:+ after.
Proof.
  revert hay. induction needle as [|c needle IH]; intros hay.
  - split; [intros _; by exists hay | by destruct hay].
  - destruct hay as [|c' hay]; cbn [String.prefix].
    + split; [done | intros [after Hafter]; discriminate].
    + destruct (ascii_dec c c') as [->|Hne].
      * rewrite IH. split; intros [after Hafter]; exists after.
        -- change (String c' hay = String c' (needle +:+ after)). congruence.
        -- change (String c' hay = String c' (needle +:+ after)) in Hafter. congruence.
      * split; [done | intros [after Hafter]].
        change (String c' hay = String c (needle +:+ after)) in Hafter. congruence.
Qed.

(** [in] on strings is the occurrence of the needle somewhere in the text. *)
Lemma contains_spec (needle hay : string) :
  Text.contains needle hay = true <-> substring needle hay.
Proof.
  unfold substring. induction hay as [|c hay IH]; cbn [Text.contains].
  - rewrite orb_false_r, prefix_spec. split.
    + intros [after Hafter]. by exists "", after.
    + intros ([|c before] & after & Hhay); [by exists after | discriminate].
  - rewrite orb_true_iff, IH, prefix_spec. split.
    + intros [[after Hafter] | (before & after & Hhay)].
      * by exists "", after.
      * exists (String c before), after.
        change (String c hay = String c (before +:+ needle +:+ after)). by rewrite Hhay.
    + intros ([|c' before] & after & Hhay).
      * left. by exists after.
      * right. exists before, after.
        change (String c hay = String c' (before +:+ needle +:+ after)) in Hhay. congruence.
Qed.

Lemma find_target_list_none (list_name : string) (board : list BoardList) :
  (forall lst, In lst board -> ~ substring list_name (lst_name lst)) ->
  find_target_list list_name board = None.
Proof.
  intros Hnone. induction board as [|lst board IH]; simpl; [reflexivity|].
  destruct (Text.contains list_name (lst_name lst)) eqn:Hc.
  - apply contains_spec in Hc. destruct (Hnone lst); [by left | done].
  - apply IH. intros lst' Hin. apply Hnone. by right.
Qed.

Lemma find_target_list_first (list_name : string) (before after : list BoardList)
    (lst : BoardList) :
  (forall lst', In lst' before -> ~ substring list_name (lst_name lst')) ->
  substring list_name (lst_name lst) ->
  find_target_list list_name (before ++ lst :: after) = Some (lst_id lst).
Proof.
  intros Hbefore Hlst. induction before as [|lst' before IH]; simpl.
  - apply contains_spec in Hlst. by rewrite Hlst.
  - destruct (Text.contains list_name (lst_name lst')) eqn:Hc.
    + apply contains_spec in Hc. destruct (Hbefore lst'); [by left | done].
    + apply IH. intros lst'' Hin. apply Hbefore. by right.
Qed.

Lemma find_target_list_some (list_name : string) (board : list BoardList) (target : string) :
  find_target_list list_name board = Some target ->
  exists lst, In lst board /\ substring list_name (lst_name lst) /\ target = lst_id lst.
Proof.
  induction board as [|lst board IH]; simpl; [done|].
  destruct (Text.contains list_name (lst_name lst)) eqn:Hc.
  - intros [= <-]. exists lst. rewrite <- contains_spec. auto.
  - intros Hfind. destruct (IH Hfind) as (lst' & Hin & Hsub & Htarget). eauto.
Qed.

Lemma truthy_nonempty (s : string) : s <> "" -> Text.truthy s = true.
Proof. intros Hs. unfold Text.truthy. by destruct (String.eqb_spec s ""). Qed.



(** ** [apply_wip_limits] *)



(** ** Floating point *)

Lemma round_half_even_nearest (num den M : Z) :
  0 < den ->
  Z.abs (num - Float.round_half_even num den * den) <= Z.abs (num - M * den).
Proof.
  intros Hden. unfold Float.round_half_even.
  pose proof (Z.div_mod num den ltac:(lia)) as Hdm.
  pose proof (Z.mod_pos_bound num den Hden) as Hr.
  set (q := num / den) in *. set (r := num mod den) in *.
  assert (HM : M <= q \/ q + 1 <= M) by lia.
  destruct (Z.ltb_spec (2 * r) den); [|destruct (Z.ltb_spec den (2 * r)); [|destruct (Z.even q)]];
    nia.
Qed.

Lemma round_half_even_between (num den lo hi : Z) :
  0 < den -> lo * den <= num <= hi * den ->
  lo <= Float.round_half_even num den <= hi.
Proof.
  intros Hden [Hlo Hhi]. unfold Float.round_half_even.
  pose proof (Z.div_mod num den ltac:(lia)) as Hdm.
  pose proof (Z.mod_pos_bound num den Hden) as Hr.
  set (q := num / den) in *. set (r := num mod den) in *.
  assert (lo <= q) by nia.
  assert (q < hi \/ (q = hi /\ r = 0)) by nia.
  destruct (Z.ltb_spec (2 * r) den); [|destruct (Z.ltb_spec den (2 * r)); [|destruct (Z.even q)]];
    lia.
Qed.

Lemma round_half_even_half (num den : Z) :
  0 < den -> 2 * Z.abs (num - Float.round_half_even num den * den) <= den.
Proof.
  intros Hden. unfold Float.round_half_even.
  pose proof (Z.div_mod num den ltac:(lia)) as Hdm.
  pose proof (Z.mod_pos_bound num den Hden) as Hr.
  set (q := num / den) in *. set (r := num mod den) in *.
  destruct (Z.ltb_spec (2 * r) den); [|destruct (Z.ltb_spec den (2 * r)); [|destruct (Z.even q)]];
    nia.
Qed.

(** From the middle between an odd number and the even one above it,
    rounding goes up. *)
Lemma round_half_even_up (num den M : Z) :
  0 < den -> Z.even M = true -> (2 * M - 1) * den <= 2 * num ->
  M <= Float.round_half_even num den.
Proof.
  intros Hden Heven Hnum. unfold Float.round_half_even.
  pose proof (Z.div_mod num den ltac:(lia)) as Hdm.
  pose proof (Z.mod_pos_bound num den Hden) as Hr.
  set (q := num / den) in *. set (r := num mod den) in *.
  assert (Hq : M <= q \/ (q = M - 1 /\ den <= 2 * r)) by nia.
  destruct Hq as [Hq | [Hq Hhalf]].
  - destruct (Z.ltb_spec (2 * r) den); [|destruct (Z.ltb_spec den (2 * r)); [|destruct (Z.even q)]];
      lia.
  - assert (Hodd : Z.even q = false).
    { rewrite Hq, Z.even_sub, Heven. reflexivity. }
    rewrite Hodd.
    destruct (Z.ltb_spec (2 * r) den); [lia|]. destruct (Z.ltb_spec den (2 * r)); lia.
Qed.

Section Nearest.

Variables n d : Z.
Hypothesis Hn : 0 < n.
Hypothesis Hd : 0 < d.

Lemma scaled_bounds :
  d * (Float.scale n / d) <= Float.scale n < d * (Float.scale n / d + 1).
Proof.
  pose proof (Z.div_mod (Float.scale n) d ltac:(lia)).
  pose proof (Z.mod_pos_bound (Float.scale n) d Hd). nia.
Qed.

Lemma exponent_nonneg : 0 <= Float.exponent n d.
Proof. unfold Float.exponent. lia. Qed.

Lemma scaled_pos : 0 < Float.scale n.
Proof. unfold Float.scale. pose proof (Z.pow_pos_nonneg 2 1074). lia. Qed.

(** Above the subnormal range the quotient has 53 bits on the grid. *)
Lemma grid_lower :
  0 < Float.exponent n d -> 2 ^ 52 * (d * 2 ^ Float.exponent n d) <= Float.scale n.
Proof.
  intros Hk. pose proof scaled_bounds as [Hlo _].
  set (whole := Float.scale n / d) in *.
  assert (Hlog : Float.exponent n d = Z.log2 whole - 52)
    by (unfold Float.exponent in *; fold whole in Hk |- *; lia).
  set (k := Float.exponent n d) in *.
  assert (Hwhole : 0 < whole) by (destruct (Z.log2_null whole) as [_ H0]; lia).
  pose proof (Z.log2_spec whole Hwhole) as [Hpow _].
  replace (Z.log2 whole) with (52 + k) in Hpow by lia.
  rewrite Z.pow_add_r in Hpow by lia.
  pose proof (Z.pow_pos_nonneg 2 k ltac:(lia) ltac:(lia)).
  pose proof (Z.pow_pos_nonneg 2 52 ltac:(lia) ltac:(lia)).
  nia.
Qed.

Lemma grid_upper : Float.scale n <= 2 ^ 53 * (d * 2 ^ Float.exponent n d).
Proof.
  pose proof scaled_bounds as [_ Hhi]. pose proof exponent_nonneg as Hk.
  set (whole := Float.scale n / d) in *.
  assert (Hlog : Z.log2 whole - 52 <= Float.exponent n d)
    by (unfold Float.exponent; fold whole; lia).
  set (k := Float.exponent n d) in *.
  pose proof (Z.pow_pos_nonneg 2 k ltac:(lia) Hk) as Hpk.
  pose proof (Z.pow_pos_nonneg 2 53 ltac:(lia) ltac:(lia)) as Hp53.
  destruct (Z.le_gt_cases whole 0) as [Hzero|Hwhole]; [nia|].
  pose proof (Z.log2_spec whole Hwhole) as [_ Hpow].
  assert (Hle : 2 ^ Z.succ (Z.log2 whole) <= 2 ^ (53 + k)).
  { apply Z.pow_le_mono_r; lia. }
  rewrite Z.pow_add_r in Hle by lia. nia.
Qed.

(** No binary64 number is nearer to the quotient than its rounding. *)
Lemma nearest_closest (units : Z) :
  binary64_units units ->
  Z.abs (Float.scale n - Float.nearest n d * d) <= Z.abs (Float.scale n - units * d).
Proof.
  intros (m & k' & Hm & Hk' & ->). unfold Float.nearest.
  pose proof exponent_nonneg as Hk. pose proof grid_lower as Hlow.
  set (k := Float.exponent n d) in *. set (scaled := Float.scale n) in *.
  pose proof (Z.pow_pos_nonneg 2 k ltac:(lia) Hk) as Hpk.
  set (den := d * 2 ^ k) in *.
  assert (Hden : 0 < den) by (unfold den; nia).
  replace (Float.round_half_even scaled den * 2 ^ k * d)
    with (Float.round_half_even scaled den * den) by (unfold den; ring).
  destruct (Z.le_gt_cases k k') as [Hle|Hlt].
  - replace (m * 2 ^ k' * d) with (m * 2 ^ (k' - k) * den).
    + by apply round_half_even_nearest.
    + unfold den. replace k' with ((k' - k) + k) at 2 by lia.
      rewrite Z.pow_add_r by lia. ring.
  - specialize (Hlow ltac:(lia)).
    pose proof (round_half_even_nearest scaled den (2 ^ 52) Hden) as Hnear.
    assert (Hsmall : m * 2 ^ k' * d < 2 ^ 52 * den).
    { unfold den. replace k with ((k - k' - 1) + 1 + k') by lia.
      rewrite !Z.pow_add_r by lia.
      pose proof (Z.pow_pos_nonneg 2 k' ltac:(lia) ltac:(lia)).
      pose proof (Z.pow_pos_nonneg 2 (k - k' - 1) ltac:(lia) ltac:(lia)).
      change (2 ^ 1) with 2.
      assert (m < 2 ^ 53) by lia. change (2 ^ 53) with (2 * 2 ^ 52) in *.
      pose proof (Z.pow_pos_nonneg 2 52 ltac:(lia) ltac:(lia)).
      nia. }
    lia.
Qed.

(** A rounding that is not too large is a binary64 number. *)
Lemma nearest_units : Float.nearest n d < 2 ^ 2098 -> binary64_units (Float.nearest n d).
Proof.
  unfold Float.nearest. intros Hfinite.
  pose proof exponent_nonneg as Hk. pose proof grid_lower as Hlow.
  pose proof scaled_pos as Hpos. pose proof grid_upper as Hup.
  set (k := Float.exponent n d) in *. set (scaled := Float.scale n) in *.
  pose proof (Z.pow_pos_nonneg 2 k ltac:(lia) Hk) as Hpk.
  set (den := d * 2 ^ k) in *.
  assert (Hden : 0 < den) by (unfold den; nia).
  destruct (round_half_even_between scaled den 0 (2 ^ 53) Hden ltac:(lia)) as [Hm0 Hm53].
  set (m := Float.round_half_even scaled den) in *.
  assert (Hbig : forall j, 0 <= j -> 2 ^ j * 2 ^ k < 2 ^ 2098 -> j + k < 2098).
  { intros j Hj Hlt. rewrite <- Z.pow_add_r in Hlt by lia.
    apply Z.pow_lt_mono_r_iff in Hlt; lia. }
  destruct (Z.eq_dec m (2 ^ 53)) as [Hfull|Hpart].
  - exists (2 ^ 52), (k + 1). rewrite Hfull in *.
    specialize (Hbig 53 ltac:(lia) Hfinite).
    split; [done|]. split; [lia|].
    rewrite Z.pow_add_r by lia. change (2 ^ 53) with (2 ^ 52 * 2 ^ 1). ring.
  - exists m, k. split; [lia|]. split; [|done].
    destruct (Z.le_gt_cases k 0) as [Hzero|Hnonzero]; [lia|].
    specialize (Hlow Hnonzero).
    destruct (round_half_even_between scaled den (2 ^ 52) (2 ^ 53) Hden ltac:(lia)) as [Hm52 _].
    fold m in Hm52.
    assert (Hlt : 2 ^ 52 * 2 ^ k < 2 ^ 2098) by nia.
    specialize (Hbig 52 ltac:(lia) Hlt). lia.
Qed.

(** The quotients that round beyond the largest binary64 number start
    halfway between that number and [2 ^ 1024]. *)
Lemma nearest_too_large :
  2 ^ 2098 <= Float.nearest n d <-> overflow_threshold * d <= n.
Proof.
  unfold Float.nearest, overflow_threshold.
  pose proof exponent_nonneg as Hk. pose proof grid_lower as Hlow.
  pose proof scaled_pos as Hpos. pose proof grid_upper as Hup.
  pose proof scaled_bounds as Hwhole'.
  assert (Hlog' : 0 < Float.exponent n d ->
                  Float.exponent n d = Z.log2 (Float.scale n / d) - 52)
    by (unfold Float.exponent; lia).
  assert (Hlog'' : Z.log2 (Float.scale n / d) - 52 <= Float.exponent n d)
    by (unfold Float.exponent; lia).
  assert (Hthreshold : (2 ^ 1024 - 2 ^ 970) * d <= n <->
                       (2 ^ 2098 - 2 ^ 2044) * d <= Float.scale n).
  { unfold Float.scale. change (2 ^ 2098) with (2 ^ 1024 * 2 ^ 1074).
    change (2 ^ 2044) with (2 ^ 970 * 2 ^ 1074).
    pose proof (Z.pow_pos_nonneg 2 1074 ltac:(lia) ltac:(lia)). split; intros; nia. }
  rewrite Hthreshold. clear Hthreshold.
  set (k := Float.exponent n d) in *. set (scaled := Float.scale n) in *.
  set (whole := scaled / d) in *.
  pose proof (Z.pow_pos_nonneg 2 k ltac:(lia) Hk) as Hpk.
  set (den := d * 2 ^ k) in *.
  assert (Hden : 0 < den) by (unfold den; nia).
  destruct (round_half_even_between scaled den 0 (2 ^ 53) Hden ltac:(lia)) as [Hm0 Hm53].
  pose proof (round_half_even_half scaled den Hden) as Hhalf.
  assert (Hup53 : 2 * 2 ^ 53 * den <= 2 * scaled + den ->
                  2 ^ 53 <= Float.round_half_even scaled den).
  { intros Hmiddle. apply round_half_even_up; [done | reflexivity | lia]. }
  assert (Hm52 : 0 < k -> 2 ^ 52 <= Float.round_half_even scaled den).
  { intros Hpos'. specialize (Hlow Hpos').
    by destruct (round_half_even_between scaled den (2 ^ 52) (2 ^ 53) Hden ltac:(lia)). }
  set (m := Float.round_half_even scaled den) in *.
  assert (E98 : 2 ^ 2098 = 2 ^ 54 * 2 ^ 2044) by reflexivity.
  assert (E97 : 2 ^ 2097 = 2 ^ 53 * 2 ^ 2044) by reflexivity.
  assert (E46 : 2 ^ 2046 = 4 * 2 ^ 2044) by reflexivity.
  assert (E45 : 2 ^ 2045 = 2 * 2 ^ 2044) by reflexivity.
  assert (Hmono : forall i j, 0 <= i <= j -> 2 ^ i <= 2 ^ j)
    by (intros i j Hij; apply Z.pow_le_mono_r; lia).
  pose proof (Hmono k 2044) as Hk44. pose proof (Hmono 2046 k) as Hk46.
  assert (Hexact : k = 2045 -> 2 ^ k = 2 ^ 2045) by (by intros ->).
  pose proof (Z.pow_pos_nonneg 2 2044 ltac:(lia) ltac:(lia)) as Hbase.
  rewrite E46 in Hk46. rewrite E45 in Hexact. rewrite E98.
  change (2 ^ 54) with 18014398509481984 in *.
  change (2 ^ 53) with 9007199254740992 in *.
  change (2 ^ 52) with 4503599627370496 in *.
  assert (Hlog : 2 ^ 2097 <= whole -> 2097 <= Z.log2 whole).
  { intros Hge. apply Z.log2_le_pow2; lia. }
  rewrite E97 in Hlog. clear E98 E97 E46 E45 Hmono.
  remember (2 ^ 2044) as base eqn:Ebase. clear Ebase.
  remember (2 ^ k) as grid eqn:Egrid. clear Egrid.
  split.
  - intros Hlarge.
    assert (Hk45 : 2045 <= k).
    { destruct (Z.le_gt_cases 2045 k) as [|Hlt]; [done|]. specialize (Hk44 ltac:(lia)). nia. }
    destruct (Z.eq_dec k 2045) as [Hk2045|Hmore].
    + specialize (Hexact Hk2045). unfold den in *. nia.
    + specialize (Hk46 ltac:(lia)). specialize (Hlow ltac:(lia)). unfold den in *. nia.
  - intros Hscaled.
    assert (Hge : 9007199254740992 * base <= whole).
    { unfold whole. apply Z.div_le_lower_bound; [done|]. nia. }
    specialize (Hlog Hge). specialize (Hlog' ltac:(lia)).
    destruct (Z.eq_dec k 2045) as [Hk2045|Hmore].
    + specialize (Hexact Hk2045). unfold den in *.
      assert (9007199254740992 <= m) by (apply Hup53; nia). nia.
    + specialize (Hk46 ltac:(lia)). specialize (Hm52 ltac:(lia)). nia.
Qed.

End Nearest.

(** The binary64 numbers are the same on both sides of zero. *)
Lemma binary64_units_opp (units : Z) : binary64_units units -> binary64_units (- units).
Proof.
  intros (m & k & Hm & Hk & ->). exists (- m), k. split; [lia|]. split; [done|]. ring.
Qed.

Lemma binary64_units_zero : binary64_units 0.
Proof. exists 0, 0. split; [done|]. split; [lia|]. reflexivity. Qed.

Lemma distance_scaled (U A : Z) (P B : positive) :
  (Qabs ((U # P) - (A # B)) == Z.abs (U * Zpos B - A * Zpos P) # (P * B))%Q.
Proof.
  unfold Qminus, Qplus, Qopp, Qabs, Qeq. cbn [Qnum Qden].
  f_equal. f_equal. lia.
Qed.

(** The quotient of two integers as one fraction. *)
Lemma quotient_fraction (a b : Z) :
  b <> 0 -> (inject_Z a / inject_Z b == (Z.sgn b * a) # Z.to_pos (Z.abs b))%Q.
Proof.
  intros Hb. destruct b as [|b|b]; [done | |];
    unfold Qdiv, Qmult, Qinv, inject_Z, Qeq; cbn [Qnum Qden Z.sgn];
    rewrite Pos.mul_1_l.
  - change (Z.to_pos (Z.abs (Z.pos b))) with b. lia.
  - change (Z.to_pos (Z.abs (Z.neg b))) with b. lia.
Qed.

(** The rounding of [n / d], with a sign, is the binary64 number nearest to
    the signed quotient. *)
Lemma nearest_signed (sign n : Z) (d : positive) :
  sign = 1 \/ sign = -1 ->
  0 < n ->
  Float.too_large (Float.nearest n (Zpos d)) = false ->
  representable (Float.value (sign * Float.nearest n (Zpos d))) /\
  forall q', representable q' ->
             (Qabs (Float.value (sign * Float.nearest n (Zpos d)) - (sign * n # d))
              <= Qabs (q' - (sign * n # d)))%Q.
Proof.
  intros Hsign Hn Hfinite. unfold Float.too_large in Hfinite.
  apply Z.leb_gt in Hfinite.
  assert (Hpow : Zpos (2 ^ 1074) = 2 ^ 1074) by apply Pos2Z.inj_pow.
  pose proof (nearest_units n (Zpos d) Hn ltac:(lia) Hfinite) as Hunits.
  set (units := Float.nearest n (Zpos d)) in *.
  split.
  - exists (sign * units). split; [|unfold Float.value; apply Qred_correct].
    destruct Hsign as [-> | ->]; [by replace (1 * units) with units by ring|].
    replace (-1 * units) with (- units) by ring. by apply binary64_units_opp.
  - intros q' (units' & Hunits' & ->). unfold Float.value.
    rewrite Qred_correct, !distance_scaled.
    unfold Qle. cbn [Qnum Qden]. rewrite Hpow.
    apply Z.mul_le_mono_nonneg_r; [lia|].
    assert (Hother : binary64_units (sign * units')).
    { destruct Hsign as [-> | ->]; [by replace (1 * units') with units' by ring|].
      replace (-1 * units') with (- units') by ring. by apply binary64_units_opp. }
    pose proof (nearest_closest n (Zpos d) ltac:(lia) (sign * units') Hother) as Hle.
    fold units in Hle. unfold Float.scale in Hle. destruct Hsign as [-> | ->]; lia.
Qed.

Lemma true_div_nearest (a b : Z) (q : Q) :
  Float.true_div a b = Returned q ->
  representable q /\
  forall q', representable q' ->
             (Qabs (q - inject_Z a / inject_Z b) <= Qabs (q' - inject_Z a / inject_Z b))%Q.
Proof.
  unfold Float.true_div.
  destruct (Z.eqb_spec b 0) as [|Hb]; [done|].
  destruct (Z.eqb_spec a 0) as [->|Ha].
  - intros [= <-]. split.
    + exists 0. split; [apply binary64_units_zero | reflexivity].
    + intros q' _. rewrite quotient_fraction, Z.mul_0_r by done.
      assert (Hnull : (Qabs (0 - (0 # Z.to_pos (Z.abs b))) == 0)%Q) by reflexivity.
      rewrite Hnull. apply Qabs_nonneg.
  - destruct (Float.too_large _) eqn:Hfinite; [done|]. intros [= <-].
    replace (Z.abs b) with (Zpos (Z.to_pos (Z.abs b))) in Hfinite |- * by lia.
    destruct (nearest_signed (Z.sgn a * Z.sgn b) (Z.abs a) (Z.to_pos (Z.abs b)))
      as [Hthere Hnear]; [lia | lia | done |].
    split; [exact Hthere|]. intros q' Hq'.
    rewrite quotient_fraction by done.
    replace (Z.sgn b * a) with (Z.sgn a * Z.sgn b * Z.abs a) by lia.
    by apply Hnear.
Qed.

Lemma mul_nearest (x y q : Q) :
  Float.mul x y = Float.Finite q ->
  representable q /\
  forall q', representable q' -> (Qabs (q - x * y) <= Qabs (q' - x * y))%Q.
Proof.
  unfold Float.mul. generalize (x * y)%Q. intros [pn pd]. cbn [Qnum Qden].
  destruct (Z.eqb_spec pn 0) as [->|Hp].
  - intros [= <-]. split.
    + exists 0. split; [apply binary64_units_zero | reflexivity].
    + intros q' _.
      assert (Hnull : (Qabs (0 - (0 # pd)) == 0)%Q) by reflexivity.
      rewrite Hnull. apply Qabs_nonneg.
  - destruct (Float.too_large _) eqn:Hfinite; [done|]. intros [= <-].
    destruct (nearest_signed (Z.sgn pn) (Z.abs pn) pd) as [Hthere Hnear];
      [lia | lia | done |].
    split; [exact Hthere|].
    by replace (Z.sgn pn * Z.abs pn) with pn in Hnear by lia.
Qed.

Lemma overflow_threshold_large : 2 <= overflow_threshold.
Proof. by vm_compute. Qed.

(** True division raises exactly from the threshold on, and is a nearest
    binary64 number of the quotient below it. *)
Lemma true_div_overflow (a b : Z) :
  b <> 0 -> overflow_threshold * Z.abs b <= Z.abs a ->
  Float.true_div a b
  = Raised (OverflowError "integer division result too large for a float").
Proof.
  intros Hb Hlarge. pose proof overflow_threshold_large. unfold Float.true_div.
  destruct (Z.eqb_spec b 0); [done|]. destruct (Z.eqb_spec a 0); [nia|].
  unfold Float.too_large.
  destruct (Z.leb_spec (2 ^ 2098) (Float.nearest (Z.abs a) (Z.abs b))) as [|Hfinite]; [done|].
  exfalso. apply (Z.lt_irrefl (Float.nearest (Z.abs a) (Z.abs b))).
  eapply Z.lt_le_trans; [exact Hfinite|]. apply nearest_too_large; [lia | lia | done].
Qed.

Lemma true_div_finite (a b : Z) :
  b <> 0 -> Z.abs a < overflow_threshold * Z.abs b ->
  exists q, Float.true_div a b = Returned q /\ rounds_to (inject_Z a / inject_Z b) q.
Proof.
  intros Hb Hsmall.
  destruct (Float.true_div a b) as [q|e] eqn:Hdiv;
    [exists q; split; [done | by apply true_div_nearest]|].
  exfalso. revert Hdiv. unfold Float.true_div.
  destruct (Z.eqb_spec b 0); [done|]. destruct (Z.eqb_spec a 0); [done|].
  unfold Float.too_large.
  destruct (Z.leb_spec (2 ^ 2098) (Float.nearest (Z.abs a) (Z.abs b))) as [Hlarge|]; [|done].
  apply nearest_too_large in Hlarge; lia.
Qed.

(** ** [generate_burndown_data] *)

Lemma append_associative (a b c : string) : (a +:+ b) +:+ c = a +:+ (b +:+ c).
Proof.
  induction a as [|x a IH]; [done|].
  change (String x ((a +:+ b) +:+ c) = String x (a +:+ (b +:+ c))). by rewrite IH.
Qed.

Lemma length_append (a b : string) :
  String.length (a +:+ b) = (String.length a + String.length b)%nat.
Proof.
  induction a as [|c a IH]; [done|].
  change (S (String.length (a +:+ b)) = S (String.length a + String.length b)).
  by rewrite IH.
Qed.

(** A character that is read off the head of a text is a piece of that
    text, and is read the same whatever follows it. *)
Lemma decode_parts (s : string) (cp : Z) (rest : string) :
  Unicode.decode s = Some (cp, rest) ->
  exists c, s = c +:+ rest /\ c <> "" /\ forall t, Unicode.decode (c +:+ t) = Some (cp, t).
Proof.
  intros H. unfold Unicode.decode in H.
  destruct s as [|c0 t0]; [done|]. cbv zeta in H.
  destruct (Unicode.byte c0 <? 128) eqn:H0.
  { injection H as <- <-. exists (String c0 ""). split; [done|]. split; [done|]. intros t.
    change (String c0 "" +:+ t) with (String c0 t).
    unfold Unicode.decode. cbv zeta. by rewrite H0. }
  destruct ((194 <=? Unicode.byte c0) && (Unicode.byte c0 <? 224)) eqn:H1.
  { destruct t0 as [|c1 t1]; [done|].
    destruct (Unicode.continuation c1) as [b1|] eqn:Hb1; [|done].
    injection H as <- <-. exists (String c0 (String c1 "")).
    split; [done|]. split; [done|]. intros t.
    change (String c0 (String c1 "") +:+ t) with (String c0 (String c1 t)).
    unfold Unicode.decode. cbv zeta. by rewrite H0, H1, Hb1. }
  destruct ((224 <=? Unicode.byte c0) && (Unicode.byte c0 <? 240)) eqn:H2.
  { destruct t0 as [|c1 [|c2 t2]]; [done|done|].
    destruct (Unicode.continuation c1) as [b1|] eqn:Hb1; [|done].
    destruct (Unicode.continuation c2) as [b2|] eqn:Hb2; [|done].
    cbn [mbind option_bind] in H.
    destruct (_ && _) eqn:Hr in H; [|done].
    injection H as <- <-. exists (String c0 (String c1 (String c2 ""))).
    split; [done|]. split; [done|]. intros t.
    change (String c0 (String c1 (String c2 "")) +:+ t)
      with (String c0 (String c1 (String c2 t))).
    unfold Unicode.decode. cbv zeta. rewrite H0, H1, H2, Hb1, Hb2.
    cbn [mbind option_bind]. by rewrite Hr. }
  destruct ((240 <=? Unicode.byte c0) && (Unicode.byte c0 <? 245)) eqn:H3; [|done].
  destruct t0 as [|c1 [|c2 [|c3 t3]]]; [done|done|done|].
  destruct (Unicode.continuation c1) as [b1|] eqn:Hb1; [|done].
  destruct (Unicode.continuation c2) as [b2|] eqn:Hb2; [|done].
  destruct (Unicode.continuation c3) as [b3|] eqn:Hb3; [|done].
  cbn [mbind option_bind] in H.
  destruct (_ && _) eqn:Hr in H; [|done].
  injection H as <- <-. exists (String c0 (String c1 (String c2 (String c3 "")))).
  split; [done|]. split; [done|]. intros t.
  change (String c0 (String c1 (String c2 (String c3 ""))) +:+ t)
    with (String c0 (String c1 (String c2 (String c3 t)))).
  unfold Unicode.decode. cbv zeta. rewrite H0, H1, H2, H3, Hb1, Hb2, Hb3.
  cbn [mbind option_bind]. by rewrite Hr.
Qed.

(** What the greedy run takes is a run of digits at the head of the
    text. *)
Lemma decimal_run_digits (fuel : nat) (s : string) (values : list Z) (tail : string) :
  decimal_run fuel s = (values, tail) ->
  exists digits, decimal_digits digits values /\ s = digits +:+ tail.
Proof.
  revert s values tail. induction fuel as [|fuel IH]; intros s values tail; cbn [decimal_run].
  - intros [= <- <-]. exists "". split; [constructor | done].
  - destruct (Unicode.decode s) as [[cp rest]|] eqn:Hdecode.
    2: { intros [= <- <-]. exists "". split; [constructor | done]. }
    destruct (Unicode.decimal_value cp) as [v|] eqn:Hv.
    2: { intros [= <- <-]. exists "". split; [constructor | done]. }
    destruct (decimal_run fuel rest) as [vs tl] eqn:Hrun. intros [= <- <-].
    destruct (IH _ _ _ Hrun) as (digits & Hdigits & ->).
    destruct (decode_parts _ _ _ Hdecode) as (c & -> & _ & Hc).
    exists (c +:+ digits). split.
    + by apply (one_more_digit _ cp v digits vs (Hc digits) Hv).
    + by rewrite append_associative.
Qed.

(** A run of digits that is followed by something else than a digit is
    what the greedy run takes, with fuel for every byte. *)
Lemma decimal_digits_run (digits : string) (values : list Z) :
  decimal_digits digits values ->
  forall fuel tail,
    (String.length (digits +:+ tail) <= fuel)%nat ->
    match Unicode.decode tail with
    | Some (cp, _) => Unicode.decimal_value cp = None
    | None => True
    end ->
    decimal_run fuel (digits +:+ tail) = (values, tail).
Proof.
  induction 1 as [|text cp v rest values Hdecode Hv Hrest IH]; intros fuel tail Hfuel Htail.
  - change ("" +:+ tail) with tail. destruct fuel as [|fuel]; [done|]. cbn [decimal_run].
    destruct (Unicode.decode tail) as [[cp rest]|]; [|done]. by rewrite Htail.
  - destruct (decode_parts _ _ _ Hdecode) as (c & -> & Hc & Hall).
    rewrite append_associative in Hfuel |- *. rewrite length_append in Hfuel.
    destruct fuel as [|fuel]; [destruct c; [done | cbn in Hfuel; lia]|].
    cbn [decimal_run]. rewrite Hall, Hv, IH; [done | | done].
    destruct c; [done | cbn in Hfuel; lia].
Qed.

(** The matcher accepts exactly the titles with a bracketed run of digits
    at their head, and hands back that run. *)
Lemma points_match_spec (title : string) (values : list Z) :
  points_match title = Some values <-> bracketed_prefix title values.
Proof.
  unfold points_match, bracketed_prefix, span_decimal. split.
  - destruct title as [|c title]; [done|].
    destruct (ascii_dec c "[") as [->|Hc].
    2: { intros H. exfalso. revert H.
         destruct c as [[] [] [] [] [] [] [] []]; try done. }
    destruct (decimal_run _ title) as [vs tl] eqn:Hspan.
    apply decimal_run_digits in Hspan as (digits & Hdigits & ->).
    destruct vs as [|v vs]; [done|].
    destruct tl as [|c' tl]; [done|].
    destruct (ascii_dec c' "]") as [->|Hc'].
    2: { intros H. exfalso. revert H.
         destruct c' as [[] [] [] [] [] [] [] []]; try done. }
    intros [= <-]. split; [done|]. by exists digits, tl.
  - intros (Hne & digits & rest & Hdigits & ->).
    change ("[" +:+ digits +:+ "]" +:+ rest) with (String "[" (digits +:+ String "]" rest)).
    cbv iota. rewrite (decimal_digits_run _ _ Hdigits); [by destruct values | done | done].
Qed.

Lemma decimal_value_range (cp v : Z) : Unicode.decimal_value cp = Some v -> 0 <= v < 10.
Proof.
  unfold Unicode.decimal_value.
  destruct (find _ Unicode.decimal_zeros) as [zero|] eqn:Hfind; [|done].
  intros [= <-]. apply find_some in Hfind as [_ Hzero]. lia.
Qed.

Lemma decimal_digits_range (digits : string) (values : list Z) :
  decimal_digits digits values -> Forall (fun v => 0 <= v < 10) values.
Proof.
  induction 1 as [|text cp v rest values _ Hv _ IH]; constructor; [|done].
  by apply (decimal_value_range cp).
Qed.

Lemma numeral_nonneg (values : list Z) :
  Forall (fun v => 0 <= v < 10) values -> 0 <= numeral values.
Proof.
  intros H. unfold numeral.
  assert (Hacc : forall a, 0 <= a -> 0 <= fold_left (fun acc v => 10 * acc + v) values a).
  { induction H as [|v values Hv _ IH]; intros a Ha; cbn [fold_left]; [done|].
    apply IH. lia. }
  by apply Hacc.
Qed.

(** What a card contributes is determined by the card, and is never
    negative. *)
Lemma contributes_functional (card : Card) (p q : Z) :
  contributes card p -> contributes card q -> p = q.
Proof.
  intros [title values Htitle Hprefix | Hnone] [title' values' Htitle' Hprefix' | Hnone'].
  - rewrite Htitle in Htitle'. injection Htitle' as <-.
    apply points_match_spec in Hprefix, Hprefix'. congruence.
  - by destruct (Hnone' title values).
  - by destruct (Hnone title' values').
  - reflexivity.
Qed.

Lemma contributes_nonneg (card : Card) (p : Z) : contributes card p -> 0 <= p.
Proof.
  intros [title values _ (_ & digits & rest & Hdigits & _) | _]; [|done].
  by apply numeral_nonneg, (decimal_digits_range digits).
Qed.

(** The points the loops compute are what the card contributes. *)
Lemma card_points_returned (card : Card) (p : Z) :
  card_points card = Returned p -> contributes card p.
Proof.
  unfold card_points, get_name.
  destruct (card_name card) as [title|] eqn:Htitle.
  - change (default "" (Some title)) with title.
    destruct (points_match title) as [values|] eqn:Hm.
    + unfold int. destruct (_ <? _)%nat; [done|]. intros [= <-].
      apply (contributes_points card title values Htitle), points_match_spec, Hm.
    + intros [= <-]. apply contributes_nothing. intros title' values' Hname Hprefix.
      apply points_match_spec in Hprefix. congruence.
  - change (default "" None) with "". cbn. intros [= <-].
    apply contributes_nothing. intros title values Hname. congruence.
Qed.

Lemma card_points_within_limit (card : Card) :
  within_int_limit card -> exists p, card_points card = Returned p.
Proof.
  intros Hlimit. unfold card_points, get_name.
  destruct (card_name card) as [title|] eqn:Htitle; [|by eexists].
  change (default "" (Some title)) with title.
  destruct (points_match title) as [values|] eqn:Hm; [|by eexists].
  apply points_match_spec in Hm. specialize (Hlimit title values Htitle Hm).
  unfold int, int_max_str_digits.
  destruct (Nat.ltb_spec 4300 (length values)); [lia | by eexists].
Qed.

Lemma card_points_all (cards : list Card) :
  Forall within_int_limit cards ->
  exists points, map_outcome card_points cards = Returned points.
Proof.
  induction 1 as [|card cards Hcard _ [points IH]]; [by eexists|].
  destruct (card_points_within_limit card Hcard) as [p Hp].
  cbn [map_outcome]. rewrite Hp, IH. by eexists.
Qed.

Lemma card_points_each (cards : list Card) (points : list Z) :
  map_outcome card_points cards = Returned points -> Forall2 contributes cards points.
Proof.
  revert points. induction cards as [|card cards IH]; intros points; cbn [map_outcome].
  - intros [= <-]. constructor.
  - destruct (card_points card) as [p|e] eqn:Hp; [|done].
    destruct (map_outcome card_points cards) as [ps|e]; [|done].
    intros [= <-]. constructor; [by apply card_points_returned | by apply IH].
Qed.

Lemma sum_of_from (xs : list Z) (a : Z) : fold_left Z.add xs a = a + sum_of xs.
Proof.
  unfold sum_of. revert a. induction xs as [|x xs IH]; intros a; simpl; [lia|].
  rewrite (IH (a + x)), (IH (0 + x)). lia.
Qed.

Lemma sum_of_cons (x : Z) (xs : list Z) : sum_of (x :: xs) = x + sum_of xs.
Proof.
  unfold sum_of at 1. simpl. rewrite (sum_of_from xs (0 + x)). lia.
Qed.

Lemma sum_of_app (xs ys : list Z) : sum_of (xs ++ ys) = sum_of xs + sum_of ys.
Proof.
  induction xs as [|x xs IH]; [reflexivity|].
  change ((x :: xs) ++ ys)%list with (x :: (xs ++ ys))%list.
  rewrite !sum_of_cons, IH. lia.
Qed.

Lemma sum_of_contributions_nonneg (cards : list Card) (points : list Z) :
  Forall2 contributes cards points -> 0 <= sum_of points.
Proof.
  induction 1 as [|card p cards points Hp _ IH]; [done|].
  rewrite sum_of_cons. apply contributes_nonneg in Hp. lia.
Qed.

Lemma points_of_nil : points_of [] 0.
Proof. exists []. split; [constructor | done]. Qed.

Lemma points_of_app (xs ys : list Card) (x y : Z) :
  points_of xs x -> points_of ys y -> points_of (xs ++ ys) (x + y).
Proof.
  intros (ps & Hps & ->) (qs & Hqs & ->). exists (ps ++ qs)%list.
  split; [by apply Forall2_app | by rewrite sum_of_app].
Qed.

Lemma points_of_nonneg (cards : list Card) (total : Z) : points_of cards total -> 0 <= total.
Proof. intros (points & Hpoints & ->). by apply (sum_of_contributions_nonneg cards). Qed.

(** One card in the inner loop of [generate_burndown_data]. *)
Lemma burndown_card_points (lst : BoardList) (list_points : Z) (data : Burndown) (card : Card) :
  match card_points card with
  | Returned p =>
      exists result,
        burndown_card lst (list_points, data) card = Returned result /\
        result.1 = list_points + p /\
        total_points result.2 = total_points data + p /\
        completed_points result.2 =
          (if one_of (lst_name lst) ["Done"; "Completed"; "Deployed"]
           then completed_points data + p else completed_points data) /\
        date result.2 = date data /\
        by_list result.2 = by_list data
  | Raised e => burndown_card lst (list_points, data) card = Raised e
  end.
Proof.
  unfold card_points, burndown_card.
  destruct (points_match (get_name card)) as [digits|].
  - destruct (int digits) as [p|e]; [|done].
    eexists. split; [reflexivity|]. by cbn.
  - eexists. split; [reflexivity|]. cbn [fst snd].
    destruct (one_of _ _); repeat split; lia.
Qed.

(** The inner loop adds the points of every card of the list, and stops
    at the first card whose points cannot be read. *)
Lemma burndown_cards (lst : BoardList) (cards : list Card) (list_points : Z) (data : Burndown) :
  match map_outcome card_points cards with
  | Returned points =>
      exists result,
        fold_outcome (burndown_card lst) cards (list_points, data) = Returned result /\
        result.1 = list_points + sum_of points /\
        total_points result.2 = total_points data + sum_of points /\
        completed_points result.2 =
          (if one_of (lst_name lst) ["Done"; "Completed"; "Deployed"]
           then completed_points data + sum_of points else completed_points data) /\
        date result.2 = date data /\
        by_list result.2 = by_list data
  | Raised e => fold_outcome (burndown_card lst) cards (list_points, data) = Raised e
  end.
Proof.
  revert list_points data. induction cards as [|card cards IH]; intros list_points data.
  - cbn [map_outcome fold_outcome]. eexists. split; [reflexivity|].
    change (sum_of []) with 0. cbn [fst snd]. destruct (one_of _ _); repeat split; lia.
  - cbn [map_outcome fold_outcome].
    pose proof (burndown_card_points lst list_points data card) as Hcard.
    destruct (card_points card) as [p|e]; [|by rewrite Hcard].
    destruct Hcard as ([lp1 data1] & -> & H1 & H2 & H3 & H4 & H5).
    cbn [fst snd] in *.
    change (Returned p ≫= _) with
      (map_outcome card_points cards ≫= fun ys => Returned (p :: ys)).
    change (Returned (lp1, data1) ≫= _) with
      (fold_outcome (burndown_card lst) cards (lp1, data1)).
    specialize (IH lp1 data1).
    destruct (map_outcome card_points cards) as [points|e]; [|done].
    destruct IH as (result & -> & K1 & K2 & K3 & K4 & K5).
    exists result. split; [reflexivity|].
    change (Returned points ≫= _) with (Returned (p :: points)). cbv iota.
    rewrite sum_of_cons, K1, K2, K3, K4, K5, H1, H2, H3, H4, H5.
    destruct (one_of _ _); repeat split; lia.
Qed.

(** One list in the outer loop. *)
Lemma burndown_list_run svc (data : Burndown) (lst : BoardList) (w : world)
    (cards : list Card) :
  get_cards_by_list_id svc (journal w) (lst_id lst) = Answer cards ->
  let w' := {| journal := journal w ++ [{| tool_name := "get_cards_by_list_id";
                                          arguments := [("listId", AStr (lst_id lst))] |}];
               ticks := ticks w; console := console w |} in
  match map_outcome card_points cards with
  | Returned points =>
      exists data',
        burndown_list svc data lst w = (Returned data', w') /\
        total_points data' = total_points data + sum_of points /\
        completed_points data' =
          (if one_of (lst_name lst) ["Done"; "Completed"; "Deployed"]
           then completed_points data + sum_of points else completed_points data) /\
        date data' = date data /\
        by_list data' = dict_set (lst_name lst) (sum_of points) (by_list data)
  | Raised e => burndown_list svc data lst w = (Raised e, w')
  end.
Proof.
  intros Hcards w'. unfold burndown_list. run_method. rewrite Hcards. run_method.
  pose proof (burndown_cards lst cards 0 data) as Hfold.
  destruct (map_outcome card_points cards) as [points|e].
  - destruct Hfold as ([list_points data1] & -> & H1 & H2 & H3 & H4 & H5).
    run_method. cbn [fst snd] in *. eexists. split; [reflexivity|].
    cbn [total_points completed_points date by_list]. rewrite H1, H5.
    by repeat split.
  - rewrite Hfold. by run_method.
Qed.

Lemma within_limit_of_board (board : list BoardList) (cards_of : string -> list Card)
    (lst : BoardList) :
  Forall within_int_limit (board_cards (lst :: board) cards_of) ->
  Forall within_int_limit (cards_of (lst_id lst)) /\
  Forall within_int_limit (board_cards board cards_of).
Proof. unfold board_cards. cbn [flat_map]. apply Forall_app. Qed.

(** The loop over the lists, on a board that answers every fetch with the
    cards of the list. *)
Lemma burndown_lists svc (board : list BoardList) (cards_of : string -> list Card)
    (data : Burndown) (w : world) :
  (forall h lst, In lst board ->
                 get_cards_by_list_id svc h (lst_id lst) = Answer (cards_of (lst_id lst))) ->
  Forall within_int_limit (board_cards board cards_of) ->
  exists data' w' total completed,
    fold_m (burndown_list svc) board data w = (Returned data', w') /\
    points_of (board_cards board cards_of) total /\
    points_of (completed_cards board cards_of) completed /\
    total_points data' = total_points data + total /\
    completed_points data' = completed_points data + completed.
Proof.
  revert data w. induction board as [|lst board IH]; intros data w Hcards Hlimit.
  - exists data, w, 0, 0. cbn [fold_m]. run_method.
    unfold board_cards, completed_cards. cbn [flat_map].
    repeat split; try apply points_of_nil; lia.
  - apply within_limit_of_board in Hlimit as [Hhere Hrest].
    cbn [fold_m]. run_method.
    pose proof (burndown_list_run svc data lst w _ (Hcards _ lst (or_introl eq_refl))) as Hrun.
    destruct (card_points_all _ Hhere) as [points Hpoints].
    cbv zeta in Hrun. rewrite Hpoints in Hrun.
    destruct Hrun as (data1 & -> & Htotal & Hcompleted & _ & _).
    apply card_points_each in Hpoints.
    match goal with |- context [fold_m _ board data1 ?w0] =>
      destruct (IH data1 w0) as (data' & w' & total & completed & Hrun & Ht & Hc & Ht' & Hc')
    end.
    { intros h lst' Hin. apply Hcards. by right. }
    { done. }
    assert (Hlist : points_of (cards_of (lst_id lst)) (sum_of points)) by by exists points.
    exists data', w', (sum_of points + total),
      (if one_of (lst_name lst) ["Done"; "Completed"; "Deployed"]
       then sum_of points + completed else completed).
    split; [exact Hrun|].
    unfold board_cards, completed_cards. cbn [flat_map].
    split; [by apply points_of_app|].
    rewrite Ht', Hc', Htotal, Hcompleted.
    destruct (one_of (lst_name lst) _).
    + split; [by apply points_of_app|]. lia.
    + split; [done|]. lia.
Qed.

(** C4: on a board that answers the fetches and has no title with more
    than 4300 digits in its leading brackets, [generate_burndown_data]
    returns, and its totals are sums of what the cards contribute: a card
    whose title starts with an opening bracket, one or more decimal digits
    and a closing bracket contributes the number these digits write, and
    every other card contributes zero, wherever else a bracketed number
    may stand in its title.  [total_points] sums over the cards of all
    lists, [completed_points] over the cards of the lists named Done,
    Completed or Deployed. *)
Theorem generate_burndown_data_points :
  forall svc clock isoformat w board cards_of,
    get_lists svc (journal w) = Answer board ->
    (forall h lst, In lst board ->
                   get_cards_by_list_id svc h (lst_id lst) = Answer (cards_of (lst_id lst))) ->
    (forall card title values,
        In card (board_cards board cards_of) ->
        card_name card = Some title ->
        bracketed_prefix title values ->
        (length values <= 4300)%nat) ->
    exists data w' points completed,
      generate_burndown_data svc clock isoformat w = (Returned data, w') /\
      Forall2 contributes (board_cards board cards_of) points /\
      Forall2 contributes (completed_cards board cards_of) completed /\
      total_points data = sum_of points /\
      completed_points data = sum_of completed /\
      remaining_points data = sum_of points - sum_of completed.
Proof.
  intros svc clock isoformat w board cards_of Hboard Hcards Hlimit.
  unfold generate_burndown_data. run_method. rewrite Hboard. run_method.
  match goal with |- context [fold_m _ board ?d ?w0] =>
    destruct (burndown_lists svc board cards_of d w0 Hcards)
      as (data & w' & total & completed & Hrun & (points & Hpoints & ->)
          & (cpoints & Hcpoints & ->) & Htotal & Hcompleted) end.
  { apply Forall_forall. intros card Hin title values. apply Hlimit.
    by apply list_elem_of_In. }
  rewrite Hrun. run_method. eexists _, w', points, cpoints. split; [reflexivity|].
  cbn [total_points completed_points remaining_points] in *.
  rewrite Htotal, Hcompleted. repeat split; try done; lia.
Qed.

Lemma generate_burndown_data_points_witness :
  (exists data w' points completed,
      generate_burndown_data points_service sample_clock Calendar.isoformat fresh_world
      = (Returned data, w') /\
      Forall2 contributes (board_cards points_board points_cards) points /\
      Forall2 contributes (completed_cards points_board points_cards) completed /\
      total_points data = sum_of points /\
      completed_points data = sum_of completed /\
      remaining_points data = sum_of points - sum_of completed) /\
  (generate_burndown_data points_service sample_clock Calendar.isoformat fresh_world).1
  = Returned {| date := "2024-01-15T12:00:00"; total_points := 121; completed_points := 105;
                remaining_points := 16; by_list := [("To Do", 16); ("Deployed", 105)] |}.
Proof.
  split; [|vm_compute; reflexivity].
  apply (generate_burndown_data_points points_service sample_clock Calendar.isoformat
           fresh_world points_board points_cards).
  - reflexivity.
  - intros h lst _. reflexivity.
  - intros card title values Hin Htitle Hprefix. apply points_match_spec in Hprefix.
    vm_compute in Hin.
    repeat (destruct Hin as [<-|Hin];
            [vm_compute in Htitle; try discriminate; injection Htitle as <-;
             vm_compute in Hprefix; try discriminate; injection Hprefix as <-; cbn; lia|]).
    destruct Hin.
Defined.

(** The board of the witness: digits of three scripts are read, leading
    zeros are dropped, a bracketed number later in the title earns nothing,
    nor do brackets that hold no digit or more than digits, nor a card
    without a title. *)
Example generate_burndown_data_samples :
  map card_points (points_cards "b1")
  = [Returned 3; Returned 0; Returned 13; Returned 0; Returned 0; Returned 0] /\
  map card_points (points_cards "b2") = [Returned 98; Returned 7] /\
  total_points
    (match generate_burndown_data sample_service sample_clock Calendar.isoformat fresh_world with
     | (Returned data, _) => data
     | (Raised _, _) =>
         {| date := ""; total_points := -1; completed_points := 0;
            remaining_points := 0; by_list := [] |}
     end) = 42.
Proof. repeat split; vm_compute; reflexivity. Qed.

(** Against C4 as the specification words it: a title that starts with
    4301 digits in brackets does start with a bracketed decimal number, and
    its card contributes nothing, that number least of all: [int] refuses
    the digits and the method raises. *)
Lemma generate_burndown_data_points_counterexample :
  bracketed_prefix oversized_title (repeat 1 4301) /\
  generate_burndown_data oversized_service sample_clock Calendar.isoformat fresh_world
  = (Raised (ValueError ("Exceeds the limit (4300 digits) for integer string conversion: "
                         +:+ "value has 4301 digits; use sys.set_int_max_str_digits() "
                         +:+ "to increase the limit")),
     {| journal := [ {| tool_name := "get_lists"; arguments := [] |};
                     {| tool_name := "get_cards_by_list_id";
                        arguments := [("listId", AStr "l3")] |} ];
        ticks := 1; console := [] |}).
Proof.
  split.
  - apply points_match_spec. vm_compute. reflexivity.
  - vm_compute. reflexivity.
Qed.

(** ** [team_velocity_report] *)

Lemma chars_app (a b : string) :
  list_ascii_of_string (a +:+ b) = (list_ascii_of_string a ++ list_ascii_of_string b)%list.
Proof.
  induction a as [|c a IH]; [reflexivity|].
  change (c :: list_ascii_of_string (a +:+ b)
          = c :: (list_ascii_of_string a ++ list_ascii_of_string b)%list).
  by rewrite IH.
Qed.

Lemma lower_char_dash (c : ascii) : Text.lower_char c = "-"%char -> c = "-"%char.
Proof. destruct c as [[] [] [] [] [] [] [] []]; vm_compute; congruence. Qed.

Lemma lower_keeps_dash (s : string) :
  In "-"%char (list_ascii_of_string (Text.lower s)) -> In "-"%char (list_ascii_of_string s).
Proof.
  induction s as [|c s IH]; [done|].
  change (Text.lower_char c = "-"%char \/ In "-"%char (list_ascii_of_string (Text.lower s))
          -> c = "-"%char \/ In "-"%char (list_ascii_of_string s)).
  intros [Hc|Hs]; [left; by apply lower_char_dash | right; by apply IH].
Qed.

(** A sprint label has a dash in its name. *)
Lemma sprint_label_has_dash (s : string) :
  Text.contains "sprint-" (Text.lower s) = true -> In "-"%char (list_ascii_of_string s).
Proof.
  intros H. apply contains_spec in H as (before & after & Hs).
  apply lower_keeps_dash. rewrite Hs, !chars_app.
  apply in_or_app. right. apply in_or_app. left. cbn. tauto.
Qed.

Lemma split_on_nonempty (sep : ascii) (s : string) : (1 <= length (Text.split_on sep s))%nat.
Proof.
  induction s as [|c s IH]; cbn [Text.split_on]; [simpl; lia|].
  destruct (Ascii.eqb c sep); [simpl; lia|].
  destruct (Text.split_on sep s); simpl in *; lia.
Qed.

(** Splitting at a character that occurs gives at least two parts. *)
Lemma split_on_two (sep : ascii) (s : string) :
  In sep (list_ascii_of_string s) -> (2 <= length (Text.split_on sep s))%nat.
Proof.
  induction s as [|c s IH]; [done|].
  change (c = sep \/ In sep (list_ascii_of_string s)
          -> (2 <= length (Text.split_on sep (String c s)))%nat).
  cbn [Text.split_on]. intros Hin.
  destruct (Ascii.eqb_spec c sep) as [->|Hne].
  - pose proof (split_on_nonempty sep s). simpl. lia.
  - destruct Hin as [Hc|Hs]; [done|]. specialize (IH Hs).
    destruct (Text.split_on sep s); simpl in *; lia.
Qed.

Lemma dict_get_set {V} (k : string) (v : V) (d : list (string * V)) :
  dict_get k (dict_set k v d) = Some v.
Proof.
  induction d as [|[k' v'] d IH]; cbn [dict_set dict_get].
  - by rewrite String.eqb_refl.
  - destruct (String.eqb k' k) eqn:Hk; cbn [dict_get]; by rewrite Hk.
Qed.

(** The labels loop raises only where [int] refuses the digits: a label
    that mentions a sprint has a name, the name has a dash, and the sprint
    has an entry before it is added to. *)
Lemma sprint_label_returns (card : Card) (sprint_points : list (string * Z)) (label : Label) :
  within_int_limit card ->
  exists sprint_points', sprint_label card sprint_points label = Returned sprint_points'.
Proof.
  intros Hlimit. unfold sprint_label.
  destruct (Text.contains "sprint-" (Text.lower (default "" (label_name label)))) eqn:Hc;
    [|eauto].
  destruct (label_name label) as [label_text|] eqn:Hname; [|discriminate].
  unfold item_label_name. rewrite Hname.
  change (Text.contains "sprint-" (Text.lower label_text) = true) in Hc.
  apply sprint_label_has_dash, (split_on_two "-") in Hc.
  unfold item_str, mbind, outcome_bind, mret, outcome_ret.
  destruct (Text.split_on "-" label_text) as [|part0 [|sprint_num parts]];
    [simpl in Hc; lia | simpl in Hc; lia |].
  cbn [lookup list_lookup].
  destruct (card_points_within_limit card Hlimit) as [p Hp]. unfold card_points in Hp.
  destruct (points_match (get_name card)) as [digits|]; [|eauto].
  unfold dict_item. rewrite Hp.
  destruct (dict_get sprint_num sprint_points) as [so_far|] eqn:Hget.
  - rewrite Hget. eauto.
  - rewrite dict_get_set. eauto.
Qed.

Lemma fold_outcome_returns {A S} (P : A -> Prop) (body : S -> A -> outcome S) (xs : list A)
    (s : S) :
  (forall s x, P x -> exists s', body s x = Returned s') ->
  Forall P xs ->
  exists s', fold_outcome body xs s = Returned s'.
Proof.
  intros Hbody Hxs. revert s.
  induction Hxs as [|x xs Hx _ IH]; intros s; cbn [fold_outcome]; [eauto|].
  destruct (Hbody s x Hx) as [s1 ->]. apply IH.
Qed.

Lemma group_by_sprint_returns (cards : list Card) :
  Forall within_int_limit cards ->
  exists sprint_points, group_by_sprint cards = Returned sprint_points.
Proof.
  unfold group_by_sprint. apply fold_outcome_returns. intros sp card Hcard.
  apply (fold_outcome_returns (fun _ => True)).
  - intros sp' label _. by apply sprint_label_returns.
  - by apply Forall_forall.
Qed.

Lemma item_from_end_last (earlier : list Z) (previous last : Z) :
  item_from_end (earlier ++ [previous; last]) 1 = Returned last /\
  item_from_end (earlier ++ [previous; last]) 2 = Returned previous.
Proof.
  unfold item_from_end. rewrite !length_app. cbn [length].
  replace (1 <=? length earlier + 2)%nat with true by (symmetry; apply Nat.leb_le; lia).
  replace (2 <=? length earlier + 2)%nat with true by (symmetry; apply Nat.leb_le; lia).
  rewrite !lookup_app_r by lia.
  replace (length earlier + 2 - 1 - length earlier)%nat with 1%nat by lia.
  replace (length earlier + 2 - 2 - length earlier)%nat with 0%nat by lia.
  done.
Qed.

Lemma trend_of_last_two (earlier : list Z) (previous last : Z) :
  trend_of (earlier ++ [previous; last]) =
  Returned (if previous <? last then "increasing"
            else if last <? previous then "decreasing"
            else "stable").
Proof.
  unfold trend_of. destruct (item_from_end_last earlier previous last) as [-> ->].
  rewrite length_app. cbn [length].
  replace (2 <=? length earlier + 2)%nat with true by (symmetry; apply Nat.leb_le; lia).
  unfold mbind, outcome_bind, mret, outcome_ret.
  by destruct (previous <? last), (last <? previous).
Qed.

Lemma last_two_trend_last_two (earlier : list Z) (previous last : Z) :
  last_two_trend (earlier ++ [previous; last]) =
  (if previous <? last then "increasing"
   else if last <? previous then "decreasing"
   else "stable").
Proof. unfold last_two_trend. by rewrite rev_app_distr. Qed.

(** The trend the method computes is the comparison of the last total with
    the one before it. *)
Lemma trend_of_spec (velocities : list Z) :
  trend_of velocities = Returned (last_two_trend velocities).
Proof.
  destruct velocities as [|last earlier] using rev_ind; [reflexivity|].
  destruct earlier as [|previous earlier _] using rev_ind; [reflexivity|].
  rewrite <- app_assoc. cbn [app].
  by rewrite trend_of_last_two, last_two_trend_last_two.
Qed.

(** The report once the per-sprint sums are known: the defaults without
    a sum, and otherwise the quotient and the trend of the last two. *)
Lemma velocity_of_spec (sprint_points : list (string * Z)) :
  velocity_of sprint_points =
  match dict_values sprint_points with
  | [] => Returned {| sprints := []; average_velocity := 0%Q; trend := "stable" |}
  | total :: totals =>
      average ← Float.true_div (sum_of (total :: totals))
                  (Z.of_nat (length (total :: totals)));
      Returned {| sprints := []; average_velocity := average;
                  trend := last_two_trend (total :: totals) |}
  end.
Proof.
  unfold velocity_of, mean. destruct sprint_points as [|entry sprint_points]; [done|].
  rewrite trend_of_spec. cbn [dict_values map].
  by destruct (Float.true_div _ _).
Qed.

(** C3: with a first list named Done or Completed, whose cards have no
    title with more than 4300 digits in its leading brackets, the cards are
    grouped into per-sprint sums without an error.  Without a sprint the
    report keeps its defaults.  Otherwise [average_velocity] is what the
    true division of the sum of the sums by their number gives, a float,
    and where that division overflows the method raises its
    [OverflowError]; [trend] is the comparison of the last sum with the one
    before it: increasing when it is greater, decreasing when it is
    smaller, stable when they are equal or there is one sum only.  The sums
    before the last two play no part in the trend.  For the sums 10, 15
    and 12 the trend is decreasing and the average is the float
    12.333333333333334, which is 6943049425529515 / 2 ^ 49. *)
Theorem team_velocity_report_trend :
  forall svc sprints w board done_list cards,
    get_lists svc (journal w) = Answer board ->
    find_done_list board = Some done_list ->
    done_list <> "" ->
    get_cards_by_list_id svc
      (journal w ++ [{| tool_name := "get_lists"; arguments := [] |}]) done_list
    = Answer cards ->
    (forall card title values,
        In card cards -> card_name card = Some title -> bracketed_prefix title values ->
        (length values <= 4300)%nat) ->
    exists sprint_points,
      group_by_sprint cards = Returned sprint_points /\
      let totals := dict_values sprint_points in
      let report := (team_velocity_report svc sprints w).1 in
      (totals = [] ->
       report = Returned {| sprints := []; average_velocity := 0%Q; trend := "stable" |}) /\
      (totals <> [] ->
       match Float.true_div (sum_of totals) (Z.of_nat (length totals)) with
       | Returned average =>
           report = Returned {| sprints := []; average_velocity := average;
                                trend := last_two_trend totals |}
       | Raised e => report = Raised e
       end) /\
      (forall earlier previous last,
          totals = (earlier ++ [previous; last])%list ->
          last_two_trend totals = if previous <? last then "increasing"
                                  else if last <? previous then "decreasing"
                                  else "stable") /\
      (forall only, totals = [only] -> last_two_trend totals = "stable") /\
      (totals = [10; 15; 12] ->
       report = Returned {| sprints := [];
                            average_velocity := (6943049425529515 # 562949953421312)%Q;
                            trend := "decreasing" |}).
Proof.
  intros svc sprints w board done_list cards Hboard Hdone Hid Hcards Hlimit.
  destruct (group_by_sprint_returns cards) as [sprint_points Hgroup].
  { apply Forall_forall. intros card Hin title values. apply Hlimit.
    by apply list_elem_of_In. }
  exists sprint_points. split; [exact Hgroup|]. cbv zeta.
  unfold team_velocity_report. run_method. rewrite Hboard. run_method.
  rewrite Hdone. cbn [truth str_or]. rewrite (truthy_nonempty _ Hid).
  run_method. cbn [journal]. rewrite Hcards. run_method. rewrite Hgroup. run_method.
  cbn [fst]. rewrite velocity_of_spec.
  split; [|split; [|split; [|split]]].
  - by intros ->.
  - intros Hsome. destruct (dict_values sprint_points) as [|total totals]; [done|].
    by destruct (Float.true_div _ _).
  - intros earlier previous last ->. apply last_two_trend_last_two.
  - by intros only ->.
  - intros ->. vm_compute. reflexivity.
Qed.

Lemma team_velocity_report_trend_witness :
  (exists sprint_points,
      group_by_sprint (sample_cards "l3") = Returned sprint_points /\
      let totals := dict_values sprint_points in
      let report := (team_velocity_report sample_service 3 fresh_world).1 in
      (totals = [] ->
       report = Returned {| sprints := []; average_velocity := 0%Q; trend := "stable" |}) /\
      (totals <> [] ->
       match Float.true_div (sum_of totals) (Z.of_nat (length totals)) with
       | Returned average =>
           report = Returned {| sprints := []; average_velocity := average;
                                trend := last_two_trend totals |}
       | Raised e => report = Raised e
       end) /\
      (forall earlier previous last,
          totals = (earlier ++ [previous; last])%list ->
          last_two_trend totals = if previous <? last then "increasing"
                                  else if last <? previous then "decreasing"
                                  else "stable") /\
      (forall only, totals = [only] -> last_two_trend totals = "stable") /\
      (totals = [10; 15; 12] ->
       report = Returned {| sprints := [];
                            average_velocity := (6943049425529515 # 562949953421312)%Q;
                            trend := "decreasing" |})) /\
  group_by_sprint (sample_cards "l3") = Returned [("1", 10); ("2", 15); ("3", 12)] /\
  (team_velocity_report sample_service 3 fresh_world).1
  = Returned {| sprints := [];
                average_velocity := (6943049425529515 # 562949953421312)%Q;
                trend := "decreasing" |} /\
  (12325 # 1000 <= 6943049425529515 # 562949953421312 < 12335 # 1000)%Q.
Proof.
  split; [|repeat split; vm_compute; congruence].
  apply (team_velocity_report_trend sample_service 3 fresh_world sample_board "l3"
           (sample_cards "l3")).
  - reflexivity.
  - reflexivity.
  - discriminate.
  - reflexivity.
  - intros card title values Hin Htitle Hprefix. apply points_match_spec in Hprefix.
    vm_compute in Hin.
    repeat (destruct Hin as [<-|Hin];
            [vm_compute in Htitle; try discriminate; injection Htitle as <-;
             vm_compute in Hprefix; try discriminate; injection Hprefix as <-; cbn; lia|]).
    destruct Hin.
Defined.

(** Against C3 as the specification words it: a single sprint worth a one
    followed by 400 zeros has a mean, and the method sets no average: the
    division overflows and the method raises.  And for the sums 10, 15
    and 12 the average is the float next to 37/3, which is neither 37/3 nor
    12.33. *)
Lemma team_velocity_report_trend_counterexample :
  group_by_sprint [labelled astronomic_title ["sprint-1"]] = Returned [("1", 10 ^ 400)] /\
  team_velocity_report astronomic_service 3 fresh_world
  = (Raised (OverflowError "integer division result too large for a float"),
     {| journal := [ {| tool_name := "get_lists"; arguments := [] |};
                     {| tool_name := "get_cards_by_list_id";
                        arguments := [("listId", AStr "l3")] |} ];
        ticks := 0; console := [] |}) /\
  exists average,
    (team_velocity_report sample_service 3 fresh_world).1
    = Returned {| sprints := []; average_velocity := average; trend := "decreasing" |} /\
    ~ (average == 37 # 3)%Q /\
    ~ (average == 1233 # 100)%Q.
Proof.
  split; [vm_compute; reflexivity|]. split; [vm_compute; reflexivity|].
  eexists. split; [vm_compute; reflexivity|]. split; vm_compute; congruence.
Qed.

(** ** [generate_health_metrics] *)

Lemma tally_cons (p : Card -> bool) (card : Card) (cards : list Card) :
  tally p (card :: cards) = (if p card then 1 else 0) + tally p cards.
Proof. unfold tally. cbn [List.filter]. destruct (p card); cbn [length]; lia. Qed.

Lemma tally_app (p : Card -> bool) (xs ys : list Card) :
  tally p (xs ++ ys) = tally p xs + tally p ys.
Proof.
  induction xs as [|x xs IH]; [reflexivity|].
  change ((x :: xs) ++ ys)%list with (x :: (xs ++ ys))%list.
  rewrite !tally_cons, IH. lia.
Qed.

Lemma tally_nonneg (p : Card -> bool) (cards : list Card) : 0 <= tally p cards.
Proof. unfold tally. lia. Qed.

Lemma is_blocked_spec (card : Card) : is_blocked card = blocked card.
Proof.
  unfold is_blocked, blocked. induction (card_labels card) as [|label labels IH];
    [reflexivity|].
  cbn [existsb]. rewrite IH. f_equal.
  destruct (label_name label) as [n|].
  - change (default "" (Some n)) with n.
    destruct (String.eqb_spec n "blocked") as [->|Hne].
    + by rewrite bool_decide_eq_true_2.
    + rewrite bool_decide_eq_false_2; [done | congruence].
  - change (default "" None) with "". by rewrite bool_decide_eq_false_2.
Qed.

Section HealthChecks.

Variable fromisoformat : string -> outcome datetime.
Variable current : Z.
Variable lst : BoardList.
Variable card : Card.
Variable title : string.
Hypothesis Hname : card_name card = Some title.
Hypothesis Hzone : zone_less fromisoformat card.

Lemma check_overdue_score (m : Metrics) :
  exists m',
    check_overdue fromisoformat (naive current) lst card m = Returned m' /\
    health_score m' = health_score m - (if overdue fromisoformat current card then 5 else 0).
Proof.
  unfold check_overdue, overdue, instant_of.
  destruct (card_due card) as [due|] eqn:Hdue; [|exists m; split; [done | lia]].
  destruct (Text.truthy due) eqn:Htruthy; [|exists m; split; [done | lia]].
  destruct (Hzone due (or_introl Hdue) Htruthy) as [i ->].
  unfold mbind, outcome_bind, mret, outcome_ret, dt_lt, naive, item_name.
  cbn [wall utcoffset]. rewrite Hname.
  destruct (i <? current), (card_dueComplete card); cbn [andb negb];
    eexists; (split; [reflexivity|]); cbn [flag_overdue health_score]; lia.
Qed.

Lemma check_blocked_score (m : Metrics) :
  exists m',
    check_blocked lst card m = Returned m' /\
    health_score m' = health_score m - (if blocked card then 3 else 0).
Proof.
  unfold check_blocked, item_name. rewrite is_blocked_spec, Hname.
  unfold mbind, outcome_bind, mret, outcome_ret.
  destruct (blocked card); eexists; (split; [reflexivity|]);
    cbn [flag_blocked health_score]; lia.
Qed.

Lemma check_stale_score (m : Metrics) :
  exists m',
    check_stale fromisoformat (naive current) lst card m = Returned m' /\
    health_score m'
    = health_score m - (if stale_in_whole_days fromisoformat current card then 1 else 0).
Proof.
  unfold check_stale, stale_in_whole_days, instant_of.
  destruct (card_dateLastActivity card) as [stamp|] eqn:Hstamp;
    [|exists m; split; [done | lia]].
  destruct (Text.truthy stamp) eqn:Htruthy; [|exists m; split; [done | lia]].
  destruct (Hzone stamp (or_intror Hstamp) Htruthy) as [i ->].
  unfold mbind, outcome_bind, mret, outcome_ret, dt_sub, naive, item_name, td_days.
  cbn [wall utcoffset]. rewrite Hname.
  destruct (14 <? (current - i) / us_per_day);
    eexists; (split; [reflexivity|]); cbn [flag_stale health_score]; lia.
Qed.

(** One card costs 5 when overdue, 3 when blocked, 1 when stale. *)
Lemma check_card_score (m : Metrics) :
  exists m',
    check_card fromisoformat (naive current) lst m card = Returned m' /\
    health_score m'
    = health_score m
      - 5 * tally (overdue fromisoformat current) [card]
      - 3 * tally blocked [card]
      - 1 * tally (stale_in_whole_days fromisoformat current) [card].
Proof.
  unfold check_card.
  destruct (check_overdue_score m) as (m1 & -> & H1).
  destruct (check_blocked_score m1) as (m2 & H2run & H2).
  destruct (check_stale_score m2) as (m3 & H3run & H3).
  unfold mbind, outcome_bind. rewrite H2run, H3run.
  exists m3. split; [done|]. rewrite !tally_cons.
  change (tally _ []) with 0.
  destruct (overdue _ _ _), (blocked _), (stale_in_whole_days _ _ _); lia.
Qed.

End HealthChecks.

Lemma check_cards_score fromisoformat (current : Z) (lst : BoardList) (cards : list Card)
    (m : Metrics) :
  (forall card, In card cards -> card_name card <> None /\ zone_less fromisoformat card) ->
  exists m',
    fold_outcome (check_card fromisoformat (naive current) lst) cards m = Returned m' /\
    health_score m'
    = health_score m
      - 5 * tally (overdue fromisoformat current) cards
      - 3 * tally blocked cards
      - 1 * tally (stale_in_whole_days fromisoformat current) cards.
Proof.
  revert m. induction cards as [|card cards IH]; intros m Hcards.
  - exists m. split; [done|]. change (tally _ []) with 0. lia.
  - cbn [fold_outcome].
    destruct (Hcards card) as [Hname Hzone]; [by left|].
    destruct (card_name card) as [title|] eqn:Htitle; [|done].
    destruct (check_card_score fromisoformat current lst card title Htitle Hzone m)
      as (m1 & -> & H1).
    destruct (IH m1) as (m' & Hrun & H'). { intros c Hin. apply Hcards. by right. }
    unfold mbind, outcome_bind. exists m'. split; [exact Hrun|].
    rewrite H', H1, !(tally_cons _ card cards), !tally_cons.
    change (tally _ []) with 0. lia.
Qed.

Lemma health_lists svc fromisoformat (current : Z) (board : list BoardList)
    (cards_of : string -> list Card) (m : Metrics) (w : world) :
  (forall h lst, In lst board ->
                 get_cards_by_list_id svc h (lst_id lst) = Answer (cards_of (lst_id lst))) ->
  (forall card, In card (board_cards board cards_of) ->
                card_name card <> None /\ zone_less fromisoformat card) ->
  exists m' w',
    fold_m (health_list svc fromisoformat (naive current)) board m w = (Returned m', w') /\
    health_score m'
    = health_score m
      - 5 * tally (overdue fromisoformat current) (board_cards board cards_of)
      - 3 * tally blocked (board_cards board cards_of)
      - 1 * tally (stale_in_whole_days fromisoformat current) (board_cards board cards_of).
Proof.
  revert m w. induction board as [|lst board IH]; intros m w Hfetch Hcards.
  - exists m, w. cbn [fold_m]. run_method. split; [done|].
    unfold board_cards. cbn [flat_map]. change (tally _ []) with 0. lia.
  - cbn [fold_m]. run_method. unfold health_list at 1. run_method.
    rewrite (Hfetch _ lst) by (by left). run_method.
    destruct (check_cards_score fromisoformat current lst (cards_of (lst_id lst))
                (enter_list lst (Z.of_nat (length (cards_of (lst_id lst)))) m))
      as (m1 & -> & H1).
    { intros card Hin. apply Hcards. unfold board_cards. cbn [flat_map].
      apply in_or_app. by left. }
    run_method.
    match goal with |- context [fold_m _ board m1 ?w0] =>
      destruct (IH m1 w0) as (m' & w' & Hrun & H') end.
    { intros h lst' Hin. apply Hfetch. by right. }
    { intros card Hin. apply Hcards. unfold board_cards. cbn [flat_map].
      apply in_or_app. by right. }
    exists m', w'. split; [exact Hrun|].
    rewrite H', H1. cbn [enter_list health_score].
    unfold board_cards. cbn [flat_map]. rewrite !tally_app. lia.
Qed.

(** C2: a card last touched fourteen days and twelve hours ago has had no
    activity for more than 14 days, so the score of the specification is
    99; [generate_health_metrics] counts whole days, finds fourteen of
    them, which is not above 14, and returns 100 with no stale card. *)
Theorem stated_health_score_counterexample :
  generate_health_metrics idle_board sample_clock Calendar.isoformat Calendar.fromisoformat
    fresh_world
  = (Returned {| timestamp := "2024-01-15T12:00:00";
                 lists := [("To Do", {| count := 1;
                                        percentage := Float.Finite (100 # 1) |})];
                 overdue_cards := []; blocked_cards := []; stale_cards := [];
                 total_cards := 1; health_score := 100 |},
     {| journal := [ {| tool_name := "get_lists"; arguments := [] |};
                     {| tool_name := "get_cards_by_list_id";
                        arguments := [("listId", AStr "l1")] |} ];
        ticks := 2; console := [] |}) /\
  instant_of Calendar.fromisoformat (card_dateLastActivity idle_card)
  = Some (sample_clock 1 - (14 * 86400 + 12 * 3600 + 1) * 1000000) /\
  stale Calendar.fromisoformat (sample_clock 1) idle_card = true /\
  stated_health_score Calendar.fromisoformat (sample_clock 1) [idle_card] = 99.
Proof. repeat split; vm_compute; reflexivity. Qed.

(** A due date with the [Z] suffix is read as a timezone-aware instant, and
    comparing it with the zone-less clock reading raises. *)
Example generate_health_metrics_zulu_due :
  (generate_health_metrics zulu_board sample_clock Calendar.isoformat Calendar.fromisoformat
     fresh_world).1
  = Raised (TypeError "can't compare offset-naive and offset-aware datetimes").
Proof. vm_compute. reflexivity. Qed.

(** * Further properties of the methods *)

(** ** [initialize_priority_lists] *)

Lemma find_list_id_first (list_name : string) (before after : list BoardList) (lst : BoardList) :
  lst_name lst = list_name ->
  (forall l, In l before -> lst_name l <> list_name) ->
  existing list_name (before ++ lst :: after) = true /\
  find_list_id list_name (before ++ lst :: after) = Some (lst_id lst).
Proof.
  intros Hlst Hbefore. unfold existing. induction before as [|l before IH].
  - cbn [app existsb find_list_id]. rewrite Hlst, String.eqb_refl. by rewrite orb_true_l.
  - cbn [app existsb find_list_id].
    destruct (String.eqb_spec (lst_name l) list_name) as [Heq|Hne].
    + destruct (Hbefore l); [by left | done].
    + rewrite orb_false_l. apply IH. intros l' Hin. apply Hbefore. by right.
Qed.

Lemma priority_list_name_inj (p q : Priority) :
  priority_list_name p = priority_list_name q -> p = q.
Proof. destruct p, q; vm_compute; congruence. Qed.

(** What the loop leaves for a priority that is not among [members]. *)
Lemma initialize_priorities_other svc (lists : list BoardList) (members : list Priority)
    (self self' : TaskManager) (w w' : world) (p : Priority) :
  initialize_priorities svc lists members self w = (Returned tt, self', w') ->
  ~ In p members ->
  priority_lists self' !! p = priority_lists self !! p.
Proof.
  revert self w. induction members as [|q members IH]; intros self w Hrun Hnot;
    cbn [initialize_priorities] in Hrun.
  - by inversion Hrun.
  - assert (Hq : q <> p) by (intros ->; apply Hnot; by left).
    assert (Hrest : ~ In p members) by (intros Hin; apply Hnot; by right).
    destruct (negb (existing (priority_list_name q) lists)).
    + rewrite call_tool_run in Hrun.
      destruct (add_list_to_board svc (journal w) _) as [new_list|info]; [|discriminate].
      rewrite (IH _ _ Hrun Hrest). cbn [with_priority_list priority_lists].
      by rewrite lookup_insert_ne.
    + rewrite (IH _ _ Hrun Hrest).
      destruct (find_list_id _ lists); [|done].
      cbn [with_priority_list priority_lists]. by rewrite lookup_insert_ne.
Qed.

Lemma initialize_priorities_reuses svc (lists : list BoardList) (members : list Priority)
    (self self' : TaskManager) (w w' : world) (p : Priority) (lid : string) :
  initialize_priorities svc lists members self w = (Returned tt, self', w') ->
  NoDup members -> In p members ->
  existing (priority_list_name p) lists = true ->
  find_list_id (priority_list_name p) lists = Some lid ->
  priority_lists self' !! p = Some lid.
Proof.
  revert self w. induction members as [|q members IH]; intros self w Hrun Hnodup Hin Hex Hfind;
    [done|].
  cbn [initialize_priorities] in Hrun. apply NoDup_cons in Hnodup as [Hfresh Hnodup].
  destruct (decide (q = p)) as [->|Hne].
  - rewrite Hex, Hfind in Hrun. cbn [negb] in Hrun.
    rewrite (initialize_priorities_other _ _ _ _ _ _ _ p Hrun).
    + cbn [with_priority_list priority_lists]. by rewrite lookup_insert_eq.
    + by rewrite <- list_elem_of_In.
  - destruct Hin as [Heq|Hin]; [done|].
    destruct (negb (existing (priority_list_name q) lists)).
    + rewrite call_tool_run in Hrun.
      destruct (add_list_to_board svc (journal w) _) as [new_list|info]; [|discriminate].
      by apply (IH _ _ Hrun).
    + by apply (IH _ _ Hrun).
Qed.

(** X1: after [initialize_priority_lists] has run to its end, a priority
    whose list was on the board has the id of the first list of that name
    in the answer of [get_lists]. *)
Theorem initialize_priority_lists_reuses_first :
  forall svc self w self' w' lists before lst after p,
    get_lists svc (journal w) = Answer lists ->
    initialize_priority_lists svc self w = (Returned tt, self', w') ->
    lists = (before ++ lst :: after)%list ->
    lst_name lst = priority_list_name p ->
    (forall l, In l before -> lst_name l <> priority_list_name p) ->
    priority_lists self' !! p = Some (lst_id lst).
Proof.
  intros svc self w self' w' lists before lst after p Hlists Hrun -> Hlst Hbefore.
  unfold initialize_priority_lists in Hrun. rewrite call_tool_run, Hlists in Hrun.
  destruct (find_list_id_first (priority_list_name p) before after lst Hlst Hbefore)
    as [Hex Hfind].
  apply (initialize_priorities_reuses _ _ _ _ _ _ _ p (lst_id lst) Hrun); try done.
  - by apply (bool_decide_unpack _).
  - destruct p; cbn; tauto.
Qed.

Lemma initialize_priority_lists_reuses_first_witness :
  exists self' w',
    initialize_priority_lists half_prepared_board new_TaskManager fresh_world
    = (Returned tt, self', w') /\
    priority_lists self' !! HIGH = Some "p-high-1".
Proof.
  eexists _, _. split; [reflexivity|].
  eapply (initialize_priority_lists_reuses_first half_prepared_board new_TaskManager
           fresh_world _ _
           [ {| lst_id := "p-high-1"; lst_name := "Priority: High" |};
             {| lst_id := "p-low"; lst_name := "Priority: Low" |};
             {| lst_id := "p-high-2"; lst_name := "Priority: High" |} ]
           [] {| lst_id := "p-high-1"; lst_name := "Priority: High" |}
           [ {| lst_id := "p-low"; lst_name := "Priority: Low" |};
             {| lst_id := "p-high-2"; lst_name := "Priority: High" |} ] HIGH);
    try reflexivity.
  intros l [].
Defined.

(** The calls of the loop when the service never refuses a list. *)
Lemma initialize_priorities_calls svc (lists : list BoardList) (members : list Priority)
    (self : TaskManager) (w : world) :
  (forall h title, exists l, add_list_to_board svc h title = Answer l) ->
  exists self' w',
    initialize_priorities svc lists members self w = (Returned tt, self', w') /\
    journal w' =
    (journal w ++
     map (fun p => {| tool_name := "add_list_to_board";
                      arguments := [("name", AStr (priority_list_name p))] |})
       (List.filter (fun p => negb (existing (priority_list_name p) lists)) members))%list /\
    (forall p, In p members -> is_Some (priority_lists self' !! p)) /\
    (forall p, is_Some (priority_lists self !! p) -> is_Some (priority_lists self' !! p)).
Proof.
  intros Hadd. revert self w. induction members as [|q members IH]; intros self w;
    cbn [initialize_priorities List.filter].
  - exists self, w. cbn [map]. rewrite app_nil_r. by repeat split.
  - destruct (negb (existing (priority_list_name q) lists)) eqn:Hq.
    + rewrite call_tool_run. destruct (Hadd (journal w) (priority_list_name q)) as [l ->].
      match goal with |- context [initialize_priorities _ _ _ ?s ?w0] =>
        destruct (IH s w0) as (self' & w' & Hrun & Hj & Hin & Hkeep) end.
      exists self', w'. split; [exact Hrun|]. split; [|split].
      * rewrite Hj. cbn [journal map]. by rewrite <- app_assoc.
      * intros p [<-|Hp]; [|by apply Hin].
        apply Hkeep. cbn [with_priority_list priority_lists]. by rewrite lookup_insert_eq.
      * intros p Hp. apply Hkeep. cbn [with_priority_list priority_lists].
        destruct (decide (q = p)) as [->|Hne];
          [by rewrite lookup_insert_eq | by rewrite lookup_insert_ne].
    + assert (Hfound : exists lid, find_list_id (priority_list_name q) lists = Some lid).
      { apply negb_false_iff in Hq. unfold existing in Hq. clear -Hq.
        induction lists as [|lst lists IHl]; [done|]. cbn [existsb find_list_id] in *.
        destruct (String.eqb (lst_name lst) (priority_list_name q)); [eauto|].
        by apply IHl. }
      destruct Hfound as [lid ->].
      destruct (IH (with_priority_list self q lid) w) as (self' & w' & Hrun & Hj & Hin & Hkeep).
      exists self', w'. split; [exact Hrun|]. split; [exact Hj|]. split.
      * intros p [<-|Hp]; [|by apply Hin].
        apply Hkeep. cbn [with_priority_list priority_lists]. by rewrite lookup_insert_eq.
      * intros p Hp. apply Hkeep. cbn [with_priority_list priority_lists].
        destruct (decide (q = p)) as [->|Hne];
          [by rewrite lookup_insert_eq | by rewrite lookup_insert_ne].
Qed.

(** X2: when the service answers, [initialize_priority_lists] asks for the
    lists once and then creates a list for exactly the priorities whose
    name is not on the board, in the order critical, high, medium, low;
    it runs to its end and every priority has a list afterwards.  On a
    board that has all four names it creates nothing. *)
Theorem initialize_priority_lists_creates_missing :
  forall svc self w lists,
    get_lists svc (journal w) = Answer lists ->
    (forall h title, exists l, add_list_to_board svc h title = Answer l) ->
    exists self' w',
      initialize_priority_lists svc self w = (Returned tt, self', w') /\
      journal w' =
      (journal w ++
       {| tool_name := "get_lists"; arguments := [] |} ::
       map (fun p => {| tool_name := "add_list_to_board";
                        arguments := [("name", AStr (priority_list_name p))] |})
         (List.filter (fun p => negb (existing (priority_list_name p) lists))
            [CRITICAL; HIGH; MEDIUM; LOW]))%list /\
      (forall p, is_Some (priority_lists self' !! p)) /\
      ((forall p, existing (priority_list_name p) lists = true) ->
       journal w' = (journal w ++ [{| tool_name := "get_lists"; arguments := [] |}])%list).
Proof.
  intros svc self w lists Hlists Hadd.
  unfold initialize_priority_lists. rewrite call_tool_run, Hlists.
  match goal with |- context [initialize_priorities _ _ _ _ ?w0] =>
    destruct (initialize_priorities_calls svc lists Priority_members self w0 Hadd)
      as (self' & w' & Hrun & Hj & Hin & _) end.
  exists self', w'. split; [exact Hrun|]. cbn [journal] in Hj.
  rewrite Hj, <- app_assoc. split; [reflexivity|]. split.
  - intros p. apply Hin. destruct p; cbn; tauto.
  - intros Hall. unfold Priority_members. cbn [List.filter]. by rewrite !Hall.
Qed.

Lemma initialize_priority_lists_creates_missing_witness :
  exists self' w',
    initialize_priority_lists half_prepared_board new_TaskManager fresh_world
    = (Returned tt, self', w') /\
    journal w' =
    (journal fresh_world ++
     {| tool_name := "get_lists"; arguments := [] |} ::
     map (fun p => {| tool_name := "add_list_to_board";
                      arguments := [("name", AStr (priority_list_name p))] |})
       (List.filter
          (fun p => negb (existing (priority_list_name p)
                            [ {| lst_id := "p-high-1"; lst_name := "Priority: High" |};
                              {| lst_id := "p-low"; lst_name := "Priority: Low" |};
                              {| lst_id := "p-high-2"; lst_name := "Priority: High" |} ]))
          [CRITICAL; HIGH; MEDIUM; LOW]))%list /\
    (forall p, is_Some (priority_lists self' !! p)) /\
    ((forall p, existing (priority_list_name p)
                  [ {| lst_id := "p-high-1"; lst_name := "Priority: High" |};
                    {| lst_id := "p-low"; lst_name := "Priority: Low" |};
                    {| lst_id := "p-high-2"; lst_name := "Priority: High" |} ] = true) ->
     journal w' = (journal fresh_world ++ [{| tool_name := "get_lists"; arguments := [] |}])%list).
Proof.
  apply (initialize_priority_lists_creates_missing half_prepared_board new_TaskManager
           fresh_world).
  - reflexivity.
  - intros h title. eexists. reflexivity.
Defined.

(** ** More on [create_task] *)

(** X3: when the priority of the task has no list in [priority_lists],
    [create_task] raises a [KeyError] before any call reaches the service,
    and the task object has its due date all the same. *)
Theorem create_task_without_list_raises :
  forall svc clock isoformat strftime self task w,
    priority_lists self !! priority task = None ->
    exists task' w',
      create_task svc clock isoformat strftime self task w
      = (Raised (KeyError (member (priority task))), task', w') /\
      journal w' = journal w /\
      is_Some (due_date task').
Proof.
  intros svc clock isoformat strftime self task w Hnone.
  unfold create_task.
  destruct (default_due_date clock task w) as [task' w1] eqn:Hdef.
  assert (Hsame : priority task' = priority task /\ journal w1 = journal w /\
                  is_Some (due_date task')).
  { unfold default_due_date, read_clock in Hdef.
    destruct (due_date task) eqn:Hd; inversion Hdef; subst; simpl; rewrite ?Hd; eauto. }
  destruct Hsame as (Hp & Hj & Hd).
  unfold post_task, priority_list. rewrite Hp, Hnone. run_method.
  by exists task', w1.
Qed.

Lemma create_task_without_list_raises_witness :
  exists task' w',
    create_task sample_service sample_clock Calendar.isoformat Calendar.strftime
      new_TaskManager sample_task fresh_world
    = (Raised (KeyError (member (priority sample_task))), task', w') /\
    journal w' = journal fresh_world /\
    is_Some (due_date task').
Proof.
  exact (create_task_without_list_raises sample_service sample_clock Calendar.isoformat
           Calendar.strftime new_TaskManager sample_task fresh_world eq_refl).
Defined.

Lemma checklist_added svc (items : list string) (w : world) :
  (forall h c, acknowledge svc h c = Answer tt) ->
  for_each items
    (fun item_text =>
       call_tool_ svc "add_checklist_item"
         [("text", AStr item_text); ("checkListName", AStr "Task Checklist")]) w
  = (Returned tt,
     {| journal := journal w ++ map checklist_call items;
        ticks := ticks w; console := console w |}).
Proof.
  intros Hack. revert w. induction items as [|x items IH]; intros w.
  - cbn [for_each map]. rewrite app_nil_r. by destruct w.
  - cbn [for_each]. rewrite bind_run. unfold call_tool_ at 1. rewrite call_tool_run, Hack.
    cbv beta iota. rewrite IH. cbn [journal ticks console map].
    by rewrite <- app_assoc.
Qed.

(** X4: when the priority has a list and the service answers, [create_task]
    returns the card the service answered, after one [add_card_to_list]
    whose [dueDate] is the rendering of the task's due date, followed by
    one [add_checklist_item] per checklist item, in the order of the
    items. *)
Theorem create_task_calls :
  forall svc clock isoformat strftime self task w lid,
    priority_lists self !! priority task = Some lid ->
    (forall h args, exists card, add_card_to_list svc h args = Answer card) ->
    (forall h c, acknowledge svc h c = Answer tt) ->
    exists card task' w' due desc,
      create_task svc clock isoformat strftime self task w = (Returned card, task', w') /\
      due_date task' = Some due /\
      journal w' =
      (journal w ++
       {| tool_name := "add_card_to_list";
          arguments := [("listId", AStr lid); ("name", AStr (name task));
                        ("description", AStr desc); ("dueDate", AStr (isoformat due));
                        ("labels", AStrs (list_or (labels task) [value (priority task)]))] |}
       :: map checklist_call (list_or (checklist_items task) []))%list /\
      add_card_to_list svc (journal w)
        [("listId", AStr lid); ("name", AStr (name task));
         ("description", AStr desc); ("dueDate", AStr (isoformat due));
         ("labels", AStrs (list_or (labels task) [value (priority task)]))] = Answer card.
Proof.
  intros svc clock isoformat strftime self task w lid Hlid Hadd Hack.
  unfold create_task.
  destruct (default_due_date clock task w) as [task' w1] eqn:Hdef.
  assert (Hsame : priority task' = priority task /\ labels task' = labels task /\
                  name task' = name task /\ checklist_items task' = checklist_items task /\
                  journal w1 = journal w /\ exists d, due_date task' = Some d).
  { unfold default_due_date, read_clock in Hdef.
    destruct (due_date task) eqn:Hd; inversion Hdef; subst; simpl; rewrite ?Hd;
      repeat split; eauto. }
  destruct Hsame as (Hp & Hl & Hn & Hc & Hj & d & Hd).
  unfold post_task, priority_list, _format_task_description, due_date_isoformat.
  rewrite Hp, Hlid, Hd, Hl, Hn, Hc. run_method. cbn [journal]. rewrite Hj.
  match goal with |- context [add_card_to_list svc (journal w) ?args] =>
    destruct (Hadd (journal w) args) as [card Hcard] end.
  rewrite Hcard. run_method. rewrite (checklist_added svc _ _ Hack). run_method.
  cbn [journal]. rewrite <- app_assoc.
  eexists card, task', _, d, _. split; [reflexivity|]. split; [exact Hd|].
  split; [reflexivity|]. exact Hcard.
Qed.

Lemma create_task_calls_witness :
  exists card task' w' due desc,
    create_task sample_service sample_clock Calendar.isoformat Calendar.strftime
      sample_manager dated_task fresh_world = (Returned card, task', w') /\
    due_date task' = Some due /\
    journal w' =
    (journal fresh_world ++
     {| tool_name := "add_card_to_list";
        arguments := [("listId", AStr "list-high"); ("name", AStr (name dated_task));
                      ("description", AStr desc);
                      ("dueDate", AStr (Calendar.isoformat due));
                      ("labels", AStrs (list_or (labels dated_task)
                                          [value (priority dated_task)]))] |}
     :: map checklist_call (list_or (checklist_items dated_task) []))%list /\
    add_card_to_list sample_service (journal fresh_world)
      [("listId", AStr "list-high"); ("name", AStr (name dated_task));
       ("description", AStr desc); ("dueDate", AStr (Calendar.isoformat due));
       ("labels", AStrs (list_or (labels dated_task) [value (priority dated_task)]))]
    = Answer card.
Proof.
  apply (create_task_calls sample_service sample_clock Calendar.isoformat Calendar.strftime
           sample_manager dated_task fresh_world "list-high").
  - reflexivity.
  - intros h args. eexists. reflexivity.
  - reflexivity.
Defined.

Lemma checklist_interrupted svc (done_items : list string) (item : string)
    (later : list string) (info : string) (w : world) :
  (forall h i, In i done_items -> acknowledge svc h (checklist_call i) = Answer tt) ->
  (forall h, acknowledge svc h (checklist_call item) = Failure info) ->
  for_each (done_items ++ item :: later)
    (fun item_text =>
       call_tool_ svc "add_checklist_item"
         [("text", AStr item_text); ("checkListName", AStr "Task Checklist")]) w
  = (Raised (RemoteError info),
     {| journal := journal w ++ map checklist_call (done_items ++ [item]);
        ticks := ticks w; console := console w |}).
Proof.
  intros Hdone Hitem. revert w. induction done_items as [|x items IH]; intros w.
  - cbn [app for_each]. rewrite bind_run. unfold call_tool_ at 1.
    rewrite call_tool_run. fold (checklist_call item). by rewrite Hitem.
  - cbn [app for_each]. rewrite bind_run. unfold call_tool_ at 1.
    rewrite call_tool_run. fold (checklist_call x). rewrite Hdone by (by left).
    cbv beta iota. rewrite IH by (intros h i Hi; apply Hdone; by right).
    cbn [journal ticks console map]. by rewrite <- app_assoc.
Qed.

(** X5: there is no rollback.  When the service refuses a checklist item
    after accepting the card and the items before it, [create_task] raises
    the failure of the transport; the card and the earlier items have been
    sent, the later items never are. *)
Theorem create_task_checklist_interrupted :
  forall svc clock isoformat strftime self task w lid done_items item later info,
    priority_lists self !! priority task = Some lid ->
    checklist_items task = Some (done_items ++ item :: later)%list ->
    (forall h args, exists card, add_card_to_list svc h args = Answer card) ->
    (forall h i, In i done_items -> acknowledge svc h (checklist_call i) = Answer tt) ->
    (forall h, acknowledge svc h (checklist_call item) = Failure info) ->
    exists task' w' args,
      create_task svc clock isoformat strftime self task w
      = (Raised (RemoteError info), task', w') /\
      journal w' =
      (journal w ++ {| tool_name := "add_card_to_list"; arguments := args |}
       :: map checklist_call (done_items ++ [item]))%list.
Proof.
  intros svc clock isoformat strftime self task w lid done_items item later info
    Hlid Hitems Hadd Hdone Hitem.
  unfold create_task.
  destruct (default_due_date clock task w) as [task' w1] eqn:Hdef.
  assert (Hsame : priority task' = priority task /\
                  checklist_items task' = checklist_items task /\
                  journal w1 = journal w /\ exists d, due_date task' = Some d).
  { unfold default_due_date, read_clock in Hdef.
    destruct (due_date task) eqn:Hd; inversion Hdef; subst; simpl; rewrite ?Hd;
      repeat split; eauto. }
  destruct Hsame as (Hp & Hc & Hj & d & Hd).
  unfold post_task, priority_list, _format_task_description, due_date_isoformat.
  rewrite Hp, Hlid, Hd, Hc, Hitems. run_method. cbn [journal]. rewrite Hj.
  match goal with |- context [add_card_to_list svc (journal w) ?args] =>
    destruct (Hadd (journal w) args) as [card ->] end.
  run_method.
  assert (Hlist : list_or (Some (done_items ++ item :: later)%list) []
                  = (done_items ++ item :: later)%list).
  { unfold list_or. by destruct done_items. }
  rewrite Hlist, (checklist_interrupted svc _ _ _ info _ Hdone Hitem). run_method.
  cbn [journal]. rewrite <- app_assoc.
  eexists task', _, _. split; reflexivity.
Qed.

Lemma create_task_checklist_interrupted_witness :
  exists task' w' args,
    create_task (refusing "Deploy key") sample_clock Calendar.isoformat Calendar.strftime
      sample_manager dated_task fresh_world
    = (Raised (RemoteError "connection lost"), task', w') /\
    journal w' =
    (journal fresh_world ++ {| tool_name := "add_card_to_list"; arguments := args |}
     :: map checklist_call (["Create key"] ++ ["Deploy key"]))%list.
Proof.
  apply (create_task_checklist_interrupted (refusing "Deploy key") sample_clock
           Calendar.isoformat Calendar.strftime sample_manager dated_task fresh_world
           "list-high" ["Create key"] "Deploy key" ["Revoke old key"] "connection lost").
  - reflexivity.
  - reflexivity.
  - intros h args. eexists. reflexivity.
  - intros h i [<-|[]]. reflexivity.
  - reflexivity.
Defined.

(** ** More on [escalate_task] *)

Lemma index_priority_order (p : Priority) :
  index priority_order (Some p)
  = Returned match p with LOW => 0 | MEDIUM => 1 | HIGH => 2 | CRITICAL => 3 end%nat.
Proof. by destruct p. Qed.

(** X6: one step up.  When the first label of the card that names a
    priority names one below critical, the list of the next priority is
    known and the service answers, [escalate_task] reads the card, moves it
    to the list of the next priority, replaces the labels named as the old
    priority by the value of the new one, keeping every other label in
    place, and adds the escalation comment. *)
Theorem escalate_task_one_step :
  forall svc clock isoformat self card_id reason w card before l after p next lid,
    get_card svc (journal w) card_id = Answer card ->
    card_labels card = (before ++ l :: after)%list ->
    (forall l' q, In l' before -> label_name l' <> Some (value q)) ->
    label_name l = Some (value p) ->
    next_priority p = Some next ->
    priority_lists self !! next = Some lid ->
    (forall h c, acknowledge svc h c = Answer tt) ->
    escalate_task svc clock isoformat self card_id reason w =
    (Returned tt,
     {| journal :=
          journal w ++
          [ {| tool_name := "get_card"; arguments := [("cardId", AStr card_id)] |};
            {| tool_name := "move_card";
               arguments := [("cardId", AStr card_id); ("listId", AStr lid)] |};
            {| tool_name := "update_card_details";
               arguments := [("cardId", AStr card_id);
                             ("labels", ALabels (escalated_labels p next (card_labels card)))] |};
            {| tool_name := "add_comment";
               arguments := [("cardId", AStr card_id);
                             ("text", AStr (escalation_comment isoformat (value p) next reason
                                              (naive (clock (ticks w)))))] |} ];
        ticks := S (ticks w);
        console := console w |}).
Proof.
  intros svc clock isoformat self card_id reason w card before l after p next lid
    Hcard Hlabels Hbefore Hl Hnext Hlid Hack.
  unfold escalate_task. run_method. rewrite Hcard. run_method.
  rewrite Hlabels, (current_priority_first before after l p Hbefore Hl). run_method.
  rewrite decide_False by (intros [= ->]; discriminate).
  run_method. rewrite index_priority_order. run_method.
  unfold item, priority_list.
  destruct p; try discriminate; injection Hnext as <-;
    cbn [lookup list_lookup priority_order Nat.add]; run_method;
    rewrite Hlid; run_method; unfold call_tool_;
    repeat (progress (run_method; rewrite ?Hack; cbn [value_of journal ticks console]));
    rewrite <- !app_assoc; reflexivity.
Qed.

Lemma escalate_task_one_step_witness :
  escalate_task sample_service sample_clock Calendar.isoformat sample_manager
    "c-high" "customer impact" fresh_world =
  (Returned tt,
   {| journal :=
        journal fresh_world ++
        [ {| tool_name := "get_card"; arguments := [("cardId", AStr "c-high")] |};
          {| tool_name := "move_card";
             arguments := [("cardId", AStr "c-high"); ("listId", AStr "list-critical")] |};
          {| tool_name := "update_card_details";
             arguments := [("cardId", AStr "c-high");
                           ("labels", ALabels (escalated_labels HIGH CRITICAL
                                                 (card_labels (sample_card "c-high"))))] |};
          {| tool_name := "add_comment";
             arguments := [("cardId", AStr "c-high");
                           ("text", AStr (escalation_comment Calendar.isoformat (value HIGH)
                                            CRITICAL "customer impact"
                                            (naive (sample_clock (ticks fresh_world)))))] |} ];
      ticks := S (ticks fresh_world);
      console := console fresh_world |}).
Proof.
  apply (escalate_task_one_step sample_service sample_clock Calendar.isoformat sample_manager
           "c-high" "customer impact" fresh_world (sample_card "c-high") []
           {| label_name := Some "high" |} [] HIGH CRITICAL "list-critical").
  - reflexivity.
  - reflexivity.
  - intros l' q [].
  - reflexivity.
  - reflexivity.
  - reflexivity.
  - reflexivity.
Defined.

(** X7: the labels sent by an escalation hold no card label named as the
    old priority, hold every other label of the card, and end with the
    value of the new priority. *)
Theorem escalated_labels_replace_priority :
  forall current new labels,
    (forall l, In (OfCard l) (escalated_labels current new labels)
               <-> In l labels /\ label_name l <> Some (value current)) /\
    (forall s, In (OfText s) (escalated_labels current new labels) <-> s = value new) /\
    last (escalated_labels current new labels) = Some (OfText (value new)).
Proof.
  intros current new labels. unfold escalated_labels. split; [|split].
  - intros l. rewrite in_app_iff, in_map_iff. split.
    + intros [(l' & [= ->] & Hin)|[Hin|[]]]; [|discriminate].
      apply filter_In in Hin as [Hin Hdiff]. split; [done|].
      unfold label_differs in Hdiff. intros Hname. rewrite Hname in Hdiff.
      by rewrite String.eqb_refl in Hdiff.
    + intros [Hin Hname]. left. exists l. split; [done|].
      apply filter_In. split; [done|]. unfold label_differs.
      destruct (label_name l) as [n|]; [|done].
      destruct (String.eqb_spec n (value current)) as [->|]; [done|done].
  - intros s. rewrite in_app_iff, in_map_iff. split.
    + intros [(l' & Heq & _)|[[= <-]|[]]]; [discriminate|done].
    + intros ->. right. by left.
  - by rewrite last_snoc.
Qed.

(** X8: when the list of the next priority is missing, [escalate_task]
    raises a [KeyError] after reading the card and before any change: the
    card is not moved, relabelled or commented. *)
Theorem escalate_task_without_next_list_raises :
  forall svc clock isoformat self card_id reason w card before l after p next,
    get_card svc (journal w) card_id = Answer card ->
    card_labels card = (before ++ l :: after)%list ->
    (forall l' q, In l' before -> label_name l' <> Some (value q)) ->
    label_name l = Some (value p) ->
    next_priority p = Some next ->
    priority_lists self !! next = None ->
    escalate_task svc clock isoformat self card_id reason w =
    (Raised (KeyError (member next)),
     {| journal := journal w ++ [{| tool_name := "get_card";
                                    arguments := [("cardId", AStr card_id)] |}];
        ticks := ticks w;
        console := console w |}).
Proof.
  intros svc clock isoformat self card_id reason w card before l after p next
    Hcard Hlabels Hbefore Hl Hnext Hnone.
  unfold escalate_task. run_method. rewrite Hcard. run_method.
  rewrite Hlabels, (current_priority_first before after l p Hbefore Hl). run_method.
  rewrite decide_False by (intros [= ->]; discriminate).
  run_method. rewrite index_priority_order. run_method.
  unfold item, priority_list.
  destruct p; try discriminate; injection Hnext as <-;
    cbn [lookup list_lookup priority_order Nat.add]; run_method;
    rewrite Hnone; run_method; reflexivity.
Qed.

Lemma escalate_task_without_next_list_raises_witness :
  escalate_task sample_service sample_clock Calendar.isoformat new_TaskManager
    "c-high" "customer impact" fresh_world =
  (Raised (KeyError (member CRITICAL)),
   {| journal := journal fresh_world ++ [{| tool_name := "get_card";
                                            arguments := [("cardId", AStr "c-high")] |}];
      ticks := ticks fresh_world;
      console := console fresh_world |}).
Proof.
  apply (escalate_task_without_next_list_raises sample_service sample_clock
           Calendar.isoformat new_TaskManager "c-high" "customer impact" fresh_world
           (sample_card "c-high") [] {| label_name := Some "high" |} [] HIGH CRITICAL).
  - reflexivity.
  - reflexivity.
  - intros l' q [].
  - reflexivity.
  - reflexivity.
  - reflexivity.
Defined.

(** ** [setup_kanban_board] and more on [move_card_to_stage] *)

Lemma setup_stages_all svc (new_list : string -> BoardList) (stages : list string)
    (self : KanbanAutomation) (w : world) :
  (forall h title, add_list_to_board svc h title = Answer (new_list title)) ->
  exists self',
    setup_stages svc stages self w
    = (Returned tt, self',
       {| journal := journal w ++ map stage_call stages;
          ticks := ticks w; console := console w |}) /\
    workflow_stages self' = workflow_stages self /\
    forall stage,
      stage_lists self' !! stage
      = if decide (stage ∈ stages) then Some (lst_id (new_list stage))
        else stage_lists self !! stage.
Proof.
  intros Hadd. revert self w. induction stages as [|s stages IH]; intros self w.
  - exists self. cbn [setup_stages map]. rewrite app_nil_r. destruct w. by repeat split.
  - cbn [setup_stages]. rewrite call_tool_run, Hadd.
    match goal with |- context [setup_stages _ _ ?s0 ?w0] =>
      destruct (IH s0 w0) as (self' & -> & Hw & Hlookup) end.
    exists self'. cbn [journal ticks console map]. rewrite <- app_assoc.
    split; [reflexivity|]. split; [exact Hw|].
    intros stage. rewrite Hlookup. cbn [stage_lists].
    destruct (decide (stage ∈ stages)) as [Hin|Hnot].
    + rewrite decide_True by (by right). done.
    + destruct (decide (s = stage)) as [->|Hne].
      * rewrite decide_True by (by left). by rewrite lookup_insert_eq.
      * rewrite decide_False by (rewrite elem_of_cons; intros [|]; done).
        by rewrite lookup_insert_ne.
Qed.

(** X9: when the service creates every list, [setup_kanban_board] on a new
    object issues six [add_list_to_board] calls, Backlog, To Do, In
    Progress, Review, Testing, Done in this order, and records for each of
    these stages the id of the list created for it; no other stage gets a
    list. *)
Theorem setup_kanban_board_records_stages :
  forall svc new_list w,
    (forall h title, add_list_to_board svc h title = Answer (new_list title)) ->
    exists self',
      setup_kanban_board svc new_KanbanAutomation w
      = (Returned tt, self',
         {| journal := journal w ++
                       map stage_call
                         ["Backlog"; "To Do"; "In Progress"; "Review"; "Testing"; "Done"];
            ticks := ticks w; console := console w |}) /\
      forall stage,
        stage_lists self' !! stage
        = if decide (stage ∈ ["Backlog"; "To Do"; "In Progress"; "Review"; "Testing"; "Done"])
          then Some (lst_id (new_list stage)) else None.
Proof.
  intros svc new_list w Hadd. unfold setup_kanban_board.
  destruct (setup_stages_all svc new_list (workflow_stages new_KanbanAutomation)
              new_KanbanAutomation w Hadd) as (self' & Hrun & _ & Hlookup).
  exists self'. split; [exact Hrun|].
  intros stage. rewrite Hlookup. cbn [stage_lists new_KanbanAutomation].
  by rewrite lookup_empty.
Qed.

Lemma setup_kanban_board_records_stages_witness :
  exists self',
    setup_kanban_board sample_service new_KanbanAutomation fresh_world
    = (Returned tt, self',
       {| journal := journal fresh_world ++
                     map stage_call
                       ["Backlog"; "To Do"; "In Progress"; "Review"; "Testing"; "Done"];
          ticks := ticks fresh_world; console := console fresh_world |}) /\
    forall stage,
      stage_lists self' !! stage
      = if decide (stage ∈ ["Backlog"; "To Do"; "In Progress"; "Review"; "Testing"; "Done"])
        then Some (lst_id ((fun title => {| lst_id := "id:" +:+ title; lst_name := title |})
                             stage))
        else None.
Proof.
  apply (setup_kanban_board_records_stages sample_service
           (fun title => {| lst_id := "id:" +:+ title; lst_name := title |}) fresh_world).
  reflexivity.
Defined.

Lemma setup_stages_partial svc (new_list : string -> BoardList) (created : list string)
    (stage : string) (later : list string) (info : string) (self : KanbanAutomation)
    (w : world) :
  (forall h title, In title created ->
                   add_list_to_board svc h title = Answer (new_list title)) ->
  (forall h, add_list_to_board svc h stage = Failure info) ->
  exists self',
    setup_stages svc (created ++ stage :: later) self w
    = (Raised (RemoteError info), self',
       {| journal := journal w ++ map stage_call (created ++ [stage]);
          ticks := ticks w; console := console w |}) /\
    forall s,
      stage_lists self' !! s
      = if decide (s ∈ created) then Some (lst_id (new_list s))
        else stage_lists self !! s.
Proof.
  intros Hcreated Hstage. revert self w. induction created as [|c created IH]; intros self w.
  - exists self. cbn [app setup_stages]. rewrite call_tool_run, Hstage.
    split; [reflexivity | done].
  - cbn [app setup_stages]. rewrite call_tool_run, Hcreated by (by left).
    match goal with |- context [setup_stages _ _ ?s0 ?w0] =>
      destruct (IH (fun h t Ht => Hcreated h t (or_intror Ht)) s0 w0)
        as (self' & -> & Hlookup) end.
    exists self'. cbn [journal ticks console map]. rewrite <- app_assoc.
    split; [reflexivity|].
    intros s. rewrite Hlookup. cbn [stage_lists].
    destruct (decide (s ∈ created)) as [Hin|Hnot].
    + rewrite decide_True by (by right). done.
    + destruct (decide (c = s)) as [->|Hne].
      * rewrite decide_True by (by left). by rewrite lookup_insert_eq.
      * rewrite decide_False by (rewrite elem_of_cons; intros [|]; done).
        by rewrite lookup_insert_ne.
Qed.

(** X10: [setup_kanban_board] is not atomic.  When the service refuses the
    list of one stage, the error leaves the method, the later stages are
    never asked for, and the stages before keep the lists they got. *)
Theorem setup_kanban_board_interrupted :
  forall svc new_list w created stage later info,
    workflow_stages new_KanbanAutomation = (created ++ stage :: later)%list ->
    (forall h title, In title created ->
                     add_list_to_board svc h title = Answer (new_list title)) ->
    (forall h, add_list_to_board svc h stage = Failure info) ->
    exists self',
      setup_kanban_board svc new_KanbanAutomation w
      = (Raised (RemoteError info), self',
         {| journal := journal w ++ map stage_call (created ++ [stage]);
            ticks := ticks w; console := console w |}) /\
      (forall s, In s created -> stage_lists self' !! s = Some (lst_id (new_list s))) /\
      (forall s, ~ In s created -> stage_lists self' !! s = None).
Proof.
  intros svc new_list w created stage later info Hsplit Hcreated Hstage.
  unfold setup_kanban_board. rewrite Hsplit.
  destruct (setup_stages_partial svc new_list created stage later info
              new_KanbanAutomation w Hcreated Hstage) as (self' & Hrun & Hlookup).
  exists self'. split; [exact Hrun|]. split.
  - intros s Hin. rewrite Hlookup. by rewrite decide_True by (by apply list_elem_of_In).
  - intros s Hnot. rewrite Hlookup, decide_False by (by rewrite list_elem_of_In).
    cbn [stage_lists new_KanbanAutomation]. by rewrite lookup_empty.
Qed.

Lemma setup_kanban_board_interrupted_witness :
  exists self',
    setup_kanban_board (refusing_list "Review") new_KanbanAutomation fresh_world
    = (Raised (RemoteError "connection lost"), self',
       {| journal := journal fresh_world ++
                     map stage_call (["Backlog"; "To Do"; "In Progress"] ++ ["Review"]);
          ticks := ticks fresh_world; console := console fresh_world |}) /\
    (forall s, In s ["Backlog"; "To Do"; "In Progress"] ->
               stage_lists self' !! s
               = Some (lst_id ((fun title => {| lst_id := "id:" +:+ title;
                                                lst_name := title |}) s))) /\
    (forall s, ~ In s ["Backlog"; "To Do"; "In Progress"] -> stage_lists self' !! s = None).
Proof.
  apply (setup_kanban_board_interrupted (refusing_list "Review")
           (fun title => {| lst_id := "id:" +:+ title; lst_name := title |}) fresh_world
           ["Backlog"; "To Do"; "In Progress"] "Review" ["Testing"; "Done"]
           "connection lost").
  - reflexivity.
  - intros h title [<-|[<-|[<-|[]]]]; reflexivity.
  - reflexivity.
Defined.

(** X11: for a stage that has a list and a service that answers,
    [move_card_to_stage] moves the card to that list and then adds the
    transition comment exactly when a non-empty comment was given; without
    a comment, or with the empty string, the move is the only call. *)
Theorem move_card_to_stage_known_stage :
  forall svc self card_id stage comment w lid,
    stage_lists self !! stage = Some lid ->
    (forall h c, acknowledge svc h c = Answer tt) ->
    move_card_to_stage svc self card_id stage comment w =
    (Returned tt,
     {| journal :=
          journal w ++
          {| tool_name := "move_card";
             arguments := [("cardId", AStr card_id); ("listId", AStr lid)] |}
          :: match comment with
             | Some (String c text) =>
                 [ {| tool_name := "add_comment";
                      arguments := [("cardId", AStr card_id);
                                    ("text", AStr (transition_comment stage comment))] |} ]
             | _ => []
             end;
        ticks := ticks w; console := console w |}).
Proof.
  intros svc self card_id stage comment w lid Hlid Hack.
  unfold move_card_to_stage, stage_list. rewrite Hlid, decide_False by done.
  unfold call_tool_. run_method. rewrite Hack. run_method.
  destruct comment as [[|c text]|]; cbn [truth Text.truthy String.eqb negb];
    run_method; rewrite ?Hack; run_method; cbn [journal ticks console];
    rewrite <- ?app_assoc; reflexivity.
Qed.

Lemma move_card_to_stage_known_stage_witness :
  move_card_to_stage sample_service sample_kanban "c-high" "In Progress" (Some "") fresh_world
  = (Returned tt,
     {| journal :=
          journal fresh_world ++
          [ {| tool_name := "move_card";
               arguments := [("cardId", AStr "c-high"); ("listId", AStr "l2")] |} ];
        ticks := ticks fresh_world; console := console fresh_world |}).
Proof.
  exact (move_card_to_stage_known_stage sample_service sample_kanban "c-high" "In Progress"
           (Some "") fresh_world "l2" eq_refl (fun _ _ => eq_refl)).
Defined.

(** ** More on [apply_wip_limits] *)

(** X12: stages without a list are passed over in silence.  When no stage
    of [limits] has a list, [apply_wip_limits] returns without a single
    call, whatever the limits are. *)
Theorem apply_wip_limits_skips_unknown_stages :
  forall svc self limits w,
    (forall stage limit, In (stage, limit) limits -> stage_lists self !! stage = None) ->
    apply_wip_limits svc self limits w = (Returned tt, w).
Proof.
  intros svc self limits w Hunknown. unfold apply_wip_limits.
  induction limits as [|[stage limit] limits IH]; cbn [for_each]; [reflexivity|].
  rewrite bind_run. unfold check_wip_limit.
  rewrite decide_True by (apply (Hunknown stage limit); by left).
  run_method. apply IH. intros s l Hin. apply (Hunknown s l). by right.
Qed.

Lemma apply_wip_limits_skips_unknown_stages_witness :
  apply_wip_limits sample_service sample_kanban [("Review", 2); ("Testing", 0)] fresh_world
  = (Returned tt, fresh_world).
Proof.
  apply (apply_wip_limits_skips_unknown_stages sample_service sample_kanban
           [("Review", 2); ("Testing", 0)] fresh_world).
  intros stage limit [[= <- <-]|[[= <- <-]|[]]]; reflexivity.
Defined.

(** ** More on [add_retro_item] *)



(** X25: when no list name in the answer of [get_lists] contains
    [list_name], [add_retro_item] raises the [ValueError] that names it;
    [get_lists] was the only call, the clock was not read, and so no card
    was created. *)
Theorem add_retro_item_without_match_raises :
  forall svc clock isoformat list_name title description votes w board,
    get_lists svc (journal w) = Answer board ->
    (forall lst, In lst board -> ~ substring list_name (lst_name lst)) ->
    add_retro_item svc clock isoformat list_name title description votes w
    = (Raised (ValueError ("List '" +:+ list_name +:+ "' not found")),
       {| journal := journal w ++ [{| tool_name := "get_lists"; arguments := [] |}];
          ticks := ticks w; console := console w |}).
Proof.
  intros svc clock isoformat list_name title description votes w board Hboard Hnone.
  unfold add_retro_item. run_method. rewrite Hboard. run_method.
  rewrite (find_target_list_none _ _ Hnone). cbn [truth negb]. by run_method.
Qed.

Lemma add_retro_item_without_match_raises_witness :
  add_retro_item sample_service sample_clock Calendar.isoformat "Kudos" "Great demo" "Thanks" 3
    fresh_world
  = (Raised (ValueError "List 'Kudos' not found"),
     {| journal := [{| tool_name := "get_lists"; arguments := [] |}];
        ticks := 0; console := [] |}).
Proof.
  apply (add_retro_item_without_match_raises sample_service sample_clock Calendar.isoformat
           "Kudos" "Great demo" "Thanks" 3 fresh_world sample_board).
  - reflexivity.
  - intros lst Hin Hsub. apply contains_spec in Hsub.
    destruct Hin as [<-|[<-|[<-|[]]]]; vm_compute in Hsub; discriminate.
Defined.

(** ** [create_retro_board] *)



(** ** [convert_to_action_items] *)

(** What one run of the loop adds to the journal and to the result. *)
Lemma convert_cards_invariant svc clock isoformat get_retro_card
    (retro_cards : list string) (target : string) (acc items : list Card) (w w' : world) :
  fold_m (convert_card svc clock isoformat get_retro_card target) retro_cards acc w
  = (Returned items, w') ->
  length items = (length acc + length retro_cards)%nat /\
  exists new,
    journal w' = (journal w ++ new)%list /\
    length new = (2 * length retro_cards)%nat /\
    Forall (fun c => tool_name c = "get_card" \/
                     (tool_name c = "add_card_to_list" /\
                      dict_get "listId" (arguments c) = Some (AStr "backlog-list-id") /\
                      dict_get "boardId" (arguments c) = Some (AStr target))) new.
Proof.
  revert acc w. induction retro_cards as [|card_id retro_cards IH]; intros acc w Hrun;
    cbn [fold_m] in Hrun.
  - rewrite ret_run in Hrun. injection Hrun as <- <-. split; [simpl; lia|].
    exists []. rewrite app_nil_r. by repeat split.
  - rewrite bind_run in Hrun. unfold convert_card at 1 in Hrun.
    rewrite bind_run, call_tool_run in Hrun.
    destruct (get_retro_card (journal w) card_id) as [card|info]; [|discriminate].
    cbv beta iota in Hrun. rewrite bind_run, lift_run in Hrun.
    destruct (item_retro_name card) as [title|e]; [|discriminate].
    cbv beta iota in Hrun. rewrite bind_run, now_run in Hrun. cbv beta iota in Hrun.
    rewrite bind_run, call_tool_run in Hrun. cbn [journal] in Hrun.
    destruct (add_card_to_list svc _ _) as [action_card|info]; [|discriminate].
    cbv beta iota in Hrun. rewrite ret_run in Hrun.
    apply IH in Hrun as (Hlen & new & Hj & Hnew & Hall).
    split; [rewrite Hlen, length_app; simpl; lia|].
    eexists (_ :: _ :: new). split; [|split].
    + rewrite Hj. cbn [journal]. rewrite <- !app_assoc. reflexivity.
    + simpl. lia.
    + constructor; [by left|]. constructor; [|exact Hall].
      right. by repeat split.
Qed.

(** X15: when [convert_to_action_items] returns, it returns one action card
    per retrospective card, after two calls for each of them; every card
    it created went to the board given, on the list with the fixed id
    [backlog-list-id]. *)
Theorem convert_to_action_items_targets_placeholder :
  forall svc clock isoformat get_retro_card retro_cards target_board_id w items w',
    convert_to_action_items svc clock isoformat get_retro_card retro_cards target_board_id w
    = (Returned items, w') ->
    length items = length retro_cards /\
    exists new,
      journal w' = (journal w ++ new)%list /\
      length new = (2 * length retro_cards)%nat /\
      Forall (fun c => tool_name c = "get_card" \/
                       (tool_name c = "add_card_to_list" /\
                        dict_get "listId" (arguments c) = Some (AStr "backlog-list-id") /\
                        dict_get "boardId" (arguments c) = Some (AStr target_board_id)))
        new.
Proof.
  intros svc clock isoformat get_retro_card retro_cards target_board_id w items w' Hrun.
  apply convert_cards_invariant in Hrun as [Hlen Hnew]. by split.
Qed.

Lemma convert_to_action_items_targets_placeholder_witness :
  exists items w',
    convert_to_action_items sample_service sample_clock Calendar.isoformat sample_retro_card
      ["r1"; "r2"] "board-7" fresh_world = (Returned items, w') /\
    length items = length ["r1"; "r2"] /\
    exists new,
      journal w' = (journal fresh_world ++ new)%list /\
      length new = (2 * length ["r1"; "r2"])%nat /\
      Forall (fun c => tool_name c = "get_card" \/
                       (tool_name c = "add_card_to_list" /\
                        dict_get "listId" (arguments c) = Some (AStr "backlog-list-id") /\
                        dict_get "boardId" (arguments c) = Some (AStr "board-7")))
        new.
Proof.
  eexists _, _. split; [reflexivity|].
  eapply (convert_to_action_items_targets_placeholder sample_service sample_clock
            Calendar.isoformat sample_retro_card ["r1"; "r2"] "board-7" fresh_world).
  reflexivity.
Defined.

(** X16: a retrospective card without a name stops the conversion with a
    [KeyError] right after it was read: no action card is created for it,
    the cards after it are not read, and the action cards created before
    are not handed back. *)
Theorem convert_to_action_items_nameless_card :
  forall svc clock isoformat get_retro_card card_id later target_board_id w card,
    get_retro_card (journal w) card_id = Answer card ->
    retro_name card = None ->
    convert_to_action_items svc clock isoformat get_retro_card (card_id :: later)
      target_board_id w =
    (Raised (KeyError "name"),
     {| journal := journal w ++ [{| tool_name := "get_card";
                                    arguments := [("cardId", AStr card_id)] |}];
        ticks := ticks w; console := console w |}).
Proof.
  intros svc clock isoformat get_retro_card card_id later target_board_id w card Hcard Hname.
  unfold convert_to_action_items. cbn [fold_m]. rewrite bind_run.
  unfold convert_card at 1.
  run_method. rewrite Hcard. run_method. unfold item_retro_name. rewrite Hname.
  by run_method.
Qed.

Lemma convert_to_action_items_nameless_card_witness :
  convert_to_action_items sample_service sample_clock Calendar.isoformat sample_retro_card
    ("r-untitled" :: ["r1"]) "board-7" fresh_world =
  (Raised (KeyError "name"),
   {| journal := journal fresh_world ++ [{| tool_name := "get_card";
                                            arguments := [("cardId", AStr "r-untitled")] |}];
      ticks := ticks fresh_world; console := console fresh_world |}).
Proof.
  apply (convert_to_action_items_nameless_card sample_service sample_clock Calendar.isoformat
           sample_retro_card "r-untitled" ["r1"] "board-7" fresh_world
           {| retro_name := None; retro_desc := None |}); reflexivity.
Defined.

(** ** More on [generate_burndown_data] *)

Lemma burndown_lists_bounds svc (board : list BoardList) (data data' : Burndown)
    (w w' : world) :
  fold_m (burndown_list svc) board data w = (Returned data', w') ->
  0 <= completed_points data <= total_points data ->
  0 <= completed_points data' <= total_points data'.
Proof.
  revert data w. induction board as [|lst board IH]; intros data w Hrun Hdata;
    cbn [fold_m] in Hrun.
  - rewrite ret_run in Hrun. by injection Hrun as <- <-.
  - rewrite bind_run in Hrun.
    destruct (get_cards_by_list_id svc (journal w) (lst_id lst)) as [cards|info] eqn:Hcards.
    2: { unfold burndown_list at 1 in Hrun. rewrite bind_run, call_tool_run, Hcards in Hrun.
         discriminate. }
    pose proof (burndown_list_run svc data lst w cards Hcards) as Hstep. cbv zeta in Hstep.
    destruct (map_outcome card_points cards) as [points|e] eqn:Hpoints.
    + destruct Hstep as (data1 & Hstep & Htotal & Hcompleted & _).
      rewrite Hstep in Hrun. apply IH in Hrun; [done|].
      apply card_points_each, sum_of_contributions_nonneg in Hpoints.
      rewrite Htotal, Hcompleted. destruct (one_of _ _); lia.
    + rewrite Hstep in Hrun. discriminate.
Qed.

(** X17: whatever the service answers, a report that
    [generate_burndown_data] returns has completed points between zero and
    the total, and remaining points that are their difference and not
    negative. *)
Theorem generate_burndown_data_bounds :
  forall svc clock isoformat w data w',
    generate_burndown_data svc clock isoformat w = (Returned data, w') ->
    0 <= completed_points data <= total_points data /\
    remaining_points data = total_points data - completed_points data /\
    0 <= remaining_points data.
Proof.
  intros svc clock isoformat w data w' Hrun.
  unfold generate_burndown_data in Hrun. rewrite bind_run, call_tool_run in Hrun.
  destruct (get_lists svc (journal w)) as [board|info]; [|discriminate].
  cbv beta iota in Hrun. rewrite bind_run, now_run in Hrun. cbv beta iota in Hrun.
  rewrite bind_run in Hrun.
  match type of Hrun with context [fold_m _ board ?d ?w0] =>
    destruct (fold_m (burndown_list svc) board d w0) as [[data1|e] w1] eqn:Hfold end;
    [|discriminate].
  rewrite ret_run in Hrun. injection Hrun as <- <-.
  apply burndown_lists_bounds in Hfold; [|cbn; lia].
  cbn [total_points completed_points remaining_points]. lia.
Qed.

Lemma generate_burndown_data_bounds_witness :
  exists data w',
    generate_burndown_data sample_service sample_clock Calendar.isoformat fresh_world
    = (Returned data, w') /\
    0 <= completed_points data <= total_points data /\
    remaining_points data = total_points data - completed_points data /\
    0 <= remaining_points data.
Proof.
  destruct (generate_burndown_data sample_service sample_clock Calendar.isoformat fresh_world)
    as [[data|e] w'] eqn:Hrun; [|vm_compute in Hrun; discriminate].
  exists data, w'. split; [reflexivity|].
  exact (generate_burndown_data_bounds sample_service sample_clock Calendar.isoformat
           fresh_world data w' Hrun).
Defined.

Lemma dict_set_fresh {V} (k : string) (v : V) (d : list (string * V)) :
  ~ In k (map fst d) -> dict_set k v d = (d ++ [(k, v)])%list.
Proof.
  induction d as [|[k' v'] d IH]; intros Hfresh; [reflexivity|].
  cbn [dict_set app]. cbn [map fst In] in Hfresh.
  destruct (String.eqb_spec k' k) as [->|Hne]; [tauto|].
  rewrite IH; [done | tauto].
Qed.

Lemma burndown_lists_by_list svc (board : list BoardList) (cards_of : string -> list Card)
    (data : Burndown) (w : world) :
  (forall h lst, In lst board ->
                 get_cards_by_list_id svc h (lst_id lst) = Answer (cards_of (lst_id lst))) ->
  Forall within_int_limit (board_cards board cards_of) ->
  NoDup (map fst (by_list data) ++ map lst_name board) ->
  exists data' w' entries,
    fold_m (burndown_list svc) board data w = (Returned data', w') /\
    by_list data' = (by_list data ++ entries)%list /\
    Forall2 (list_entry cards_of) board entries.
Proof.
  revert data w. induction board as [|lst board IH]; intros data w Hcards Hlimit Hnodup.
  - exists data, w, []. cbn [fold_m]. rewrite app_nil_r. run_method.
    repeat split. constructor.
  - apply within_limit_of_board in Hlimit as [Hhere Hrest].
    cbn [fold_m]. run_method.
    pose proof (burndown_list_run svc data lst w _ (Hcards _ lst (or_introl eq_refl))) as Hrun.
    destruct (card_points_all _ Hhere) as [points Hpoints].
    cbv zeta in Hrun. rewrite Hpoints in Hrun.
    destruct Hrun as (data1 & -> & _ & _ & _ & Hby).
    apply card_points_each in Hpoints.
    cbn [map] in Hnodup. apply NoDup_app in Hnodup as (Hold & Hdisjoint & Hboard).
    apply NoDup_cons in Hboard as [Hfresh Hboard].
    assert (Hnew : ~ In (lst_name lst) (map fst (by_list data))).
    { intros Hin. apply (Hdisjoint (lst_name lst)); [by apply list_elem_of_In | by left]. }
    rewrite (dict_set_fresh _ _ _ Hnew) in Hby.
    match goal with |- context [fold_m _ board data1 ?w0] =>
      destruct (IH data1 w0) as (data' & w' & entries & Hrun & Hby' & Hentries) end.
    { intros h lst' Hin. apply Hcards. by right. }
    { done. }
    { rewrite Hby, map_app. cbn [map fst]. rewrite <- app_assoc. cbn [app].
      apply NoDup_app. split; [done|]. split; [|by apply NoDup_cons].
      intros k Hk. apply Hdisjoint in Hk. by rewrite elem_of_cons in Hk |- *. }
    exists data', w', ((lst_name lst, sum_of points) :: entries). split; [exact Hrun|].
    split.
    + rewrite Hby', Hby, <- app_assoc. reflexivity.
    + constructor; [|done]. split; [done|]. by exists points.
Qed.

(** X18: on a board whose lists have different names, that answers the
    fetches and has no title with more than 4300 digits in its leading
    brackets, [by_list] of the burndown report has one entry per list, in
    the order of the board: the name of the list with the sum of what its
    cards contribute. *)
Theorem generate_burndown_data_by_list :
  forall svc clock isoformat w board cards_of,
    get_lists svc (journal w) = Answer board ->
    (forall h lst, In lst board ->
                   get_cards_by_list_id svc h (lst_id lst) = Answer (cards_of (lst_id lst))) ->
    NoDup (map lst_name board) ->
    (forall card title values,
        In card (board_cards board cards_of) ->
        card_name card = Some title ->
        bracketed_prefix title values ->
        (length values <= 4300)%nat) ->
    exists data w',
      generate_burndown_data svc clock isoformat w = (Returned data, w') /\
      Forall2 (fun lst entry =>
                 entry.1 = lst_name lst /\
                 exists points,
                   Forall2 contributes (cards_of (lst_id lst)) points /\
                   entry.2 = sum_of points)
        board (by_list data).
Proof.
  intros svc clock isoformat w board cards_of Hboard Hcards Hnodup Hlimit.
  unfold generate_burndown_data. run_method. rewrite Hboard. run_method.
  match goal with |- context [fold_m _ board ?d ?w0] =>
    destruct (burndown_lists_by_list svc board cards_of d w0 Hcards)
      as (data & w' & entries & Hrun & Hby & Hentries) end.
  { apply Forall_forall. intros card Hin title values. apply Hlimit.
    by apply list_elem_of_In. }
  { done. }
  rewrite Hrun. run_method. eexists _, w'. split; [reflexivity|].
  cbn [by_list app] in *. rewrite Hby. exact Hentries.
Qed.

Lemma generate_burndown_data_by_list_witness :
  (exists data w',
      generate_burndown_data points_service sample_clock Calendar.isoformat fresh_world
      = (Returned data, w') /\
      Forall2 (fun lst entry =>
                 entry.1 = lst_name lst /\
                 exists points,
                   Forall2 contributes (points_cards (lst_id lst)) points /\
                   entry.2 = sum_of points)
        points_board (by_list data)) /\
  by_list (match generate_burndown_data points_service sample_clock Calendar.isoformat
                   fresh_world with
           | (Returned data, _) => data
           | (Raised _, _) =>
               {| date := ""; total_points := 0; completed_points := 0;
                  remaining_points := 0; by_list := [] |}
           end)
  = [("To Do", 16); ("Deployed", 105)] /\
  Forall2 contributes (points_cards "b1") [3; 0; 13; 0; 0; 0] /\
  Forall2 contributes (points_cards "b2") [98; 7].
Proof.
  split; [|split; [vm_compute; reflexivity | split; apply card_points_each; vm_compute;
                                              reflexivity]].
  apply (generate_burndown_data_by_list points_service sample_clock Calendar.isoformat
           fresh_world points_board points_cards).
  - reflexivity.
  - intros h lst _. reflexivity.
  - by apply (bool_decide_unpack _).
  - intros card title values Hin Htitle Hprefix. apply points_match_spec in Hprefix.
    vm_compute in Hin.
    repeat (destruct Hin as [<-|Hin];
            [vm_compute in Htitle; try discriminate; injection Htitle as <-;
             vm_compute in Hprefix; try discriminate; injection Hprefix as <-; cbn; lia|]).
    destruct Hin.
Defined.

(** ** More on [team_velocity_report] *)



(** ** More on [generate_health_metrics] *)

Ltac outcome_cases H :=
  unfold mbind, outcome_bind, mret, outcome_ret in H;
  repeat match type of H with
         | context [match ?x with _ => _ end] => destruct x eqn:?
         end;
  try discriminate; injection H as <-.

(** A check never raises the score and leaves the card counts alone. *)
Lemma check_card_keeps fromisoformat (current : datetime) (lst : BoardList) (card : Card)
    (m m' : Metrics) :
  check_card fromisoformat current lst m card = Returned m' ->
  health_score m' <= health_score m /\
  total_cards m' = total_cards m /\
  lists m' = lists m.
Proof.
  unfold check_card, mbind, outcome_bind. intros Hrun.
  destruct (check_overdue fromisoformat current lst card m) as [m1|e] eqn:H1; [|discriminate].
  destruct (check_blocked lst card m1) as [m2|e] eqn:H2; [|discriminate].
  assert (K1 : health_score m1 <= health_score m /\ total_cards m1 = total_cards m /\
               lists m1 = lists m).
  { unfold check_overdue in H1. outcome_cases H1;
      cbn [flag_overdue health_score total_cards lists]; repeat split; lia. }
  assert (K2 : health_score m2 <= health_score m1 /\ total_cards m2 = total_cards m1 /\
               lists m2 = lists m1).
  { unfold check_blocked in H2. outcome_cases H2;
      cbn [flag_blocked health_score total_cards lists]; repeat split; lia. }
  assert (K3 : health_score m' <= health_score m2 /\ total_cards m' = total_cards m2 /\
               lists m' = lists m2).
  { unfold check_stale in Hrun. outcome_cases Hrun;
      cbn [flag_stale health_score total_cards lists]; repeat split; lia. }
  destruct K1 as (? & ? & ?), K2 as (? & ? & ?), K3 as (? & ? & ?).
  repeat split; [lia | congruence | congruence].
Qed.

Lemma check_cards_keep fromisoformat (current : datetime) (lst : BoardList)
    (cards : list Card) (m m' : Metrics) :
  fold_outcome (check_card fromisoformat current lst) cards m = Returned m' ->
  health_score m' <= health_score m /\
  total_cards m' = total_cards m /\
  lists m' = lists m.
Proof.
  revert m. induction cards as [|card cards IH]; intros m Hrun; cbn [fold_outcome] in Hrun.
  - injection Hrun as <-. by repeat split.
  - unfold mbind, outcome_bind in Hrun.
    destruct (check_card fromisoformat current lst m card) as [m1|e] eqn:H1; [|discriminate].
    apply check_card_keeps in H1 as (? & ? & ?). apply IH in Hrun as (? & ? & ?).
    repeat split; [lia | congruence | congruence].
Qed.

(** The closing steps keep everything but the shares and floor the score. *)
Lemma finish_metrics_fields (m m' : Metrics) :
  finish_metrics m = Returned m' ->
  health_score m' = Z.max 0 (health_score m) /\
  total_cards m' = total_cards m /\
  overdue_cards m' = overdue_cards m /\
  blocked_cards m' = blocked_cards m /\
  stale_cards m' = stale_cards m /\
  (if 0 <? total_cards m
   then map_outcome (share_of (total_cards m)) (lists m) = Returned (lists m')
   else lists m' = lists m).
Proof.
  unfold finish_metrics. destruct (0 <? total_cards m).
  - destruct (map_outcome _ _) as [shares|e]; [|done]. by intros [= <-].
  - by intros [= <-].
Qed.

(** A share of the whole is a quotient that true division returns. *)
Lemma true_div_within (a b : Z) :
  0 <= a <= b -> 0 < b ->
  exists q, Float.true_div a b = Returned q /\ rounds_to (inject_Z a / inject_Z b) q.
Proof.
  intros Ha Hb. apply true_div_finite; [lia|].
  pose proof overflow_threshold_large. nia.
Qed.

Lemma finish_metrics_returns (m : Metrics) :
  shares_bounded m -> exists m', finish_metrics m = Returned m'.
Proof.
  intros [Htotal Hshares]. unfold finish_metrics.
  destruct (Z.ltb_spec 0 (total_cards m)) as [Hpos|_]; [|by eexists].
  assert (Hall : exists shares,
             map_outcome (share_of (total_cards m)) (lists m) = Returned shares).
  { induction Hshares as [|entry entries Hentry _ [shares IH]]; [by eexists|].
    cbn [map_outcome]. rewrite IH. unfold share_of.
    destruct (true_div_within (count entry.2) (total_cards m) Hentry Hpos) as (q & -> & _).
    by eexists. }
  destruct Hall as [shares ->]. by eexists.
Qed.

Lemma dict_set_Forall {V} (P : string * V -> Prop) (k : string) (v : V)
    (d : list (string * V)) :
  Forall P d -> (forall k', P (k', v)) -> Forall P (dict_set k v d).
Proof.
  intros Hd Hv. induction Hd as [|[k' v'] d Hx Hd IH]; cbn [dict_set].
  - by repeat constructor.
  - destruct (String.eqb k' k); by constructor.
Qed.

Lemma health_lists_score_bound svc fromisoformat (current : datetime)
    (board : list BoardList) (m m' : Metrics) (w w' : world) :
  fold_m (health_list svc fromisoformat current) board m w = (Returned m', w') ->
  health_score m' <= health_score m.
Proof.
  revert m w. induction board as [|lst board IH]; intros m w Hrun; cbn [fold_m] in Hrun.
  - rewrite ret_run in Hrun. injection Hrun as <- <-. lia.
  - rewrite bind_run in Hrun. unfold health_list at 1 in Hrun.
    rewrite bind_run, call_tool_run in Hrun.
    destruct (get_cards_by_list_id svc (journal w) (lst_id lst)) as [cards|info];
      [|discriminate].
    cbv beta iota in Hrun. rewrite lift_run in Hrun.
    destruct (fold_outcome _ cards _) as [m1|e] eqn:Hcards; [|discriminate].
    apply check_cards_keep in Hcards as (Hscore & _ & _). apply IH in Hrun.
    cbn [enter_list health_score] in Hscore. lia.
Qed.

(** X20: whatever the service and the parser answer, a health score that
    [generate_health_metrics] returns lies between 0 and 100. *)
Theorem generate_health_metrics_score_bounds :
  forall svc clock isoformat fromisoformat w metrics w',
    generate_health_metrics svc clock isoformat fromisoformat w = (Returned metrics, w') ->
    0 <= health_score metrics <= 100.
Proof.
  intros svc clock isoformat fromisoformat w metrics w' Hrun.
  unfold generate_health_metrics in Hrun.
  rewrite bind_run, now_run in Hrun. cbv beta iota in Hrun.
  rewrite bind_run, call_tool_run in Hrun.
  destruct (get_lists svc _) as [board|info]; [|discriminate].
  cbv beta iota in Hrun. rewrite bind_run, now_run in Hrun. cbv beta iota in Hrun.
  rewrite bind_run in Hrun.
  destruct (fold_m _ board _ _) as [[m1|e] w1] eqn:Hfold; [|discriminate].
  rewrite lift_run in Hrun.
  destruct (finish_metrics m1) as [m2|e] eqn:Hfinish; [|discriminate].
  injection Hrun as <- <-.
  apply health_lists_score_bound in Hfold.
  apply finish_metrics_fields in Hfinish as (-> & _).
  cbn [health_score] in *. lia.
Qed.

Lemma generate_health_metrics_score_bounds_witness :
  exists metrics w',
    generate_health_metrics sample_service sample_clock Calendar.isoformat
      Calendar.fromisoformat fresh_world = (Returned metrics, w') /\
    0 <= health_score metrics <= 100.
Proof.
  destruct (generate_health_metrics sample_service sample_clock Calendar.isoformat
              Calendar.fromisoformat fresh_world) as [[metrics|e] w'] eqn:Hrun;
    [|vm_compute in Hrun; discriminate].
  exists metrics, w'. split; [reflexivity|].
  exact (generate_health_metrics_score_bounds sample_service sample_clock Calendar.isoformat
           Calendar.fromisoformat fresh_world metrics w' Hrun).
Defined.

Lemma health_lists_counts svc fromisoformat (current : datetime) (board : list BoardList)
    (cards_of : string -> list Card) (m m' : Metrics) (w w' : world) :
  (forall h lst, In lst board ->
                 get_cards_by_list_id svc h (lst_id lst) = Answer (cards_of (lst_id lst))) ->
  fold_m (health_list svc fromisoformat current) board m w = (Returned m', w') ->
  total_cards m' = total_cards m + Z.of_nat (length (board_cards board cards_of)) /\
  (NoDup (map fst (lists m) ++ map lst_name board) ->
   lists m' =
   (lists m ++
    map (fun lst => (lst_name lst,
                     {| count := Z.of_nat (length (cards_of (lst_id lst)));
                        percentage := Float.Finite 0 |})) board)%list).
Proof.
  revert m w. induction board as [|lst board IH]; intros m w Hcards Hrun;
    cbn [fold_m] in Hrun.
  - rewrite ret_run in Hrun. injection Hrun as <- <-.
    unfold board_cards. cbn [flat_map length map].
    split; [lia | intros _; by rewrite app_nil_r].
  - rewrite bind_run in Hrun. unfold health_list at 1 in Hrun.
    rewrite bind_run, call_tool_run, (Hcards _ lst) in Hrun by (by left).
    cbv beta iota in Hrun. rewrite lift_run in Hrun.
    destruct (fold_outcome _ _ _) as [m1|e] eqn:Hscan; [|discriminate].
    apply check_cards_keep in Hscan as (_ & Htotal & Hlists).
    apply IH in Hrun as [Htotal' Hlists']; [|intros h l Hin; apply Hcards; by right].
    cbn [enter_list total_cards lists] in Htotal, Hlists. split.
    + rewrite Htotal', Htotal. unfold board_cards. cbn [flat_map].
      rewrite length_app. lia.
    + intros Hnodup. cbn [map] in Hnodup.
      apply NoDup_app in Hnodup as (Hold & Hdisjoint & Hboard).
      apply NoDup_cons in Hboard as [Hfresh Hboard].
      assert (Hnew : ~ In (lst_name lst) (map fst (lists m))).
      { intros Hin. apply (Hdisjoint (lst_name lst)); [by apply list_elem_of_In | by left]. }
      rewrite Hlists'.
      * rewrite Hlists, (dict_set_fresh _ _ _ Hnew). cbn [map].
        by rewrite <- app_assoc.
      * rewrite Hlists, (dict_set_fresh _ _ _ Hnew), map_app. cbn [map fst].
        rewrite <- app_assoc. cbn [app].
        apply NoDup_app. split; [done|]. split; [|by apply NoDup_cons].
        intros k Hk. apply Hdisjoint in Hk. by rewrite elem_of_cons in Hk |- *.
Qed.

Lemma map_outcome_each {A B} (f : A -> outcome B) (xs : list A) (ys : list B) :
  map_outcome f xs = Returned ys -> Forall2 (fun x y => f x = Returned y) xs ys.
Proof.
  revert ys. induction xs as [|x xs IH]; intros ys; cbn [map_outcome].
  - intros [= <-]. constructor.
  - destruct (f x) as [y|e] eqn:Hy; [|done].
    destruct (map_outcome f xs) as [ys'|e]; [|done].
    intros [= <-]. constructor; [done | by apply IH].
Qed.

(** X21: on a board that answers the fetches, a report that
    [generate_health_metrics] returns counts every card of the board in
    [total_cards]; when the lists have different names, [lists] has one
    entry per list, in the order of the board, with the number of its
    cards and its percentage: on a board without cards the 0 it started
    with, since nothing is divided, and otherwise the float that the true
    division of the count by the total gives, times 100 in floats. *)
Theorem generate_health_metrics_counts :
  forall svc clock isoformat fromisoformat w board cards_of metrics w',
    get_lists svc (journal w) = Answer board ->
    (forall h lst, In lst board ->
                   get_cards_by_list_id svc h (lst_id lst) = Answer (cards_of (lst_id lst))) ->
    generate_health_metrics svc clock isoformat fromisoformat w = (Returned metrics, w') ->
    let total := Z.of_nat (length (board_cards board cards_of)) in
    total_cards metrics = total /\
    (NoDup (map lst_name board) ->
     Forall2 (fun lst entry =>
                entry.1 = lst_name lst /\
                count entry.2 = Z.of_nat (length (cards_of (lst_id lst))) /\
                (total = 0 -> percentage entry.2 = Float.Finite 0) /\
                (0 < total ->
                 exists ratio,
                   Float.true_div (Z.of_nat (length (cards_of (lst_id lst)))) total
                   = Returned ratio /\
                   percentage entry.2 = Float.mul ratio 100))
       board (lists metrics)).
Proof.
  intros svc clock isoformat fromisoformat w board cards_of metrics w' Hboard Hcards Hrun total.
  unfold generate_health_metrics in Hrun.
  rewrite bind_run, now_run in Hrun. cbv beta iota in Hrun.
  rewrite bind_run, call_tool_run in Hrun. cbn [journal] in Hrun. rewrite Hboard in Hrun.
  cbv beta iota in Hrun. rewrite bind_run, now_run in Hrun. cbv beta iota in Hrun.
  rewrite bind_run in Hrun.
  destruct (fold_m _ board _ _) as [[m1|e] w1] eqn:Hfold; [|discriminate].
  rewrite lift_run in Hrun.
  destruct (finish_metrics m1) as [m2|e] eqn:Hfinish; [|discriminate].
  injection Hrun as <- <-.
  apply (health_lists_counts _ _ _ _ cards_of) in Hfold as [Htotal Hlists]; [|done].
  cbn [total_cards lists] in Htotal, Hlists. fold total in Htotal.
  apply finish_metrics_fields in Hfinish as (_ & Htotal' & _ & _ & _ & Hshares).
  rewrite Htotal in Htotal', Hshares. replace (0 + total) with total in * by lia.
  split; [done|]. intros Hnodup. rewrite Hlists in Hshares by done. cbn [app] in Hshares.
  destruct (Z.ltb_spec 0 total) as [Hpos|Hzero].
  - apply map_outcome_each, Forall2_fmap_l in Hshares.
    eapply Forall2_impl; [exact Hshares|]. intros lst entry.
    unfold compose, share_of. cbn [fst snd count].
    destruct (Float.true_div _ total) as [ratio|e] eqn:Hratio; [|done].
    intros [= <-]. cbn [fst snd count percentage].
    repeat split; [lia | by exists ratio].
  - rewrite Hshares. apply Forall2_fmap_r, Forall_Forall2_diag, Forall_forall.
    intros lst _. cbn [fst snd count percentage]. repeat split; try done; lia.
Qed.

Lemma generate_health_metrics_counts_witness :
  exists metrics w',
    generate_health_metrics sample_service sample_clock Calendar.isoformat
      Calendar.fromisoformat fresh_world = (Returned metrics, w') /\
    (let total := Z.of_nat (length (board_cards sample_board sample_cards)) in
     total_cards metrics = total /\
     (NoDup (map lst_name sample_board) ->
      Forall2 (fun lst entry =>
                 entry.1 = lst_name lst /\
                 count entry.2 = Z.of_nat (length (sample_cards (lst_id lst))) /\
                 (total = 0 -> percentage entry.2 = Float.Finite 0) /\
                 (0 < total ->
                  exists ratio,
                    Float.true_div (Z.of_nat (length (sample_cards (lst_id lst)))) total
                    = Returned ratio /\
                    percentage entry.2 = Float.mul ratio 100))
        sample_board (lists metrics))) /\
    total_cards metrics = 7 /\
    lists metrics
    = [ ("Sprint 23 - What Went Well",
         {| count := 0; percentage := Float.Finite (0 # 1) |});
        ("In Progress",
         {| count := 3;
            percentage := Float.Finite (6031606643799771 # 140737488355328) |});
        ("Done",
         {| count := 4;
            percentage := Float.Finite (2010535547933257 # 35184372088832) |}) ].
Proof.
  destruct (generate_health_metrics sample_service sample_clock Calendar.isoformat
              Calendar.fromisoformat fresh_world) as [[metrics|e] w'] eqn:Hrun;
    [|vm_compute in Hrun; discriminate].
  exists metrics, w'. split; [reflexivity|]. split.
  - apply (generate_health_metrics_counts sample_service sample_clock Calendar.isoformat
             Calendar.fromisoformat fresh_world sample_board sample_cards metrics w').
    + reflexivity.
    + intros h lst _. reflexivity.
    + exact Hrun.
  - vm_compute in Hrun. injection Hrun as <- <-. split; reflexivity.
Defined.

Lemma check_card_aware_due fromisoformat (current : Z) (lst : BoardList) (card : Card)
    (m : Metrics) (text : string) (instant offset : Z) :
  card_due card = Some text ->
  text <> "" ->
  fromisoformat (Text.replace_char "Z" "+00:00" text)
  = Returned {| wall := instant; utcoffset := Some offset |} ->
  check_card fromisoformat (naive current) lst m card
  = Raised (TypeError "can't compare offset-naive and offset-aware datetimes").
Proof.
  intros Hdue Htext Hparse. unfold check_card, check_overdue.
  by rewrite Hdue, (truthy_nonempty _ Htext), Hparse.
Qed.

(** X22: a due date that the parser reads as a timezone-aware instant
    stops [generate_health_metrics]: comparing it with the zone-less
    reading of the clock raises a [TypeError], already at the first card
    of the first list. *)
Theorem generate_health_metrics_aware_due_raises :
  forall svc clock isoformat fromisoformat w lst rest card cards text instant offset,
    get_lists svc (journal w) = Answer (lst :: rest) ->
    get_cards_by_list_id svc
      (journal w ++ [{| tool_name := "get_lists"; arguments := [] |}]) (lst_id lst)
    = Answer (card :: cards) ->
    card_due card = Some text ->
    text <> "" ->
    fromisoformat (Text.replace_char "Z" "+00:00" text)
    = Returned {| wall := instant; utcoffset := Some offset |} ->
    (generate_health_metrics svc clock isoformat fromisoformat w).1
    = Raised (TypeError "can't compare offset-naive and offset-aware datetimes").
Proof.
  intros svc clock isoformat fromisoformat w lst rest card cards text instant offset
    Hboard Hcards Hdue Htext Hparse.
  unfold generate_health_metrics.
  rewrite bind_run, now_run. cbv beta iota.
  rewrite bind_run, call_tool_run. cbn [journal]. rewrite Hboard. cbv beta iota.
  rewrite bind_run, now_run. cbv beta iota.
  rewrite bind_run. cbn [fold_m]. rewrite bind_run. unfold health_list at 1.
  rewrite bind_run, call_tool_run. cbn [journal]. rewrite Hcards. cbv beta iota.
  rewrite lift_run. cbn [fold_outcome].
  rewrite (check_card_aware_due fromisoformat _ lst card _ text instant offset Hdue Htext
             Hparse).
  reflexivity.
Qed.

Lemma generate_health_metrics_aware_due_raises_witness :
  (generate_health_metrics zulu_board sample_clock Calendar.isoformat Calendar.fromisoformat
     fresh_world).1
  = Raised (TypeError "can't compare offset-naive and offset-aware datetimes").
Proof.
  apply (generate_health_metrics_aware_due_raises zulu_board sample_clock Calendar.isoformat
           Calendar.fromisoformat fresh_world {| lst_id := "l1"; lst_name := "To Do" |} []
           zulu_card [] "2024-01-01T00:00:00Z" 1704067200000000 0).
  - reflexivity.
  - reflexivity.
  - reflexivity.
  - discriminate.
  - vm_compute. reflexivity.
Defined.

Lemma health_lists_shares svc fromisoformat (current : datetime) (board : list BoardList)
    (m m' : Metrics) (w w' : world) :
  fold_m (health_list svc fromisoformat current) board m w = (Returned m', w') ->
  shares_bounded m -> shares_bounded m'.
Proof.
  revert m w. induction board as [|lst board IH]; intros m w Hrun Hm; cbn [fold_m] in Hrun.
  - rewrite ret_run in Hrun. by injection Hrun as <- <-.
  - rewrite bind_run in Hrun. unfold health_list at 1 in Hrun.
    rewrite bind_run, call_tool_run in Hrun.
    destruct (get_cards_by_list_id svc (journal w) (lst_id lst)) as [cards|info];
      [|discriminate].
    cbv beta iota in Hrun. rewrite lift_run in Hrun.
    destruct (fold_outcome _ cards _) as [m1|e] eqn:Hscan; [|discriminate].
    apply check_cards_keep in Hscan as (_ & Htotal & Hlists).
    apply IH in Hrun; [done|].
    destruct Hm as [Hpos Hall]. unfold shares_bounded. rewrite Htotal, Hlists.
    cbn [enter_list total_cards lists]. split; [lia|]. apply dict_set_Forall.
    + eapply Forall_impl; [exact Hall|]. intros entry. cbv beta. lia.
    + intros k'. cbn [snd count]. lia.
Qed.

(** X26: on a board that answers the fetches, whose cards have a name and
    timestamps that read as zone-less instants, [generate_health_metrics]
    returns, and the score is 100 less 5 for every overdue card (due set,
    before the second clock reading, not complete), less 3 for every card
    with a label named exactly blocked, less 1 for every card whose last
    activity lies more than 14 whole days back, and 0 where that is
    negative. *)
Theorem generate_health_metrics_score :
  forall svc clock isoformat fromisoformat w board cards_of,
    get_lists svc (journal w) = Answer board ->
    (forall h lst, In lst board ->
                   get_cards_by_list_id svc h (lst_id lst) = Answer (cards_of (lst_id lst))) ->
    (forall card, In card (board_cards board cards_of) ->
                  card_name card <> None /\ zone_less fromisoformat card) ->
    exists metrics w',
      generate_health_metrics svc clock isoformat fromisoformat w = (Returned metrics, w') /\
      let cards := board_cards board cards_of in
      let current := clock (S (ticks w)) in
      health_score metrics
      = Z.max 0 (100 - 5 * tally (overdue fromisoformat current) cards
                 - 3 * tally blocked cards
                 - 1 * tally (stale_in_whole_days fromisoformat current) cards) /\
      0 <= health_score metrics <= 100.
Proof.
  intros svc clock isoformat fromisoformat w board cards_of Hboard Hfetch Hcards.
  unfold generate_health_metrics. run_method. cbn [journal ticks]. rewrite Hboard. run_method.
  cbn [ticks].
  match goal with |- context [fold_m _ board ?m0 ?w0] =>
    destruct (health_lists svc fromisoformat (clock (S (ticks w))) board cards_of m0 w0
                Hfetch Hcards) as (m' & w' & Hrun & Hscore);
    pose proof (health_lists_shares _ _ _ _ _ _ _ _ Hrun) as Hshares end.
  rewrite Hrun. run_method.
  destruct (finish_metrics_returns m') as [metrics Hfinish].
  { apply Hshares. split; [done | constructor]. }
  rewrite Hfinish. exists metrics, w'. split; [reflexivity|].
  apply finish_metrics_fields in Hfinish as (-> & _). cbv zeta.
  rewrite Hscore. cbn [health_score].
  pose proof (tally_nonneg (overdue fromisoformat (clock (S (ticks w))))
                (board_cards board cards_of)).
  pose proof (tally_nonneg blocked (board_cards board cards_of)).
  pose proof (tally_nonneg (stale_in_whole_days fromisoformat (clock (S (ticks w))))
                (board_cards board cards_of)).
  split; lia.
Qed.

Lemma generate_health_metrics_score_witness :
  (exists metrics w',
      generate_health_metrics troubled_service sample_clock Calendar.isoformat
        Calendar.fromisoformat fresh_world = (Returned metrics, w') /\
      let cards := board_cards troubled_board troubled_cards_of in
      let current := sample_clock 1 in
      health_score metrics
      = Z.max 0 (100 - 5 * tally (overdue Calendar.fromisoformat current) cards
                 - 3 * tally blocked cards
                 - 1 * tally (stale_in_whole_days Calendar.fromisoformat current) cards) /\
      0 <= health_score metrics <= 100) /\
  (let cards := board_cards troubled_board troubled_cards_of in
   map (overdue Calendar.fromisoformat (sample_clock 1)) cards
   = [true; false; false; false; true] /\
   map blocked cards = [false; false; true; false; true] /\
   map (stale_in_whole_days Calendar.fromisoformat (sample_clock 1)) cards
   = [false; false; false; true; true]) /\
  health_score
    (match generate_health_metrics troubled_service sample_clock Calendar.isoformat
             Calendar.fromisoformat fresh_world with
     | (Returned metrics, _) => metrics
     | (Raised _, _) =>
         {| timestamp := ""; lists := []; overdue_cards := []; blocked_cards := [];
            stale_cards := []; total_cards := 0; health_score := -1 |}
     end) = 82.
Proof.
  split; [|split; [repeat split; vm_compute; reflexivity | vm_compute; reflexivity]].
  apply (generate_health_metrics_score troubled_service sample_clock Calendar.isoformat
           Calendar.fromisoformat fresh_world troubled_board troubled_cards_of).
  - reflexivity.
  - intros h lst _. reflexivity.
  - intros card Hin. vm_compute in Hin.
    repeat (destruct Hin as [<-|Hin];
            [split; [discriminate|];
             intros text [Htext|Htext] _; try discriminate; injection Htext as <-;
             eexists; vm_compute; reflexivity|]).
    destruct Hin.
Defined.

(** Twenty-one overdue cards cost 105 points, and the score stops at 0. *)
Example generate_health_metrics_floor :
  health_score
    (match generate_health_metrics crowded_service sample_clock Calendar.isoformat
             Calendar.fromisoformat fresh_world with
     | (Returned metrics, _) => metrics
     | (Raised _, _) =>
         {| timestamp := ""; lists := []; overdue_cards := []; blocked_cards := [];
            stale_cards := []; total_cards := 0; health_score := -1 |}
     end) = 0.
Proof. vm_compute. reflexivity. Qed.

(** ** How the methods compose *)

Lemma initialize_priorities_complete svc (lists : list BoardList) (members : list Priority)
    (self self' : TaskManager) (w w' : world) :
  initialize_priorities svc lists members self w = (Returned tt, self', w') ->
  (forall p, In p members -> is_Some (priority_lists self' !! p)) /\
  (forall p, is_Some (priority_lists self !! p) -> is_Some (priority_lists self' !! p)).
Proof.
  revert self w. induction members as [|q members IH]; intros self w Hrun;
    cbn [initialize_priorities] in Hrun.
  - injection Hrun as <- <-. split; [intros p [] | done].
  - assert (Hset : forall lid p, is_Some (priority_lists self !! p) \/ p = q ->
                                 is_Some (priority_lists (with_priority_list self q lid) !! p)).
    { intros lid p Hp. cbn [with_priority_list priority_lists].
      destruct (decide (q = p)) as [->|Hne]; [by rewrite lookup_insert_eq|].
      rewrite lookup_insert_ne by done. destruct Hp as [Hp| ->]; done. }
    destruct (negb (existing (priority_list_name q) lists)) eqn:Hq.
    + rewrite call_tool_run in Hrun.
      destruct (add_list_to_board svc (journal w) _) as [new_list|info]; [|discriminate].
      apply IH in Hrun as [Hin Hkeep]. split.
      * intros p [<-|Hp]; [apply Hkeep, Hset; by right | by apply Hin].
      * intros p Hp. apply Hkeep, Hset. by left.
    + assert (Hfound : exists lid, find_list_id (priority_list_name q) lists = Some lid).
      { apply negb_false_iff in Hq. unfold existing in Hq. clear -Hq.
        induction lists as [|lst lists IHl]; [done|]. cbn [existsb find_list_id] in *.
        destruct (String.eqb (lst_name lst) (priority_list_name q)); [eauto|].
        by apply IHl. }
      destruct Hfound as [lid Hfind]. rewrite Hfind in Hrun.
      apply IH in Hrun as [Hin Hkeep]. split.
      * intros p [<-|Hp]; [apply Hkeep, Hset; by right | by apply Hin].
      * intros p Hp. apply Hkeep, Hset. by left.
Qed.

Lemma checklist_outcome svc (items : list string) (w : world) :
  (for_each items
     (fun item_text =>
        call_tool_ svc "add_checklist_item"
          [("text", AStr item_text); ("checkListName", AStr "Task Checklist")]) w).1
  = Returned tt \/
  exists info,
    (for_each items
       (fun item_text =>
          call_tool_ svc "add_checklist_item"
            [("text", AStr item_text); ("checkListName", AStr "Task Checklist")]) w).1
    = Raised (RemoteError info).
Proof.
  revert w. induction items as [|x items IH]; intros w; [by left|].
  cbn [for_each]. rewrite bind_run. unfold call_tool_ at 1 3. rewrite call_tool_run.
  destruct (acknowledge svc (journal w) _) as [[]|info]; [apply IH | right; eauto].
Qed.

(** X23: once [initialize_priority_lists] has run to its end, [create_task]
    finds a list for every priority: it returns the card, or it raises what
    the transport raised, and never a [KeyError]. *)
Theorem create_task_after_initialize :
  forall svc clock isoformat strftime self w0 self' w1 task w,
    initialize_priority_lists svc self w0 = (Returned tt, self', w1) ->
    (exists card, (create_task svc clock isoformat strftime self' task w).1.1 = Returned card)
    \/ (exists info, (create_task svc clock isoformat strftime self' task w).1.1
                     = Raised (RemoteError info)).
Proof.
  intros svc clock isoformat strftime self w0 self' w1 task w Hinit.
  unfold initialize_priority_lists in Hinit. rewrite call_tool_run in Hinit.
  destruct (get_lists svc (journal w0)) as [lists|info]; [|discriminate].
  apply initialize_priorities_complete in Hinit as [Hall _].
  unfold create_task.
  destruct (default_due_date clock task w) as [task' w2] eqn:Hdef.
  assert (Hsame : priority task' = priority task /\ exists d, due_date task' = Some d).
  { unfold default_due_date, read_clock in Hdef.
    destruct (due_date task) eqn:Hd; inversion Hdef; subst; simpl; rewrite ?Hd; eauto. }
  destruct Hsame as (Hp & d & Hd).
  destruct (Hall (priority task)) as [lid Hlid]; [destruct (priority task); cbn; tauto|].
  unfold post_task, priority_list, _format_task_description, due_date_isoformat.
  rewrite Hp, Hlid, Hd. run_method.
  destruct (add_card_to_list svc _ _) as [card|info]; run_method; [|right; eauto].
  match goal with |- context [for_each ?items ?body ?w3] =>
    destruct (checklist_outcome svc items w3) as [Hok|[info Hfail]];
    destruct (for_each items body w3) as [[[]|e] w4] end;
    cbn [fst] in *; run_method; cbn [fst]; try discriminate; eauto.
  right. exists info. congruence.
Qed.

Lemma create_task_after_initialize_witness :
  (exists card,
      (create_task half_prepared_board sample_clock Calendar.isoformat Calendar.strftime
         (initialize_priority_lists half_prepared_board new_TaskManager fresh_world).1.2
         sample_task fresh_world).1.1 = Returned card)
  \/ (exists info,
         (create_task half_prepared_board sample_clock Calendar.isoformat Calendar.strftime
            (initialize_priority_lists half_prepared_board new_TaskManager fresh_world).1.2
            sample_task fresh_world).1.1 = Raised (RemoteError info)).
Proof.
  apply (create_task_after_initialize half_prepared_board sample_clock Calendar.isoformat
           Calendar.strftime new_TaskManager fresh_world _
           (initialize_priority_lists half_prepared_board new_TaskManager fresh_world).2
           sample_task fresh_world).
  reflexivity.
Defined.

(** X24: once [setup_kanban_board] has run to its end on a new object,
    [move_card_to_stage] accepts each of the six workflow stages, and its
    first call moves the card to a list; any other stage name is refused
    with a [ValueError] before a call is made. *)
Theorem move_card_to_stage_after_setup :
  forall svc w0 self' w1 card_id stage comment w,
    setup_kanban_board svc new_KanbanAutomation w0 = (Returned tt, self', w1) ->
    (In stage ["Backlog"; "To Do"; "In Progress"; "Review"; "Testing"; "Done"] ->
     exists lid rest,
       journal (move_card_to_stage svc self' card_id stage comment w).2
       = (journal w ++
          {| tool_name := "move_card";
             arguments := [("cardId", AStr card_id); ("listId", AStr lid)] |} :: rest)%list /\
       forall msg, (move_card_to_stage svc self' card_id stage comment w).1
                   <> Raised (ValueError msg)) /\
    (~ In stage ["Backlog"; "To Do"; "In Progress"; "Review"; "Testing"; "Done"] ->
     move_card_to_stage svc self' card_id stage comment w
     = (Raised (ValueError ("Invalid stage: " +:+ stage)), w)).
Proof.
  intros svc w0 self' w1 card_id stage comment w Hsetup.
  pose proof (setup_kanban_board_known svc self' w0 w1 stage Hsetup) as Hknown.
  change (workflow_stages new_KanbanAutomation)
    with ["Backlog"; "To Do"; "In Progress"; "Review"; "Testing"; "Done"] in Hknown.
  unfold move_card_to_stage, stage_list. split.
  - intros Hin.
    destruct (stage_lists self' !! stage) as [lid|] eqn:Hlid; [|tauto].
    rewrite decide_False by done. unfold call_tool_. run_method.
    destruct (acknowledge svc (journal w) _) as [[]|info]; run_method.
    + destruct (truth comment); run_method.
      * destruct (acknowledge svc _ _) as [[]|info]; cbn [fst snd journal];
          rewrite <- app_assoc; (eexists lid, _; split; [reflexivity | done]).
      * eexists lid, []. by split.
    + eexists lid, []. by split.
  - intros Hnot. rewrite decide_True by tauto. by run_method.
Qed.

Lemma move_card_to_stage_after_setup_witness :
  let self' := (setup_kanban_board sample_service new_KanbanAutomation fresh_world).1.2 in
  (In "Review" ["Backlog"; "To Do"; "In Progress"; "Review"; "Testing"; "Done"] ->
   exists lid rest,
     journal (move_card_to_stage sample_service self' "c-high" "Review" None fresh_world).2
     = (journal fresh_world ++
        {| tool_name := "move_card";
           arguments := [("cardId", AStr "c-high"); ("listId", AStr lid)] |} :: rest)%list /\
     forall msg, (move_card_to_stage sample_service self' "c-high" "Review" None fresh_world).1
                 <> Raised (ValueError msg)) /\
  (~ In "Review" ["Backlog"; "To Do"; "In Progress"; "Review"; "Testing"; "Done"] ->
   move_card_to_stage sample_service self' "c-high" "Review" None fresh_world
   = (Raised (ValueError ("Invalid stage: " +:+ "Review")), fresh_world)).
Proof.
  apply (move_card_to_stage_after_setup sample_service fresh_world _
           (setup_kanban_board sample_service new_KanbanAutomation fresh_world).2
           "c-high" "Review" None fresh_world).
  reflexivity.
Defined.
